(** * RepoWiki: file selection, symbol aggregation, URL parsing, report cache

    A shallow embedding of the logic of
    - [services/githubService.ts]: [parseGithubUrl], [b64DecodeUnicode],
      the fetches, [fetchDependencyFiles], [fetchTopRepoFiles] with its local
      [scoreFile];
    - [services/geminiService.ts]: [summarizeRepo], [analyzeArchitecture],
      [analyzeCodeSymbols], [detectSetup], [analyzePitfalls], [generateWiki],
      [runSandboxSimulation], [summarizeTestOutput];
    - [App.tsx]: the cache-loading effect, [saveToCache], [handleAnalyze] and
      the progress bar.

    JavaScript strings are modelled as [string]; a character stands for one
    code unit (the model covers the code units below 256).  Numbers that are
    lengths and offsets are [nat], scores and timestamps are [Z].  The network
    and the language model are parameters: every definition that awaits one
    of them takes the answer as an argument. *)

From Stdlib Require Import String Ascii List ZArith Lia Bool Sorted Permutation DecimalString
  HexadecimalString.
From stdpp Require Import gmap strings.
From Equations Require Import Equations.
Import ListNotations.
Open Scope string_scope.

(* ===================================================================== *)
(** ** String primitives of the host language *)
(* ===================================================================== *)

Module JsString.

(** [s.slice(n)] for [0 <= n]: the string without its first [n] units. *)
Fixpoint drop_units (n : nat) (s : string) : string :=
  match n, s with
  | O, _ => s
  | S _, EmptyString => EmptyString
  | S n', String _ s' => drop_units n' s'
  end.

(** [s.substring(a, b)]: both indices are clamped to the length and
    swapped when they come in the wrong order. *)
Definition substring (s : string) (a b : nat) : string :=
  let len := String.length s in
  let a' := Nat.min a len in
  let b' := Nat.min b len in
  let lo := Nat.min a' b' in
  let hi := Nat.max a' b' in
  String.substring lo (hi - lo) s.

(** [s.startsWith(p)]. *)
Definition startsWith (s p : string) : bool := String.prefix p s.

(** [s.includes(p)]: [p] occurs at some offset of [s]. *)
Fixpoint includes (s p : string) : bool :=
  String.prefix p s
  || match s with
     | EmptyString => false
     | String _ s' => includes s' p
     end.

(** [s.endsWith(p)]. *)
Definition endsWith (s p : string) : bool :=
  let ls := String.length s in
  let lp := String.length p in
  (lp <=? ls)%nat && String.eqb (drop_units (ls - lp) s) p.

(** [s.split(sep)] for a separator of one unit; the result always has at
    least one segment ([''.split('/')] is [['']]). *)
Fixpoint split (sep : ascii) (s : string) : list string :=
  match s with
  | EmptyString => [EmptyString]
  | String c s' =>
      if Ascii.eqb c sep then EmptyString :: split sep s'
      else match split sep s' with
           | seg :: segs => String c seg :: segs
           | [] => [String c EmptyString]
           end
  end.

(** [arr.pop()] read as a value: the last element, [undefined] on []. *)
Definition pop {A} (l : list A) : option A := List.last (map Some l) None.

(** White space and line terminators among the code units below 256:
    TAB, LF, VT, FF, CR, SP, NBSP. *)
Definition is_white (c : ascii) : bool :=
  let n := nat_of_ascii c in
  ((9 <=? n) && (n <=? 13))%nat || (n =? 32)%nat || (n =? 160)%nat.

Fixpoint trimStart (s : string) : string :=
  match s with
  | EmptyString => EmptyString
  | String c s' => if is_white c then trimStart s' else s
  end.

Fixpoint trimEnd (s : string) : string :=
  match s with
  | EmptyString => EmptyString
  | String c s' =>
      match trimEnd s' with
      | EmptyString => if is_white c then EmptyString else String c EmptyString
      | t => String c t
      end
  end.

(** [s.trim()]. *)
Definition trim (s : string) : string := trimEnd (trimStart s).

(** [s.replace(pat, repl)] with a string pattern: only the first
    occurrence is replaced.  ([repl] is used literally; the callers below
    pass the empty string, which has no [$] patterns.) *)
Fixpoint replace (s pat repl : string) : string :=
  if String.prefix pat s then repl +:+ drop_units (String.length pat) s
  else match s with
       | EmptyString => EmptyString
       | String c s' => String c (replace s' pat repl)
       end.

(** [String(n)] for a non-negative integer. *)
Definition of_nat (n : nat) : string :=
  DecimalString.NilEmpty.string_of_uint (Nat.to_uint n).

(** [parts.join(sep)]. *)
Fixpoint join (sep : string) (parts : list string) : string :=
  match parts with
  | [] => EmptyString
  | [p] => p
  | p :: rest => p +:+ sep +:+ join sep rest
  end.

Fixpoint repeat (c : ascii) (n : nat) : string :=
  match n with
  | O => EmptyString
  | S n' => String c (repeat c n')
  end.

End JsString.

(* ===================================================================== *)
(** ** Results of fallible calls *)
(* ===================================================================== *)

(** A call either returns a value or throws an [Error] with a message. *)
Inductive result (A : Type) : Type :=
| Ok (a : A)
| Throw (message : string).
Arguments Ok {A} a.
Arguments Throw {A} message.

#[global] Instance result_ret : MRet result := fun _ a => Ok a.

#[global] Instance result_bind : MBind result := fun _ _ k r =>
  match r with
  | Ok a => k a
  | Throw m => Throw m
  end.

(** [try { body } catch (e) { handler(e) }]. *)
Definition try_catch {A} (body : result A) (handler : string -> result A) : result A :=
  match body with
  | Ok a => Ok a
  | Throw m => handler m
  end.

(* ===================================================================== *)
(** ** types.ts *)
(* ===================================================================== *)

Record RepoInfo := {
  owner : string;
  name : string;
  url : string;
  defaultBranch : option string
}.

Record FileExcerpt := {
  path : string;
  excerpt : string;
  size : nat
}.

Inductive Runtime := rt_node | rt_python | rt_go | rt_other | rt_unknown.

Record AnalysisResult := {
  ar_summary : string;
  ar_runtime : Runtime
}.

Inductive Confidence := high | medium | low.

Record ComponentInfo := {
  ci_name : string;
  ci_path : string;
  ci_role : string;
  ci_confidence : option Confidence;
  ci_evidence : option string
}.

Record EntryPointInfo := {
  ep_path : string;
  ep_reason : string
}.

Record ArchitectureAnalysis := {
  arch_summary : string;
  arch_runtime : Runtime;
  components : list ComponentInfo;
  entry_points : list EntryPointInfo
}.

Inductive SymbolKind := k_function | k_class | k_variable | k_interface | k_type | k_other.

Record SymbolDefinition := {
  file : string;
  symbol : string;
  kind : SymbolKind;
  signature : string;
  description : string;
  dependencies : list string;
  notes : option string;
  confidence : option Confidence
}.

Record SetupDetection := {
  install : list string;
  test : list string;
  env : list (string * string);
  sd_notes : string;
  sd_confidence : option Confidence;
  sd_evidence : option string
}.

Record Pitfall := {
  issue : string;
  severity : Confidence;
  remediation : string
}.

Record StaticAnalysisEntry := {
  sa_path : string;
  symbols : list SymbolDefinition
}.

Record StaticAnalysisData := {
  results : list StaticAnalysisEntry
}.

Record DeepScanData := {
  languages : list (string * nat);
  files : list FileExcerpt;
  architecture : option ArchitectureAnalysis
}.

Inductive Step :=
| idle | validating | cloning | reading | summarizing | scanning
| architecting | analyzing_symbols | detecting_setup | analyzing_pitfalls
| generating_wiki | running_sandbox | complete | error.

Record CachedRepoData := {
  timestamp : Z;
  repoInfo : RepoInfo;
  readme : string;
  analysisResult : AnalysisResult;
  deepScanData : DeepScanData;
  setupData : SetupDetection;
  pitfalls : list Pitfall;
  staticAnalysisData : option StaticAnalysisData;
  wikiMarkdown : string;
  dependencyFiles : list FileExcerpt
}.

(** One entry of the recursive tree listing of the GitHub API. *)
Record TreeItem := {
  ti_path : string;
  type : string;
  ti_size : nat
}.

(* ===================================================================== *)
(** ** Array primitives of the host language *)
(* ===================================================================== *)

Module JsArray.

(** Insertion of [x] in front of the first element it does not compare
    greater than. *)
Fixpoint insert_by {A} (cmp : A -> A -> Z) (x : A) (l : list A) : list A :=
  match l with
  | [] => [x]
  | y :: rest =>
      if (cmp x y <=? 0)%Z then x :: y :: rest
      else y :: insert_by cmp x rest
  end.

(** [arr.sort(cmp)].  The language standard requires the sort to be
    stable, and for a consistent comparator the result of a stable sort
    does not depend on the algorithm; insertion from the right is the
    simplest one. *)
Definition sort {A} (cmp : A -> A -> Z) (l : list A) : list A :=
  foldr (insert_by cmp) [] l.

(** [arr.slice(0, n)]. *)
Definition slice0 {A} (n : nat) (l : list A) : list A := firstn n l.

(** [arr.some(p)]. *)
Definition some {A} (p : A -> bool) (l : list A) : bool := existsb p l.

(** [arr.includes(x)] on an array of strings. *)
Definition includes (l : list string) (x : option string) : bool :=
  match x with
  | Some s => existsb (String.eqb s) l
  | None => false
  end.

(** [Promise.all] over callbacks that have settled: the results in order,
    or a rejection.  It is used over the callbacks of the windows, none of
    which rejects, so that no order among rejections has to be told. *)
Fixpoint promise_all {A} (l : list (result A)) : result (list A) :=
  match l with
  | [] => Ok []
  | Ok a :: rest =>
      match promise_all rest with
      | Ok r => Ok (a :: r)
      | Throw m => Throw m
      end
  | Throw m :: _ => Throw m
  end.

(** [Array.from(new Set(l))]: first occurrences, in order. *)
Fixpoint unique (seen : gset string) (l : list string) : list string :=
  match l with
  | [] => []
  | x :: rest =>
      if bool_decide (x ∈ seen) then unique seen rest
      else x :: unique ({[x]} ∪ seen) rest
  end.

End JsArray.

(* ===================================================================== *)
(** ** services/githubService.ts: the decoding of fetched content *)
(* ===================================================================== *)

Module Base64.
Import JsString.

(** [str.replace(/\s/g, '')]. *)
Fixpoint remove_white (s : string) : string :=
  match s with
  | EmptyString => EmptyString
  | String c s' => if is_white c then remove_white s' else String c (remove_white s')
  end.

(** [n.toString(16)] for a non-negative integer. *)
Definition toString16 (n : nat) : string :=
  HexadecimalString.NilZero.string_of_uint (Nat.to_hex_uint n).

(** [s.slice(-k)]: the last [k] units, all of [s] when it is shorter. *)
Definition slice_last (k : nat) (s : string) : string :=
  drop_units (String.length s - k) s.

(** The callback of [Array.prototype.map.call]:
    ['%' + ('00' + c.charCodeAt(0).toString(16)).slice(-2)]. *)
Definition percentEncode (c : ascii) : string :=
  "%" +:+ slice_last 2 ("00" +:+ toString16 (nat_of_ascii c)).

(** The two builtins of the host that [b64DecodeUnicode] calls.  [atob]
    throws on text that is not base64 and returns a string of bytes;
    [decodeURIComponent] throws on an escape sequence that is not UTF-8. *)
Record Host := {
  atob : string -> result string;
  decodeURIComponent : string -> result string
}.

Definition b64DecodeUnicode (host : Host) (str : string) : result string :=
  try_catch
    (binary ← atob host (remove_white str);
     decodeURIComponent host
       (join "" (map percentEncode (list_ascii_of_string binary))))
    (fun _ => atob host (remove_white str)).

(** The value of a lower-case hexadecimal digit. *)
Definition hex_value (c : ascii) : option nat :=
  let n := nat_of_ascii c in
  if ((48 <=? n) && (n <=? 57))%nat then Some (n - 48)%nat
  else if ((97 <=? n) && (n <=? 102))%nat then Some (n - 87)%nat
  else None.

(** The bytes a sequence of [%hh] escapes stands for; [None] when the text
    is not such a sequence. *)
Fixpoint percentDecode (s : string) : option string :=
  match s with
  | EmptyString => Some EmptyString
  | String p (String h (String l rest)) =>
      if Ascii.eqb p "%" then
        match hex_value h, hex_value l, percentDecode rest with
        | Some hi, Some lo, Some bytes => Some (String (ascii_of_nat (16 * hi + lo)) bytes)
        | _, _, _ => None
        end
      else None
  | _ => None
  end.

End Base64.

(* ===================================================================== *)
(** ** services/githubService.ts *)
(* ===================================================================== *)

Module GithubService.
Import JsString.

(** *** parseGithubUrl *)

(** The greedy group [([^\/]+)] of the pattern: the longest run of units
    other than a slash, and what follows it. *)
Fixpoint take_segment (s : string) : string * string :=
  match s with
  | EmptyString => (EmptyString, EmptyString)
  | String c s' =>
      if Ascii.eqb c "/" then (EmptyString, s)
      else let '(seg, rest) := take_segment s' in (String c seg, rest)
  end.

(** The pattern [/github\.com\/([^\/]+)\/([^\/]+)/] tried at the start of
    [s]; the two captured groups when it matches there.  The first group
    must be followed by a slash, so backtracking into it never helps: only
    the longest run is tried. *)
Definition match_here (s : string) : option (string * string) :=
  if String.prefix "github.com/" s then
    let '(g1, r1) := take_segment (drop_units 11 s) in
    match g1, r1 with
    | String _ _, String c r2 =>
        if Ascii.eqb c "/" then
          let '(g2, _) := take_segment r2 in
          match g2 with
          | String _ _ => Some (g1, g2)
          | EmptyString => None
          end
        else None
    | _, _ => None
    end
  else None.

(** [s.match(regex)] for the pattern above: the match at the leftmost
    offset where there is one. *)
Fixpoint regex_match (s : string) : option (string * string) :=
  match match_here s with
  | Some groups => Some groups
  | None =>
      match s with
      | EmptyString => None
      | String _ s' => regex_match s'
      end
  end.

Definition parseGithubUrl (url : string) : option RepoInfo :=
  let trimmed := trim url in
  match regex_match trimmed with
  | Some (g1, g2) =>
      Some {| owner := g1;
              name := replace g2 ".git" "";
              url := trimmed;
              defaultBranch := None |}
  | None => None
  end.

(** *** parseGithubUrl: what the pattern means *)

Fixpoint no_slash (s : string) : bool :=
  match s with
  | EmptyString => true
  | String c s' => negb (Ascii.eqb c "/") && no_slash s'
  end.

(** [s] reads [github.com/o/n] after [pre], with [o] and [n] non-empty
    and free of slashes: the pattern has a match at the offset
    [length pre]. *)
Definition matches_at (s pre o n rest : string) : Prop :=
  s = pre +:+ "github.com/" +:+ o +:+ "/" +:+ n +:+ rest /\
  o <> "" /\ n <> "" /\ no_slash o = true /\ no_slash n = true.

(** [s] contains [github.com/<owner>/<name>]. *)
Definition has_repo_pattern (s : string) : Prop :=
  exists pre o n rest, matches_at s pre o n rest.

(** The match the engine reports: at the leftmost offset that has one,
    with [n] running to the next slash or to the end of [s]. *)
Definition leftmost_match (s pre o n rest : string) : Prop :=
  matches_at s pre o n rest /\
  (rest = "" \/ exists r, rest = String "/" r) /\
  forall pre' o' n' rest',
    matches_at s pre' o' n' rest' -> (String.length pre <= String.length pre')%nat.


(** *** The network *)

(** What the GitHub API answers.  [getContents repo path] stands for
    [fetchJson] on the contents URL followed by the base64 decoding of the
    [content] field: [Throw] when the request or the decoding fails,
    [Ok None] when the answer has no [content] field. [getTree] is
    [fetchJson] on the recursive tree URL: [Ok None] when the answer has no
    [tree] array.  [getReadme] is [fetchJson] on the readme URL: the
    [content] field as it arrives, base64 text that [fetchRepoReadme] tests
    before it decodes it with the builtins of [host]; [None] when the answer
    has no such field. *)
Record Api := {
  getContents : RepoInfo -> string -> result (option string);
  getTree : RepoInfo -> result (option (list TreeItem));
  getDetails : RepoInfo -> result (option string);
  getReadme : RepoInfo -> result (option string);
  getLanguages : RepoInfo -> result (list (string * nat));
  host : Base64.Host
}.

Section WithApi.
Variable api : Api.

(** The test [!data.content] is on the field as it arrived: a field of
    white space only passes it and decodes to the empty string. *)
Definition fetchRepoReadme (repo : RepoInfo) : result string :=
  data ← getReadme api repo;
  match data with
  | None | Some EmptyString => Throw "Repository empty or unreadable."
  | Some content => Base64.b64DecodeUnicode (host api) content
  end.

Definition fetchRepoDetails (repo : RepoInfo) : result RepoInfo :=
  default_branch ← getDetails api repo;
  Ok {| owner := owner repo; name := name repo; url := url repo;
        defaultBranch := default_branch |}.

Definition fetchRepoLanguages (repo : RepoInfo) : result (list (string * nat)) :=
  getLanguages api repo.

Definition fetchFullFileContent (repo : RepoInfo) (p : string) : string :=
  match getContents api repo p with
  | Ok (Some content) => content
  | Ok None => ""
  | Throw _ => ""
  end.

(** *** fetchDependencyFiles *)

Definition targets : list string :=
  [ "package.json"; "package-lock.json"; "requirements.txt";
    "pyproject.toml"; "setup.py"; "Gemfile"; "go.mod"; "Cargo.toml";
    "Dockerfile"; "docker-compose.yml"; "Makefile" ].

Definition fetchDependencyFile (repo : RepoInfo) (target : string) : option FileExcerpt :=
  let content := fetchFullFileContent repo target in
  match content with
  | EmptyString => None
  | _ => Some {| path := target;
                 excerpt := substring content 0 3000;
                 size := String.length content |}
  end.

Definition fetchDependencyFiles (repo : RepoInfo) : list FileExcerpt :=
  let files := map (fetchDependencyFile repo) targets in
  omap id files.

(** *** fetchTopRepoFiles *)

Definition interestingExtensions : list string :=
  [ ".js"; ".jsx"; ".ts"; ".tsx"; ".py"; ".go"; ".rs"; ".java"; ".c";
    ".cpp"; ".rb"; ".php"; ".json"; ".toml"; ".yaml"; ".yml"; ".md" ].

Definition excludePatterns : list string :=
  [ "node_modules"; "dist"; "build"; "coverage"; "package-lock.json";
    "yarn.lock"; ".png"; ".jpg"; ".jpeg"; ".gif"; ".svg"; ".ico"; ".git/" ].

(** The callback of [treeData.tree.filter]. *)
Definition interesting (item : TreeItem) : bool :=
  if negb (String.eqb (type item) "blob") then false
  else if JsArray.some (fun p => includes (ti_path item) p) excludePatterns then false
  else
    let hasExtension :=
      JsArray.some (fun ext => endsWith (ti_path item) ext) interestingExtensions in
    let isConfig :=
      JsArray.includes ["Dockerfile"; "Makefile"; "Gemfile"]
                       (pop (split "/" (ti_path item))) in
    hasExtension || isConfig.

Definition scoreFile (p : string) : Z :=
  let score := 0%Z in
  let score := if startsWith p "src/" then (score + 10)%Z else score in
  let score := if startsWith p "app/" then (score + 10)%Z else score in
  let score := if startsWith p "lib/" then (score + 8)%Z else score in
  let score := if includes p "main" then (score + 5)%Z else score in
  let score := if includes p "index" then (score + 5)%Z else score in
  let score := if includes p "server" then (score + 5)%Z else score in
  let score := if includes p "App" then (score + 5)%Z else score in
  let score := if (List.length (split "/" p) <? 3)%nat then (score + 2)%Z else score in
  score.

Definition allFiles (tree : list TreeItem) : list TreeItem :=
  List.filter interesting tree.

Definition sortedFiles (tree : list TreeItem) : list TreeItem :=
  JsArray.sort (fun a b => (scoreFile (ti_path b) - scoreFile (ti_path a))%Z)
               (allFiles tree).

Definition topFiles (tree : list TreeItem) : list TreeItem :=
  JsArray.slice0 12 (sortedFiles tree).

Definition limit : nat := 500.

(** The callback of [topFiles.map]: the excerpt of one file, or the
    [(Read failed)] placeholder. *)
Definition fetchExcerpt (repo : RepoInfo) (f : TreeItem) : FileExcerpt :=
  match getContents api repo (ti_path f) with
  | Ok (Some rawContent) =>
      let excerpt :=
        if (limit <? String.length rawContent)%nat
        then substring rawContent 0 limit +:+ "... [truncated]"
        else rawContent in
      {| path := ti_path f; excerpt := excerpt; size := ti_size f |}
  | Ok None | Throw _ =>
      {| path := ti_path f; excerpt := "(Read failed)";
         size := ti_size f |}
  end.

Definition fetchTopRepoFiles (repo : RepoInfo) : result (list FileExcerpt) :=
  match defaultBranch repo with
  | None | Some EmptyString => Throw "Default branch not found"
  | Some _ =>
      treeData ← getTree api repo;
      match treeData with
      | None => Ok []
      | Some tree =>
          let excerpts := map (fetchExcerpt repo) (topFiles tree) in
          Ok (List.filter (fun f => negb (String.eqb (excerpt f) "(Read failed)")) excerpts)
      end
  end.

End WithApi.

End GithubService.

(* ===================================================================== *)
(** ** services/geminiService.ts *)
(* ===================================================================== *)

Module GeminiService.
Import JsString.

Definition nl : string := String (ascii_of_nat 10) EmptyString.
Definition dq : string := String (ascii_of_nat 34) EmptyString.

(** What [JSON.parse] can return where [analyzeCodeSymbols] casts it to
    [SymbolDefinition[]].  The cast checks nothing: the value is an array or
    it is not, and it, or an item of it, may be [null], which is [None]
    here.  A value other than [null] is read through its fields [symbol] and
    [kind], at the types of the cast. *)
Inductive JsonValue :=
| an_array (items : list (option SymbolDefinition))
| not_an_array (value : option SymbolDefinition).

(** The language model and the JSON codec of the host.
    [generateContent prompt] is [(await ai.models.generateContent(..)).text]:
    [Throw] when the request is rejected, [Ok None] when the answer carries
    no text.  The response schema is fixed at each call site, so the prompt
    identifies the request.  [parse_T text] is [JSON.parse(text) as T]: it
    throws on text that is not JSON, and the value it returns is read at
    the type the call site casts it to; for the symbols of a window, whose
    items are read outside every [try], the value is a [JsonValue]. *)
Record GenAI := {
  generateContent : string -> result (option string);
  parse_AnalysisResult : string -> result AnalysisResult;
  parse_ArchitectureAnalysis : string -> result ArchitectureAnalysis;
  parse_SymbolDefinitions : string -> result JsonValue;
  parse_SetupDetection : string -> result SetupDetection;
  parse_Pitfalls : string -> result (list Pitfall);
  stringify_ArchitectureAnalysis : option ArchitectureAnalysis -> string;
  stringify_StaticAnalysis : list StaticAnalysisEntry -> string
}.

(** [!text] for a value that is a string or [undefined]. *)
Definition falsy (text : option string) : bool :=
  match text with
  | None | Some EmptyString => true
  | Some _ => false
  end.

(** *** analyzeCodeSymbols: the windows *)

Definition CHUNK_SIZE : nat := 2500.

(** The loop
    [for (let i = 0; i < fullContent.length; i += 2000) chunks.push(..)],
    from the value [i] of the counter and the windows pushed so far. *)
Equations? chunk_loop (fullContent : string) (i : nat) (chunks : list string)
  : list string by wf (String.length fullContent - i) lt :=
  chunk_loop fullContent i chunks with decide (i < String.length fullContent) := {
    | left _ =>
        chunk_loop fullContent (i + 2000)
          (chunks ++ [substring fullContent i
                        (Nat.min (i + CHUNK_SIZE) (String.length fullContent))])%list;
    | right _ => chunks }.
Proof. lia. Qed.

Definition chunks (fullContent : string) : list string :=
  chunk_loop fullContent 0 [].

Definition chunksToProcess (fullContent : string) : list string :=
  JsArray.slice0 3 (chunks fullContent).

(** The window that starts at offset [2000 * k]. *)
Definition window (fullContent : string) (k : nat) : string :=
  substring fullContent (2000 * k)
    (Nat.min (2000 * k + 2500) (String.length fullContent)).

(** How many windows the loop pushes: one per multiple of the stride below
    the length. *)
Definition window_count (fullContent : string) : nat :=
  (String.length fullContent + 1999) / 2000.

(** *** analyzeCodeSymbols: the merge *)

Definition kind_string (k : SymbolKind) : string :=
  match k with
  | k_function => "function"
  | k_class => "class"
  | k_variable => "variable"
  | k_interface => "interface"
  | k_type => "type"
  | k_other => "other"
  end.

(** Whether a string contains the separator of a key. *)
Fixpoint has_dash (s : string) : bool :=
  match s with
  | EmptyString => false
  | String c s' => Ascii.eqb c "-" || has_dash s'
  end.

(** [`${s.symbol}-${s.kind}`]. *)
Definition key (s : SymbolDefinition) : string :=
  symbol s +:+ "-" +:+ kind_string (kind s).

(** [results.flat()]: the items of the answers that are arrays, and the
    other answers as they are. *)
Definition flat (results : list JsonValue) : list (option SymbolDefinition) :=
  concat (map (fun r => match r with
                        | an_array items => items
                        | not_an_array value => [value]
                        end) results).

(** [allSymbols.filter(s => ..)] with the set [seen] the callback
    updates.  The callback reads [s.symbol]: on [null] this throws a
    [TypeError], whose message is the engine's. *)
Fixpoint filter_unseen (seen : gset string) (allSymbols : list (option SymbolDefinition))
  : result (list SymbolDefinition) :=
  match allSymbols with
  | [] => Ok []
  | None :: _ => Throw "TypeError"
  | Some s :: rest =>
      if bool_decide (key s ∈ seen) then filter_unseen seen rest
      else
        match filter_unseen ({[key s]} ∪ seen) rest with
        | Ok kept => Ok (s :: kept)
        | Throw m => Throw m
        end
  end.

(** The records a list without [null] keeps: for each key the first record
    that has it. *)
Fixpoint first_records (seen : gset string) (allSymbols : list SymbolDefinition)
  : list SymbolDefinition :=
  match allSymbols with
  | [] => []
  | s :: rest =>
      if bool_decide (key s ∈ seen) then first_records seen rest
      else s :: first_records ({[key s]} ∪ seen) rest
  end.

(** [s] stands in [l] at a place with no record of its key before it. *)
Definition first_with_key (l : list SymbolDefinition) (s : SymbolDefinition) : Prop :=
  exists before after,
    l = (before ++ s :: after)%list /\ forall r, In r before -> key r <> key s.

Section WithModel.
Variable ai : GenAI.

(** A structured-response failure of the request [prompt]: the model
    answers, without text or with text that [parse] rejects. *)
Definition structured_failure {A} (parse : string -> result A) (prompt : string) : Prop :=
  exists text,
    generateContent ai prompt = Ok text /\
    (falsy text = true \/ exists m, parse (default "" text) = Throw m).

(** *** summarizeRepo *)

Definition summarizePrompt (readmeContent : string) : string :=
  let truncatedContent :=
    if (8000 <? String.length readmeContent)%nat
    then substring readmeContent 0 8000 +:+ nl +:+ "...[Truncated]..."
    else readmeContent in
  "You are a senior technical summarizer. Given the README text below, return a JSON object with keys: { 'summary': '<1-2 sentence summary>', 'runtime': 'node|python|go|other' }."
  +:+ nl +:+ nl +:+ "  README CONTENT:" +:+ nl
  +:+ "  " +:+ truncatedContent +:+ nl +:+ "  ".

Definition summarizeRepo (readmeContent : string) : result AnalysisResult :=
  let prompt := summarizePrompt readmeContent in
  try_catch
    (text ← generateContent ai prompt;
     if falsy text then Throw "No response generated from Gemini."
     else parse_AnalysisResult ai (default "" text))
    (fun _ => Throw "Failed to analyze the repository content.").

(** *** analyzeArchitecture *)

Definition architecturePrompt (files : list FileExcerpt) : string :=
  let filePrompt :=
    join nl (map (fun f => nl +:+ "--- FILE: " +:+ path f +:+ " ---" +:+ nl
                              +:+ excerpt f +:+ nl +:+ "  ") files) in
  "You are a code architect. Given a list of files, produce a JSON object describing the architecture."
  +:+ nl
  +:+ "  For each component, provide a confidence level (high/medium/low) and cite the specific file or folder used as evidence."
  +:+ nl +:+ nl +:+ "  FILES:" +:+ nl
  +:+ "  " +:+ filePrompt +:+ nl +:+ "  ".

Definition analyzeArchitecture (files : list FileExcerpt) : result ArchitectureAnalysis :=
  let prompt := architecturePrompt files in
  try_catch
    (text ← generateContent ai prompt;
     if falsy text then Throw "No response from Gemini."
     else parse_ArchitectureAnalysis ai (default "" text))
    (fun _ => Throw "Failed to analyze architecture.").

(** *** analyzeCodeSymbols *)

Definition chunkPrompt (p : string) (index : nat) (chunk : string) : string :=
  "You are a senior developer-documenter. Extract top-level functions and classes."
  +:+ nl
  +:+ "    For each symbol, assess confidence (high: signature is explicit, low: inferred)."
  +:+ nl +:+ nl
  +:+ "    FILE: " +:+ p +:+ " (Chunk " +:+ of_nat (index + 1) +:+ ")" +:+ nl
  +:+ "    CONTENT:" +:+ nl
  +:+ "    " +:+ chunk +:+ nl +:+ "    ".

(** The callback of [chunksToProcess.map]. *)
Definition analyzeChunk (p : string) (index : nat) (chunk : string)
  : result JsonValue :=
  try_catch
    (text ← generateContent ai (chunkPrompt p index chunk);
     if falsy text then Ok (an_array [])
     else parse_SymbolDefinitions ai (default "" text))
    (fun _ => Ok (an_array [])).

(** What the window [index] contributes to the merge: the value its
    answer parses to, the empty array when the request is rejected, the
    answer has no text or the text does not parse. *)
Definition windowSymbols (p : string) (index : nat) (chunk : string)
  : JsonValue :=
  match generateContent ai (chunkPrompt p index chunk) with
  | Ok text =>
      if falsy text then an_array []
      else match parse_SymbolDefinitions ai (default "" text) with
           | Ok value => value
           | Throw _ => an_array []
           end
  | Throw _ => an_array []
  end.

(** The request of the window [index] is rejected, or its answer has
    no text, or the text does not parse. *)
Definition extraction_fails (p : string) (index : nat) (chunk : string) : Prop :=
  match generateContent ai (chunkPrompt p index chunk) with
  | Ok text =>
      falsy text = true
      \/ exists m, parse_SymbolDefinitions ai (default "" text) = Throw m
  | Throw _ => True
  end.

Definition chunkPromises (p fullContent : string) : list (result JsonValue) :=
  imap (analyzeChunk p) (chunksToProcess fullContent).

(** The merge runs after [Promise.all], outside the [try] of the
    callbacks: what the filter throws, the aggregator throws. *)
Definition analyzeCodeSymbols (p fullContent : string) : result (list SymbolDefinition) :=
  results ← JsArray.promise_all (chunkPromises p fullContent);
  let allSymbols := flat results in
  filter_unseen ∅ allSymbols.

(** *** detectSetup *)

Definition filesPrompt (files : list FileExcerpt) : string :=
  join nl (map (fun f => "--- " +:+ path f +:+ " ---" +:+ nl +:+ excerpt f) files).

Definition setupDefault (note : string) : SetupDetection :=
  {| install := []; test := []; env := []; sd_notes := note;
     sd_confidence := None; sd_evidence := None |}.

Definition setupPrompt (dependencyFiles : list FileExcerpt) : string :=
  "Determine install/test commands and env vars." +:+ nl
  +:+ "  Provide confidence level and the file used as evidence (e.g. package.json)."
  +:+ nl +:+ "  " +:+ nl +:+ "  FILES:" +:+ nl
  +:+ "  " +:+ filesPrompt dependencyFiles +:+ nl +:+ "  ".

Definition detectSetup (dependencyFiles : list FileExcerpt) : result SetupDetection :=
  if (List.length dependencyFiles =? 0)%nat
  then Ok (setupDefault "No dependency files found.")
  else
    let prompt := setupPrompt dependencyFiles in
    try_catch
      (text ← generateContent ai prompt;
       if falsy text then Ok (setupDefault "Failed to parse setup.")
       else parse_SetupDetection ai (default "" text))
      (fun _ => Ok (setupDefault "Error during detection.")).

(** *** analyzePitfalls *)

Definition pitfallsPrompt (files : list FileExcerpt) : string :=
  "Analyze for pitfalls (missing keys, port conflicts, deprecated versions). Return top 5 issues."
  +:+ nl +:+ "  " +:+ nl +:+ "  FILES:" +:+ nl
  +:+ "  " +:+ filesPrompt files +:+ nl +:+ "  ".

Definition analyzePitfalls (files : list FileExcerpt) : result (list Pitfall) :=
  let prompt := pitfallsPrompt files in
  try_catch
    (text ← generateContent ai prompt;
     if falsy text then Ok []
     else parse_Pitfalls ai (default "" text))
    (fun _ => Ok []).

(** *** generateWiki *)

Definition generateWiki (readme : string)
    (architecture : option ArchitectureAnalysis)
    (staticAnalysis : option StaticAnalysisData)
    (dependencyFiles : list FileExcerpt) : string :=
  let truncatedReadme :=
    if (5000 <? String.length readme)%nat
    then substring readme 0 5000 +:+ "...(truncated)"
    else readme in
  let prompt :=
    "You are a technical writer using Gemini 3 Pro. " +:+ nl
    +:+ "  Construct a GitHub Wiki (Markdown)." +:+ nl
    +:+ "  " +:+ nl
    +:+ "  Synthesize inputs:" +:+ nl
    +:+ "  1. README: " +:+ truncatedReadme +:+ nl
    +:+ "  2. ARCHITECTURE: " +:+ stringify_ArchitectureAnalysis ai architecture +:+ nl
    +:+ "  3. SYMBOLS: "
    +:+ stringify_StaticAnalysis ai (from_option results [] staticAnalysis) +:+ nl
    +:+ "  4. DEPENDENCIES: " +:+ join ", " (map path dependencyFiles) +:+ nl
    +:+ "  " +:+ nl
    +:+ "  INSTRUCTIONS:" +:+ nl
    +:+ "  - Produce a single Markdown document." +:+ nl
    +:+ "  - Sections: Project Summary, Installation, Quickstart, Architecture, Key Files, Tests, Troubleshooting, Contribution."
    +:+ nl
    +:+ "  - IMPORTANT: Where possible, add a small footnote style reference to the source file, e.g. "
    +:+ dq +:+ "Main entry point [^src/index.js]" +:+ dq +:+ "."
    +:+ nl +:+ "  " in
  match generateContent ai prompt with
  | Ok text => if falsy text then "# Error generating wiki" else default "" text
  | Throw _ => "# Error generating wiki" +:+ nl +:+ nl +:+ "Failed to synthesize documentation."
  end.

End WithModel.

End GeminiService.

(* ===================================================================== *)
(** ** App.tsx *)
(* ===================================================================== *)

Module App.
Import JsString GithubService GeminiService.

Record SandboxResult := {
  rawOutput : string;
  sb_summary : string;
  failures : list string;
  fixes : list string;
  sb_passed : bool
}.

(** The component state that [handleAnalyze] reads or writes (the
    [useState] cells). *)
Record State := {
  st_url : string;
  currentStep : Step;
  logMessage : string;
  st_analysisResult : option AnalysisResult;
  st_deepScanData : option DeepScanData;
  st_staticAnalysisData : option StaticAnalysisData;
  st_setupData : option SetupDetection;
  st_pitfalls : list Pitfall;
  st_wikiMarkdown : string;
  st_dependencyFiles : list FileExcerpt;
  rawReadme : string;
  isRawExpanded : bool;
  st_error : option string;
  expandedFileIndex : option nat;
  sandboxResult : option SandboxResult
}.

Definition initialState : State :=
  {| st_url := ""; currentStep := idle; logMessage := "";
     st_analysisResult := None; st_deepScanData := None;
     st_staticAnalysisData := None; st_setupData := None;
     st_pitfalls := []; st_wikiMarkdown := ""; st_dependencyFiles := [];
     rawReadme := ""; isRawExpanded := false; st_error := None;
     expandedFileIndex := Some 0%nat; sandboxResult := None |}.

Definition setUrl (v : string) (st : State) : State :=
  {| st_url := v; currentStep := currentStep st; logMessage := logMessage st;
     st_analysisResult := st_analysisResult st;
     st_deepScanData := st_deepScanData st;
     st_staticAnalysisData := st_staticAnalysisData st;
     st_setupData := st_setupData st; st_pitfalls := st_pitfalls st;
     st_wikiMarkdown := st_wikiMarkdown st;
     st_dependencyFiles := st_dependencyFiles st; rawReadme := rawReadme st;
     isRawExpanded := isRawExpanded st; st_error := st_error st;
     expandedFileIndex := expandedFileIndex st; sandboxResult := sandboxResult st |}.

Definition setCurrentStep (v : Step) (st : State) : State :=
  {| st_url := st_url st; currentStep := v; logMessage := logMessage st;
     st_analysisResult := st_analysisResult st;
     st_deepScanData := st_deepScanData st;
     st_staticAnalysisData := st_staticAnalysisData st;
     st_setupData := st_setupData st; st_pitfalls := st_pitfalls st;
     st_wikiMarkdown := st_wikiMarkdown st;
     st_dependencyFiles := st_dependencyFiles st; rawReadme := rawReadme st;
     isRawExpanded := isRawExpanded st; st_error := st_error st;
     expandedFileIndex := expandedFileIndex st; sandboxResult := sandboxResult st |}.

Definition setLogMessage (v : string) (st : State) : State :=
  {| st_url := st_url st; currentStep := currentStep st; logMessage := v;
     st_analysisResult := st_analysisResult st;
     st_deepScanData := st_deepScanData st;
     st_staticAnalysisData := st_staticAnalysisData st;
     st_setupData := st_setupData st; st_pitfalls := st_pitfalls st;
     st_wikiMarkdown := st_wikiMarkdown st;
     st_dependencyFiles := st_dependencyFiles st; rawReadme := rawReadme st;
     isRawExpanded := isRawExpanded st; st_error := st_error st;
     expandedFileIndex := expandedFileIndex st; sandboxResult := sandboxResult st |}.

Definition setAnalysisResult (v : option AnalysisResult) (st : State) : State :=
  {| st_url := st_url st; currentStep := currentStep st; logMessage := logMessage st;
     st_analysisResult := v; st_deepScanData := st_deepScanData st;
     st_staticAnalysisData := st_staticAnalysisData st;
     st_setupData := st_setupData st; st_pitfalls := st_pitfalls st;
     st_wikiMarkdown := st_wikiMarkdown st;
     st_dependencyFiles := st_dependencyFiles st; rawReadme := rawReadme st;
     isRawExpanded := isRawExpanded st; st_error := st_error st;
     expandedFileIndex := expandedFileIndex st; sandboxResult := sandboxResult st |}.

Definition setDeepScanData (v : option DeepScanData) (st : State) : State :=
  {| st_url := st_url st; currentStep := currentStep st; logMessage := logMessage st;
     st_analysisResult := st_analysisResult st; st_deepScanData := v;
     st_staticAnalysisData := st_staticAnalysisData st;
     st_setupData := st_setupData st; st_pitfalls := st_pitfalls st;
     st_wikiMarkdown := st_wikiMarkdown st;
     st_dependencyFiles := st_dependencyFiles st; rawReadme := rawReadme st;
     isRawExpanded := isRawExpanded st; st_error := st_error st;
     expandedFileIndex := expandedFileIndex st; sandboxResult := sandboxResult st |}.

Definition setStaticAnalysisData (v : option StaticAnalysisData) (st : State) : State :=
  {| st_url := st_url st; currentStep := currentStep st; logMessage := logMessage st;
     st_analysisResult := st_analysisResult st;
     st_deepScanData := st_deepScanData st; st_staticAnalysisData := v;
     st_setupData := st_setupData st; st_pitfalls := st_pitfalls st;
     st_wikiMarkdown := st_wikiMarkdown st;
     st_dependencyFiles := st_dependencyFiles st; rawReadme := rawReadme st;
     isRawExpanded := isRawExpanded st; st_error := st_error st;
     expandedFileIndex := expandedFileIndex st; sandboxResult := sandboxResult st |}.

Definition setSetupData (v : option SetupDetection) (st : State) : State :=
  {| st_url := st_url st; currentStep := currentStep st; logMessage := logMessage st;
     st_analysisResult := st_analysisResult st;
     st_deepScanData := st_deepScanData st;
     st_staticAnalysisData := st_staticAnalysisData st; st_setupData := v;
     st_pitfalls := st_pitfalls st; st_wikiMarkdown := st_wikiMarkdown st;
     st_dependencyFiles := st_dependencyFiles st; rawReadme := rawReadme st;
     isRawExpanded := isRawExpanded st; st_error := st_error st;
     expandedFileIndex := expandedFileIndex st; sandboxResult := sandboxResult st |}.

Definition setPitfalls (v : list Pitfall) (st : State) : State :=
  {| st_url := st_url st; currentStep := currentStep st; logMessage := logMessage st;
     st_analysisResult := st_analysisResult st;
     st_deepScanData := st_deepScanData st;
     st_staticAnalysisData := st_staticAnalysisData st;
     st_setupData := st_setupData st; st_pitfalls := v;
     st_wikiMarkdown := st_wikiMarkdown st;
     st_dependencyFiles := st_dependencyFiles st; rawReadme := rawReadme st;
     isRawExpanded := isRawExpanded st; st_error := st_error st;
     expandedFileIndex := expandedFileIndex st; sandboxResult := sandboxResult st |}.

Definition setWikiMarkdown (v : string) (st : State) : State :=
  {| st_url := st_url st; currentStep := currentStep st; logMessage := logMessage st;
     st_analysisResult := st_analysisResult st;
     st_deepScanData := st_deepScanData st;
     st_staticAnalysisData := st_staticAnalysisData st;
     st_setupData := st_setupData st; st_pitfalls := st_pitfalls st;
     st_wikiMarkdown := v; st_dependencyFiles := st_dependencyFiles st;
     rawReadme := rawReadme st; isRawExpanded := isRawExpanded st;
     st_error := st_error st; expandedFileIndex := expandedFileIndex st;
     sandboxResult := sandboxResult st |}.

Definition setDependencyFiles (v : list FileExcerpt) (st : State) : State :=
  {| st_url := st_url st; currentStep := currentStep st; logMessage := logMessage st;
     st_analysisResult := st_analysisResult st;
     st_deepScanData := st_deepScanData st;
     st_staticAnalysisData := st_staticAnalysisData st;
     st_setupData := st_setupData st; st_pitfalls := st_pitfalls st;
     st_wikiMarkdown := st_wikiMarkdown st; st_dependencyFiles := v;
     rawReadme := rawReadme st; isRawExpanded := isRawExpanded st;
     st_error := st_error st; expandedFileIndex := expandedFileIndex st;
     sandboxResult := sandboxResult st |}.

Definition setRawReadme (v : string) (st : State) : State :=
  {| st_url := st_url st; currentStep := currentStep st; logMessage := logMessage st;
     st_analysisResult := st_analysisResult st;
     st_deepScanData := st_deepScanData st;
     st_staticAnalysisData := st_staticAnalysisData st;
     st_setupData := st_setupData st; st_pitfalls := st_pitfalls st;
     st_wikiMarkdown := st_wikiMarkdown st;
     st_dependencyFiles := st_dependencyFiles st; rawReadme := v;
     isRawExpanded := isRawExpanded st; st_error := st_error st;
     expandedFileIndex := expandedFileIndex st; sandboxResult := sandboxResult st |}.

Definition setIsRawExpanded (v : bool) (st : State) : State :=
  {| st_url := st_url st; currentStep := currentStep st; logMessage := logMessage st;
     st_analysisResult := st_analysisResult st;
     st_deepScanData := st_deepScanData st;
     st_staticAnalysisData := st_staticAnalysisData st;
     st_setupData := st_setupData st; st_pitfalls := st_pitfalls st;
     st_wikiMarkdown := st_wikiMarkdown st;
     st_dependencyFiles := st_dependencyFiles st; rawReadme := rawReadme st;
     isRawExpanded := v; st_error := st_error st;
     expandedFileIndex := expandedFileIndex st; sandboxResult := sandboxResult st |}.

Definition setError (v : option string) (st : State) : State :=
  {| st_url := st_url st; currentStep := currentStep st; logMessage := logMessage st;
     st_analysisResult := st_analysisResult st;
     st_deepScanData := st_deepScanData st;
     st_staticAnalysisData := st_staticAnalysisData st;
     st_setupData := st_setupData st; st_pitfalls := st_pitfalls st;
     st_wikiMarkdown := st_wikiMarkdown st;
     st_dependencyFiles := st_dependencyFiles st; rawReadme := rawReadme st;
     isRawExpanded := isRawExpanded st; st_error := v;
     expandedFileIndex := expandedFileIndex st; sandboxResult := sandboxResult st |}.

Definition setExpandedFileIndex (v : option nat) (st : State) : State :=
  {| st_url := st_url st; currentStep := currentStep st; logMessage := logMessage st;
     st_analysisResult := st_analysisResult st;
     st_deepScanData := st_deepScanData st;
     st_staticAnalysisData := st_staticAnalysisData st;
     st_setupData := st_setupData st; st_pitfalls := st_pitfalls st;
     st_wikiMarkdown := st_wikiMarkdown st;
     st_dependencyFiles := st_dependencyFiles st; rawReadme := rawReadme st;
     isRawExpanded := isRawExpanded st; st_error := st_error st;
     expandedFileIndex := v; sandboxResult := sandboxResult st |}.

Definition setSandboxResult (v : option SandboxResult) (st : State) : State :=
  {| st_url := st_url st; currentStep := currentStep st; logMessage := logMessage st;
     st_analysisResult := st_analysisResult st;
     st_deepScanData := st_deepScanData st;
     st_staticAnalysisData := st_staticAnalysisData st;
     st_setupData := st_setupData st; st_pitfalls := st_pitfalls st;
     st_wikiMarkdown := st_wikiMarkdown st;
     st_dependencyFiles := st_dependencyFiles st; rawReadme := rawReadme st;
     isRawExpanded := isRawExpanded st; st_error := st_error st;
     expandedFileIndex := expandedFileIndex st; sandboxResult := v  |}.


(** What the slot [repoWikiCache] of [localStorage] holds, as far as the
    code can tell one text from another: the text [JSON.stringify] wrote for
    a report; text that [JSON.parse] rejects, the empty text among it; the
    text [null]; JSON for another value that has no [repoInfo], such as [{}].
    A value that has a [repoInfo] is read at the type of what [saveToCache]
    writes. *)
Inductive Stored :=
| Serialized (report : CachedRepoData)
| Unparsable (text : string)
| JsonNull
| NoRepoInfo.

(** [if (saved)] for a text: it is not the empty one. *)
Definition truthy (saved : Stored) : bool :=
  match saved with
  | Unparsable EmptyString => false
  | _ => true
  end.

(** The value [JSON.parse] returns on the text of the slot. *)
Inductive Parsed :=
| a_report (report : CachedRepoData)
| a_null
| without_repoInfo.

(** [JSON.parse(saved)]. *)
Definition JSON_parse (saved : Stored) : result Parsed :=
  match saved with
  | Serialized report => Ok (a_report report)
  | Unparsable _ => Throw "SyntaxError"
  | JsonNull => Ok a_null
  | NoRepoInfo => Ok without_repoInfo
  end.

(** [parsed.timestamp]: a [TypeError] on [null]; on a value that is not a
    report the read gives something the comparison that follows is false
    for ([None]). *)
Definition read_timestamp (parsed : Parsed) : result (option Z) :=
  match parsed with
  | a_report report => Ok (Some (timestamp report))
  | a_null => Throw "TypeError"
  | without_repoInfo => Ok None
  end.

(** [parsed.repoInfo.name]: a [TypeError] when [parsed] is [null] or has
    no [repoInfo]; the report whose fields are read next otherwise. *)
Definition read_repoInfo (parsed : Parsed) : result CachedRepoData :=
  match parsed with
  | a_report report => Ok report
  | a_null | without_repoInfo => Throw "TypeError"
  end.

(** The component state together with the storage slot
    ([None]: [getItem] returns [null]). *)
Record World := {
  ui : State;
  localStorage : option Stored
}.

(** What a run of the pipeline reads from outside: the two services, the
    clock, whether the storage accepts a write of a given size, and, of the
    two requests the scanning step has in flight, whether the one for the
    languages settles before the one for the tree. *)
Record Env := {
  api : Api;
  ai : GenAI;
  Date_now : Z;
  quota_ok : CachedRepoData -> bool;
  languagesFirst : bool
}.

(** Statements that update the world and may throw. *)
Definition M (A : Type) : Type := World -> World * result A.

Definition ret {A} (a : A) : M A := fun w => (w, Ok a).

Definition bindM {A B} (c : M A) (k : A -> M B) : M B :=
  fun w =>
    match c w with
    | (w', Ok a) => k a w'
    | (w', Throw m) => (w', Throw m)
    end.

(** [await call], for a call whose outcome is known. *)
Definition await {A} (r : result A) : M A := fun w => (w, r).

(** A call of one of the [set..] functions of [useState]. *)
Definition set (f : State -> State) : M unit :=
  fun w => ({| ui := f (ui w); localStorage := localStorage w |}, Ok tt).

Notation "'let*' x ':=' c 'in' k" := (bindM c (fun x => k))
  (at level 10, x name, c at level 100, k at level 200).
Notation "c ';;;' k" := (bindM c (fun _ => k))
  (at level 100, k at level 200, right associativity).

(** *** The effect that runs on mount *)

Definition loadCacheOnMount (now : Z) (w : World) : World :=
  match localStorage w with
  | Some saved =>
      if truthy saved then
        match (parsed ← JSON_parse saved; read_timestamp parsed) with
        | Ok stamp =>
            if match stamp with
               | Some t => (now - t <? 3600000)%Z
               | None => false
               end
            then w   (* the restoring call is commented out in the source *)
            else w
        | Throw _ => {| ui := ui w; localStorage := None |}
        end
      else w
  | None => w
  end.

Section WithEnv.
Variable env : Env.

(** *** saveToCache
    The payload takes [timestamp] from the clock and every other field from
    the argument: the only call passes all of them and no [timestamp], so
    the [timestamp] of [data] is never read. *)
Definition saveToCache (data : CachedRepoData) : M unit :=
  fun w =>
    let payload :=
      {| timestamp := Date_now env;
         repoInfo := repoInfo data;
         readme := readme data;
         analysisResult := analysisResult data;
         deepScanData := deepScanData data;
         setupData := setupData data;
         pitfalls := pitfalls data;
         staticAnalysisData := staticAnalysisData data;
         wikiMarkdown := wikiMarkdown data;
         dependencyFiles := dependencyFiles data |} in
    if quota_ok env payload
    then ({| ui := ui w; localStorage := Some (Serialized payload) |}, Ok tt)
    else (w, Ok tt).

(** *** handleAnalyze: restoring a cached report *)

Definition restore (parsed : CachedRepoData) (st : State) : State :=
  setLogMessage "Restored from Cache"
    (setCurrentStep complete
      (setDependencyFiles (dependencyFiles parsed)
        (setRawReadme (readme parsed)
          (setWikiMarkdown (wikiMarkdown parsed)
            (setStaticAnalysisData (staticAnalysisData parsed)
              (setPitfalls (pitfalls parsed)
                (setSetupData (Some (setupData parsed))
                  (setDeepScanData (Some (deepScanData parsed))
                    (setAnalysisResult (Some (analysisResult parsed)) st))))))))).

(** *** handleAnalyze: the pipeline *)

Definition resetState (st : State) : State :=
  setSandboxResult None
    (setExpandedFileIndex (Some 0%nat)
      (setIsRawExpanded false
        (setRawReadme ""
          (setWikiMarkdown ""
            (setPitfalls []
              (setSetupData None
                (setStaticAnalysisData None
                  (setDeepScanData None
                    (setAnalysisResult None
                      (setError None st)))))))))).

(** [setDeepScanData(prev => prev ? { ...prev, architecture } : null)]. *)
Definition withArchitecture (architecture : ArchitectureAnalysis) (st : State) : State :=
  setDeepScanData
    (match st_deepScanData st with
     | Some prev => Some {| languages := languages prev; files := files prev;
                            architecture := Some architecture |}
     | None => None
     end) st.

(** The loop [for (const filePath of entryPoints) { .. }] with the
    array [staticResults] it pushes to. *)
Fixpoint analyzeEntryPoints (repo : RepoInfo) (entryPoints : list string)
    (staticResults : list StaticAnalysisEntry) : M (list StaticAnalysisEntry) :=
  match entryPoints with
  | [] => ret staticResults
  | filePath :: rest =>
      set (setLogMessage ("Analyzing symbols in " +:+ filePath +:+ "...")) ;;;
      let content := fetchFullFileContent (api env) repo filePath in
      match content with
      | EmptyString => analyzeEntryPoints repo rest staticResults
      | _ =>
          let* symbols := await (analyzeCodeSymbols (ai env) filePath content) in
          analyzeEntryPoints repo rest
            (staticResults ++ [{| sa_path := filePath; symbols := symbols |}])%list
      end
  end.

(** The scanning step,
    [await Promise.all([fetchRepoLanguages(..), fetchTopRepoFiles(..),
    fetchDependencyFiles(..)])].  [Promise.all] rejects with the rejection
    that settles first.  [fetchDependencyFiles] never rejects;
    [fetchTopRepoFiles] rejects at once, before any request, when there is
    no default branch, and with its tree request otherwise; when that
    request and the one for the languages both fail, the environment tells
    which one failed first. *)
Definition scan (repoInfo : RepoInfo)
  : result (list (string * nat) * list FileExcerpt * list FileExcerpt) :=
  let deps := fetchDependencyFiles (api env) repoInfo in
  match fetchRepoLanguages (api env) repoInfo, fetchTopRepoFiles (api env) repoInfo with
  | Ok languages, Ok files => Ok (languages, files, deps)
  | Ok _, Throw tree_error => Throw tree_error
  | Throw languages_error, Ok _ => Throw languages_error
  | Throw languages_error, Throw tree_error =>
      match defaultBranch repoInfo with
      | None | Some EmptyString => Throw tree_error
      | Some _ => if languagesFirst env then Throw languages_error else Throw tree_error
      end
  end.

(** The body of the [try] block. *)
Definition pipeline (repoInfo : RepoInfo) : M unit :=
  set (setCurrentStep cloning) ;;;
  set (setLogMessage ("Cloning " +:+ owner repoInfo +:+ "/" +:+ name repoInfo +:+ "...")) ;;;
  let* repoInfo := await (fetchRepoDetails (api env) repoInfo) in

  set (setCurrentStep reading) ;;;
  set (setLogMessage "Reading README.md...") ;;;
  let* readmeContent := await (fetchRepoReadme (api env) repoInfo) in
  set (setRawReadme readmeContent) ;;;

  set (setCurrentStep summarizing) ;;;
  set (setLogMessage "Analyzing README with Gemini 3 Pro...") ;;;
  let* result := await (summarizeRepo (ai env) readmeContent) in
  set (setAnalysisResult (Some result)) ;;;

  set (setCurrentStep scanning) ;;;
  set (setLogMessage "Scanning file structure & identifying languages...") ;;;
  let* scanned := await (scan repoInfo) in
  let languages := fst (fst scanned) in
  let files := snd (fst scanned) in
  let deps := snd scanned in
  set (setDependencyFiles deps) ;;;
  set (setDeepScanData
         (Some {| languages := languages; files := files; architecture := None |})) ;;;

  set (setCurrentStep detecting_setup) ;;;
  set (setLogMessage "Detecting build/test commands...") ;;;
  let* setup := await (detectSetup (ai env) deps) in
  set (setSetupData (Some setup)) ;;;

  set (setCurrentStep analyzing_pitfalls) ;;;
  set (setLogMessage "Checking for common runtime pitfalls...") ;;;
  let allFilesForContext := JsArray.slice0 15 (deps ++ files)%list in
  let* pitfallsResult := await (analyzePitfalls (ai env) allFilesForContext) in
  set (setPitfalls pitfallsResult) ;;;

  let* arch :=
    (if (0 <? List.length files)%nat then
       set (setCurrentStep architecting) ;;;
       set (setLogMessage "Architecting system overview...") ;;;
       let* architecture := await (analyzeArchitecture (ai env) files) in
       set (withArchitecture architecture) ;;;
       let entryPoints := map ep_path (entry_points architecture) in
       let entryPoints :=
         if (List.length entryPoints <? 2)%nat
         then (entryPoints ++ map path (JsArray.slice0 3 files))%list
         else entryPoints in
       ret (Some architecture, JsArray.slice0 3 (JsArray.unique ∅ entryPoints))
     else ret (None, [])) in
  let archData := fst arch in
  let entryPoints := snd arch in

  let* staticResults :=
    (if (0 <? List.length entryPoints)%nat then
       set (setCurrentStep analyzing_symbols) ;;;
       set (setLogMessage "Deep Static Analysis of key components...") ;;;
       let* staticResults := analyzeEntryPoints repoInfo entryPoints [] in
       set (setStaticAnalysisData (Some {| results := staticResults |})) ;;;
       ret staticResults
     else ret []) in

  set (setCurrentStep generating_wiki) ;;;
  set (setLogMessage "Synthesizing comprehensive Wiki documentation...") ;;;
  let wiki := generateWiki (ai env) readmeContent archData
                (Some {| results := staticResults |}) deps in
  set (setWikiMarkdown wiki) ;;;

  saveToCache
    {| timestamp := 0;
       repoInfo := repoInfo;
       readme := readmeContent;
       analysisResult := result;
       deepScanData := {| languages := languages; files := files;
                          architecture := archData |};
       setupData := setup;
       pitfalls := pitfallsResult;
       staticAnalysisData := Some {| results := staticResults |};
       wikiMarkdown := wiki;
       dependencyFiles := deps |} ;;;

  set (setCurrentStep complete) ;;;
  set (setLogMessage "Full analysis complete.").

(** [err.message || 'An unexpected error occurred.']. *)
Definition errorMessage (message : string) : string :=
  match message with
  | EmptyString => "An unexpected error occurred."
  | _ => message
  end.

(** The fresh run: the state is reset, then the pipeline runs inside
    [try]; whatever it throws ends the run in the [error] step. *)
Definition freshRun (repoInfo : RepoInfo) : M unit :=
  fun w =>
    let w := {| ui := setLogMessage "Validating URL format..."
                        (setCurrentStep validating (resetState (ui w)));
                localStorage := localStorage w |} in
    match pipeline repoInfo w with
    | (w', Ok tt) => (w', Ok tt)
    | (w', Throw err) =>
        ({| ui := setError (Some (errorMessage err)) (setCurrentStep error (ui w'));
            localStorage := localStorage w' |}, Ok tt)
    end.

(** *** handleAnalyze
    The result is [Throw] when the handler itself rejects, which only the
    cache check can cause: its [JSON.parse] and its read of
    [parsed.repoInfo.name] are outside the [try]. *)
Definition handleAnalyze (skipCache : bool) : M unit :=
  fun w =>
    let saved := localStorage w in
    match parseGithubUrl (st_url (ui w)) with
    | None =>
        ({| ui := setError
                    (Some "Invalid GitHub URL. Format: https://github.com/owner/repo")
                    (setCurrentStep error (ui w));
            localStorage := localStorage w |}, Ok tt)
    | Some repoInfo' =>
        match saved with
        | Some saved =>
            if negb skipCache && truthy saved then
              match (parsed ← JSON_parse saved; read_repoInfo parsed) with
              | Throw m => (w, Throw m)
              | Ok parsed =>
                  if String.eqb (name (repoInfo parsed)) (name repoInfo')
                     && String.eqb (owner (repoInfo parsed)) (owner repoInfo')
                  then ({| ui := restore parsed (ui w);
                           localStorage := localStorage w |}, Ok tt)
                  else freshRun repoInfo' w
              end
            else freshRun repoInfo' w
        | None => freshRun repoInfo' w
        end
    end.

End WithEnv.

End App.

(* ===================================================================== *)
(** ** Concrete inputs *)
(* ===================================================================== *)

Module Demo.
Import JsString GithubService GeminiService.

Definition blob (p : string) : TreeItem :=
  {| ti_path := p; type := "blob"; ti_size := 100 |}.

(** Sixteen entries, fourteen of them eligible. *)
Definition tree : list TreeItem :=
  map blob
    [ "README.md"; "src/index.ts"; "node_modules/x/index.js"; "dist/bundle.js";
      "src/App.tsx"; "lib/util.ts"; "docs/guide.md"; "a.py"; "b.py"; "c.py";
      "d.py"; "e.py"; "f.py"; "g.py"; "h.py"; "app/server.js" ].

Definition repo : RepoInfo :=
  {| owner := "o"; name := "r"; url := "https://github.com/o/r";
     defaultBranch := Some "main" |}.

(** A host that knows the base64 of three texts, and whose
    [decodeURIComponent] accepts the escapes of bytes below 128 only. *)
Definition host : Base64.Host :=
  {| Base64.atob := fun s =>
       if String.eqb s "aGk=" then Ok "hi"
       else if String.eqb s "IyBy" then Ok "# r"
       else if String.eqb s "/w==" then Ok (String (ascii_of_nat 255) "")
       else if String.eqb s "" then Ok ""
       else Throw "InvalidCharacterError";
     Base64.decodeURIComponent := fun escaped =>
       match Base64.percentDecode escaped with
       | Some bytes =>
           if forallb (fun c => (nat_of_ascii c <? 128)%nat) (list_ascii_of_string bytes)
           then Ok bytes else Throw "URIError"
       | None => Throw "URIError"
       end |}.

(** A repository whose README is [# r], whose [src/index.ts] has 501 units,
    whose [package.json] has 3100, whose [lib/util.ts] cannot be read and
    which has no other dependency manifest. *)
Definition api : Api :=
  {| getContents := fun _ p =>
       if String.eqb p "src/index.ts" then Ok (Some (repeat "x" 501))
       else if String.eqb p "package.json" then Ok (Some (repeat "d" 3100))
       else if String.eqb p "lib/util.ts" then Throw "Resource not found."
       else if JsArray.includes targets (Some p) then Throw "Resource not found."
       else Ok (Some ("// " +:+ p));
     getTree := fun _ => Ok (Some tree);
     getDetails := fun _ => Ok (Some "main");
     getReadme := fun _ => Ok (Some "IyBy");
     getLanguages := fun _ => Ok [("TypeScript", 1000%nat)];
     GithubService.host := host |}.

Definition useState : SymbolDefinition :=
  {| file := "src/a.ts"; symbol := "useState"; kind := k_function;
     signature := "useState(initialState)"; description := "Returns a stateful value.";
     dependencies := []; notes := None; confidence := Some high |}.

Definition Store : SymbolDefinition :=
  {| file := "src/a.ts"; symbol := "Store"; kind := k_class;
     signature := "class Store"; description := "Holds the state.";
     dependencies := ["useState"]; notes := None; confidence := None |}.

(** The same symbol and kind as [useState], described differently. *)
Definition useState_again : SymbolDefinition :=
  {| file := "src/a.ts"; symbol := "useState"; kind := k_function;
     signature := "useState<T>(initialState: T)"; description := "A hook.";
     dependencies := ["Store"]; notes := Some "seen twice"; confidence := Some low |}.

(** A model whose answer to the second window of a file is rejected, and
    which answers every other request with text.  The text parses as a
    summary, as an architecture and as three symbol records, the third a
    duplicate of the first; it does not parse as a setup or as pitfalls. *)
Definition ai : GenAI :=
  {| generateContent := fun prompt =>
       if includes prompt "(Chunk 2)" then Throw "503" else Ok (Some "[...]");
     parse_AnalysisResult := fun _ =>
       Ok {| ar_summary := "A library."; ar_runtime := rt_node |};
     parse_ArchitectureAnalysis := fun _ =>
       Ok {| arch_summary := "One package."; arch_runtime := rt_node;
             components := [];
             entry_points := [{| ep_path := "src/index.ts"; ep_reason := "main" |}] |};
     parse_SymbolDefinitions := fun _ =>
       Ok (an_array [Some useState; Some Store; Some useState_again]);
     parse_SetupDetection := fun _ => Throw "SyntaxError";
     parse_Pitfalls := fun _ => Throw "SyntaxError";
     stringify_ArchitectureAnalysis := fun _ => "{}";
     stringify_StaticAnalysis := fun _ => "[]" |}.

(** The same model, except that its text does not parse as an
    architecture. *)
Definition noArchitecture : GenAI :=
  {| generateContent := generateContent ai;
     parse_AnalysisResult := parse_AnalysisResult ai;
     parse_ArchitectureAnalysis := fun _ => Throw "SyntaxError";
     parse_SymbolDefinitions := parse_SymbolDefinitions ai;
     parse_SetupDetection := parse_SetupDetection ai;
     parse_Pitfalls := parse_Pitfalls ai;
     stringify_ArchitectureAnalysis := fun _ => "{}";
     stringify_StaticAnalysis := fun _ => "[]" |}.

(** The same model, except that its text parses to [null] where symbols
    are expected: the text [null] is JSON. *)
Definition nullSymbols : GenAI :=
  {| generateContent := generateContent ai;
     parse_AnalysisResult := parse_AnalysisResult ai;
     parse_ArchitectureAnalysis := parse_ArchitectureAnalysis ai;
     parse_SymbolDefinitions := fun _ => Ok (not_an_array None);
     parse_SetupDetection := parse_SetupDetection ai;
     parse_Pitfalls := parse_Pitfalls ai;
     stringify_ArchitectureAnalysis := fun _ => "{}";
     stringify_StaticAnalysis := fun _ => "[]" |}.

(** A model that never answers with text. *)
Definition silent : GenAI :=
  {| generateContent := fun _ => Ok None;
     parse_AnalysisResult := fun _ => Throw "SyntaxError";
     parse_ArchitectureAnalysis := fun _ => Throw "SyntaxError";
     parse_SymbolDefinitions := fun _ => Throw "SyntaxError";
     parse_SetupDetection := fun _ => Throw "SyntaxError";
     parse_Pitfalls := fun _ => Throw "SyntaxError";
     stringify_ArchitectureAnalysis := fun _ => "{}";
     stringify_StaticAnalysis := fun _ => "[]" |}.

(** A report of the repository [o/r] stored at time 0, and a world two
    hours later in which the user asks for [o/r] again. *)
Definition staleReport : CachedRepoData :=
  {| timestamp := 0;
     repoInfo := repo;
     readme := "# r (old)";
     analysisResult := {| ar_summary := "old summary"; ar_runtime := rt_node |};
     deepScanData := {| languages := []; files := []; architecture := None |};
     setupData := {| install := ["npm i"]; test := []; env := [];
                     sd_notes := "old"; sd_confidence := None; sd_evidence := None |};
     pitfalls := [];
     staticAnalysisData := None;
     wikiMarkdown := "# old wiki";
     dependencyFiles := [] |}.

Definition env : App.Env :=
  {| App.api := api; App.ai := ai; App.Date_now := 7200000;
     App.quota_ok := fun _ => true; App.languagesFirst := true |}.

Definition quiet : App.Env :=
  {| App.api := api; App.ai := silent; App.Date_now := 7200000;
     App.quota_ok := fun _ => true; App.languagesFirst := true |}.

Definition nullAnswers : App.Env :=
  {| App.api := api; App.ai := nullSymbols; App.Date_now := 7200000;
     App.quota_ok := fun _ => true; App.languagesFirst := true |}.

Definition unarchitected : App.Env :=
  {| App.api := api; App.ai := noArchitecture; App.Date_now := 7200000;
     App.quota_ok := fun _ => true; App.languagesFirst := true |}.

Definition staleWorld : App.World :=
  {| App.ui := App.setUrl "https://github.com/o/r" App.initialState;
     App.localStorage := Some (App.Serialized staleReport) |}.

Definition emptyWorld : App.World :=
  {| App.ui := App.setUrl "https://github.com/o/r" App.initialState;
     App.localStorage := None |}.

(** The excerpts [fetchTopRepoFiles] returns there, evaluated. *)
Definition topExcerpts : list FileExcerpt :=
  Eval vm_compute in
    match fetchTopRepoFiles api repo with
    | Ok out => out
    | Throw _ => []
    end.

End Demo.

(* ===================================================================== *)
(** ** services/githubService.ts: which selected files are returned *)
(* ===================================================================== *)

Module Selection.
Import GithubService.

(** The content of a selected file can be read, and is not the text of the
    placeholder itself. *)
Definition readable (api : Api) (repo : RepoInfo) (item : TreeItem) : bool :=
  match getContents api repo (ti_path item) with
  | Ok (Some rawContent) => negb (String.eqb rawContent "(Read failed)")
  | Ok None | Throw _ => false
  end.

(** The last segment of a path. *)
Definition basename (p : string) : option string := JsString.pop (JsString.split "/" p).

End Selection.

(* ===================================================================== *)
(** ** services/geminiService.ts: the simulated test run *)
(* ===================================================================== *)

Module SandboxService.
Import JsString GeminiService.

Inductive Status := passed | failed | errored.

(** The object the response schema of [summarizeTestOutput] describes. *)
Record TestSummary := {
  ts_summary : string;
  ts_failures : list string;
  ts_fixes : list string;
  ts_status : Status
}.

Record SandboxResult := {
  rawOutput : string;
  summary : string;
  failures : list string;
  fixes : list string;
  status : Status
}.

Section WithModel.
Variable ai : GenAI.

(** [JSON.parse(text) as ..] for the summary of a test run. *)
Variable parse_TestSummary : string -> result TestSummary.

Definition simulationPrompt (files : list FileExcerpt) (testCommand : string) : string :=
  "You are a CI environment. User runs: `" +:+ testCommand +:+ "`." +:+ nl
  +:+ "  Simulate stdout/stderr based on code." +:+ nl
  +:+ "  " +:+ nl
  +:+ "  CODE CONTEXT:" +:+ nl
  +:+ "  " +:+ filesPrompt files +:+ nl +:+ "  ".

Definition runSandboxSimulation (files : list FileExcerpt) (testCommand : string) : string :=
  match generateContent ai (simulationPrompt files testCommand) with
  | Ok text => if falsy text then "Simulation failed to generate output." else default "" text
  | Throw _ => "Error: Sandbox simulation timed out or failed."
  end.

Definition outputPrompt (rawOutput : string) : string :=
  "Analyze test output. Return JSON summary." +:+ nl
  +:+ "  " +:+ nl
  +:+ "  OUTPUT:" +:+ nl
  +:+ "  " +:+ substring rawOutput 0 10000 +:+ nl +:+ "  ".

(** [JSON.parse(response.text!)] is called on [undefined] when the answer
    has no text, and throws. *)
Definition summarizeTestOutput (rawOutput : string) : SandboxResult :=
  let attempt :=
    text ← generateContent ai (outputPrompt rawOutput);
    parsed ← match text with
             | Some t => parse_TestSummary t
             | None => Throw "SyntaxError"
             end;
    Ok {| rawOutput := rawOutput;
          summary := ts_summary parsed;
          failures := ts_failures parsed;
          fixes := ts_fixes parsed;
          status := ts_status parsed |} in
  match attempt with
  | Ok result => result
  | Throw _ =>
      {| rawOutput := rawOutput;
         summary := "Failed to parse output";
         failures := [];
         fixes := [];
         status := errored |}
  end.

End WithModel.

End SandboxService.

(* ===================================================================== *)
(** ** App.tsx: the progress bar *)
(* ===================================================================== *)

Module ProgressBar.

(** The string a step is in [ProcessingLog]. *)
Definition step_name (s : Step) : string :=
  match s with
  | idle => "idle"
  | validating => "validating"
  | cloning => "cloning"
  | reading => "reading"
  | summarizing => "summarizing"
  | scanning => "scanning"
  | architecting => "architecting"
  | analyzing_symbols => "analyzing_symbols"
  | detecting_setup => "detecting_setup"
  | analyzing_pitfalls => "analyzing_pitfalls"
  | generating_wiki => "generating_wiki"
  | running_sandbox => "running_sandbox"
  | complete => "complete"
  | error => "error"
  end.

Definition stepsList : list string :=
  [ "validating"; "cloning"; "reading"; "summarizing"; "scanning";
    "detecting_setup"; "architecting"; "analyzing_symbols"; "generating_wiki";
    "complete" ].

(** [arr.indexOf(x)]: the first index of [x], [-1] when it is absent. *)
Fixpoint indexOf_from (i : Z) (l : list string) (x : string) : Z :=
  match l with
  | [] => (-1)%Z
  | y :: rest => if String.eqb y x then i else indexOf_from (i + 1)%Z rest x
  end.

Definition indexOf (l : list string) (x : string) : Z := indexOf_from 0%Z l x.

(** How the dot of a step is drawn. *)
Inductive Marker := Active | Done | Pending.

(** The callback of [stepsList.filter(..).map]. *)
Definition marker (currentStep : Step) (label : string) : Marker :=
  let stepKey := label in
  let stepIndex := indexOf stepsList stepKey in
  let currentIndex := indexOf stepsList (step_name currentStep) in
  let isActive := String.eqb (step_name currentStep) stepKey in
  let isDone := (stepIndex <? currentIndex)%Z
                || String.eqb (step_name currentStep) "complete" in
  if isActive then Active else if isDone then Done else Pending.

Definition markers (currentStep : Step) : list Marker :=
  map (marker currentStep)
      (List.filter (fun s => negb (String.eqb s "error")) stepsList).

End ProgressBar.

(* ===================================================================== *)
(** ** What a stored report and the screen have in common *)
(* ===================================================================== *)

Module CacheView.
Import App.

(** The visible state shows the analysis of [report]. *)
Definition shows (report : CachedRepoData) (st : State) : Prop :=
  st_analysisResult st = Some (analysisResult report) /\
  st_deepScanData st = Some (deepScanData report) /\
  st_setupData st = Some (setupData report) /\
  st_pitfalls st = pitfalls report /\
  st_wikiMarkdown st = wikiMarkdown report /\
  rawReadme st = readme report /\
  st_dependencyFiles st = dependencyFiles report.

End CacheView.

(* ===================================================================== *)
(** ** More concrete inputs *)
(* ===================================================================== *)

Module Samples.
Import JsString Base64.

(** A model every request to which is rejected. *)
Definition unreachable : GeminiService.GenAI :=
  {| GeminiService.generateContent := fun _ => Throw "API key not valid";
     GeminiService.parse_AnalysisResult := fun _ => Throw "SyntaxError";
     GeminiService.parse_ArchitectureAnalysis := fun _ => Throw "SyntaxError";
     GeminiService.parse_SymbolDefinitions := fun _ => Throw "SyntaxError";
     GeminiService.parse_SetupDetection := fun _ => Throw "SyntaxError";
     GeminiService.parse_Pitfalls := fun _ => Throw "SyntaxError";
     GeminiService.stringify_ArchitectureAnalysis := fun _ => "{}";
     GeminiService.stringify_StaticAnalysis := fun _ => "[]" |}.

(** GitHub answers as in [Demo], the model cannot be reached. *)
Definition offline : App.Env :=
  {| App.api := Demo.api; App.ai := unreachable; App.Date_now := 7200000;
     App.quota_ok := fun _ => true; App.languagesFirst := true |}.

(** What [parseGithubUrl] makes of [https://github.com/o/r]. *)
Definition parsed : RepoInfo :=
  {| owner := "o"; name := "r"; url := "https://github.com/o/r";
     defaultBranch := None |}.

(** The repository of [Demo], except that the [content] field of its
    README arrives as [content]. *)
Definition readmeField (content : option string) : GithubService.Api :=
  {| GithubService.getContents := GithubService.getContents Demo.api;
     GithubService.getTree := GithubService.getTree Demo.api;
     GithubService.getDetails := GithubService.getDetails Demo.api;
     GithubService.getReadme := fun _ => Ok content;
     GithubService.getLanguages := GithubService.getLanguages Demo.api;
     GithubService.host := Demo.host |}.

(** A world whose cache slot holds text that is not JSON. *)
Definition brokenWorld : App.World :=
  {| App.ui := App.setUrl "https://github.com/o/r" App.initialState;
     App.localStorage := Some (App.Unparsable "{") |}.

(** A world whose cache slot holds the text of an empty object. *)
Definition emptyObjectWorld : App.World :=
  {| App.ui := App.setUrl "https://github.com/o/r" App.initialState;
     App.localStorage := Some App.NoRepoInfo |}.

(** A world in which the user asks for [o/other] while the slot holds the
    report of [o/r]. *)
Definition otherWorld : App.World :=
  {| App.ui := App.setUrl "https://github.com/o/other" App.initialState;
     App.localStorage := Some (App.Serialized Demo.staleReport) |}.

End Samples.

(* ===================================================================== *)
(** * Properties *)
(* ===================================================================== *)

Import JsString GithubService GeminiService.

(** ** The stable sort *)

Section SortFacts.
Context {A : Type} (score : A -> Z).

(** The comparator [(a, b) => score(b) - score(a)]. *)
Let cmp (a b : A) : Z := (score b - score a)%Z.
Let desc (a b : A) : Prop := (score b <= score a)%Z.

Lemma insert_by_Permutation (x : A) (l : list A) :
  Permutation (JsArray.insert_by cmp x l) (x :: l).
Proof.
  induction l as [|y l IH]; simpl; [reflexivity|].
  destruct (cmp x y <=? 0)%Z; [reflexivity|].
  rewrite IH. apply perm_swap.
Qed.

Lemma sort_Permutation (l : list A) : Permutation (JsArray.sort cmp l) l.
Proof.
  induction l as [|x l IH]; simpl; [reflexivity|].
  rewrite insert_by_Permutation. now constructor.
Qed.

Lemma sort_In (l : list A) (x : A) : In x (JsArray.sort cmp l) <-> In x l.
Proof.
  split; apply Permutation_in; [|symmetry]; apply sort_Permutation.
Qed.

Lemma insert_by_sorted (x : A) (l : list A) :
  StronglySorted desc l -> StronglySorted desc (JsArray.insert_by cmp x l).
Proof.
  induction 1 as [|y l Hl IH Hy]; simpl.
  - repeat constructor.
  - destruct (Z.leb_spec (cmp x y) 0) as [Hle|Hgt]; unfold cmp, desc in *.
    + constructor; [now constructor|].
      constructor; [lia|].
      eapply Forall_impl; [exact Hy|]. simpl. intros; lia.
    + constructor; [exact IH|].
      eapply Permutation_Forall; [symmetry; apply insert_by_Permutation|].
      constructor; [lia|exact Hy].
Qed.

Lemma sort_sorted (l : list A) : StronglySorted desc (JsArray.sort cmp l).
Proof.
  induction l as [|x l IH]; simpl; [constructor|].
  now apply insert_by_sorted.
Qed.

(** Stability: elements of equal score keep their relative order. *)
Lemma insert_by_stable (z : Z) (x : A) (l : list A) :
  List.filter (fun a => (score a =? z)%Z) (JsArray.insert_by cmp x l)
  = List.filter (fun a => (score a =? z)%Z) (x :: l).
Proof.
  induction l as [|y l IH]; [reflexivity|].
  cbn [JsArray.insert_by].
  destruct (Z.leb_spec (cmp x y) 0) as [Hle|Hgt]; [reflexivity|].
  unfold cmp in Hgt.
  cbn [List.filter] in *. rewrite IH.
  destruct (Z.eqb_spec (score x) z), (Z.eqb_spec (score y) z);
    try reflexivity; lia.
Qed.

Lemma sort_stable (z : Z) (l : list A) :
  List.filter (fun a => (score a =? z)%Z) (JsArray.sort cmp l)
  = List.filter (fun a => (score a =? z)%Z) l.
Proof.
  induction l as [|x l IH]; [reflexivity|].
  cbn [JsArray.sort foldr]. fold (JsArray.sort cmp l).
  rewrite insert_by_stable. cbn [List.filter]. now rewrite IH.
Qed.

(** A sorted list is determined by its classes of equal score: whatever
    stable algorithm the engine runs, this is its output. *)
Lemma stable_sorted_unique (l1 l2 : list A) :
  StronglySorted desc l1 -> StronglySorted desc l2 ->
  (forall z, List.filter (fun a => (score a =? z)%Z) l1
             = List.filter (fun a => (score a =? z)%Z) l2) ->
  l1 = l2.
Proof.
  intros H1. revert l2.
  induction H1 as [|a l1 Hs1 IH Ha]; intros l2 H2 Heq.
  - destruct l2 as [|b l2]; [reflexivity|].
    specialize (Heq (score b)). cbn in Heq. rewrite Z.eqb_refl in Heq. discriminate.
  - destruct H2 as [|b l2 Hs2 Hb].
    { specialize (Heq (score a)). cbn in Heq. rewrite Z.eqb_refl in Heq. discriminate. }
    assert (Hab : score a = score b).
    { unfold desc in *.
      pose proof (Heq (score a)) as Ea. pose proof (Heq (score b)) as Eb.
      cbn [List.filter] in Ea, Eb. rewrite Z.eqb_refl in Ea, Eb.
      assert (In a (b :: l2)) as Ia.
      { assert (In a (List.filter (fun x => (score x =? score a)%Z) (b :: l2))) as I
          by (cbn [List.filter]; rewrite <- Ea; now left).
        now apply filter_In in I. }
      assert (In b (a :: l1)) as Ib.
      { assert (In b (List.filter (fun x => (score x =? score b)%Z) (a :: l1))) as I
          by (cbn [List.filter]; rewrite Eb; now left).
        now apply filter_In in I. }
      assert (score a <= score b)%Z.
      { destruct Ia as [->|Ia]; [lia|].
        rewrite List.Forall_forall in Hb. now apply Hb. }
      assert (score b <= score a)%Z.
      { destruct Ib as [->|Ib]; [lia|].
        rewrite List.Forall_forall in Ha. now apply Ha. }
      lia. }
    assert (a = b) as ->.
    { specialize (Heq (score a)). cbn [List.filter] in Heq.
      rewrite <- Hab, Z.eqb_refl in Heq. congruence. }
    f_equal. apply IH; [exact Hs2|].
    intros z. specialize (Heq z). cbn [List.filter] in Heq.
    destruct (score b =? z)%Z; congruence.
Qed.
End SortFacts.

(** ** The file selector *)

Lemma In_slice0 {A} (n : nat) (l : list A) (x : A) :
  In x (JsArray.slice0 n l) -> In x l.
Proof.
  unfold JsArray.slice0. revert l.
  induction n as [|n IH]; intros [|y l]; simpl; try tauto.
  intros [->|H]; [now left|right; now apply IH].
Qed.

Lemma sublist_slice0 {A} (n : nat) (l : list A) : sublist (JsArray.slice0 n l) l.
Proof. apply sublist_take. Qed.

Lemma sublist_List_filter {A} (p : A -> bool) (l : list A) : sublist (List.filter p l) l.
Proof.
  induction l as [|x l IH]; simpl; [constructor|].
  destruct (p x); now constructor.
Qed.

Lemma sublist_map {A B} (f : A -> B) (l1 l2 : list A) :
  sublist l1 l2 -> sublist (map f l1) (map f l2).
Proof. induction 1; simpl; now constructor. Qed.

Lemma topFiles_interesting (tree : list TreeItem) (item : TreeItem) :
  In item (topFiles tree) -> In item tree /\ interesting item = true.
Proof.
  unfold topFiles, sortedFiles, allFiles. intros H.
  apply In_slice0 in H.
  apply (proj1 (sort_In (fun f => scoreFile (ti_path f)) _ _)) in H.
  now apply filter_In in H.
Qed.

Lemma topFiles_length (tree : list TreeItem) : (List.length (topFiles tree) <= 12)%nat.
Proof. apply firstn_le_length. Qed.

(** What [fetchTopRepoFiles] returns when it returns. *)
Lemma fetchTopRepoFiles_inv (api : Api) (repo : RepoInfo) (out : list FileExcerpt) :
  fetchTopRepoFiles api repo = Ok out ->
  exists tree,
    (getTree api repo = Ok (Some tree) \/ (getTree api repo = Ok None /\ tree = [])) /\
    out = List.filter (fun f => negb (String.eqb (excerpt f) "(Read failed)"))
            (map (fetchExcerpt api repo) (topFiles tree)).
Proof.
  unfold fetchTopRepoFiles. intros H.
  destruct (defaultBranch repo) as [[|c b]|]; try discriminate.
  destruct (getTree api repo) as [[tree|]|m]; simpl in H; try discriminate.
  - exists tree. split; [now left|congruence].
  - exists []. split; [now right|]. cbn. congruence.
Qed.

Lemma fetchExcerpt_path (api : Api) (repo : RepoInfo) (f : TreeItem) :
  path (fetchExcerpt api repo f) = ti_path f.
Proof.
  unfold fetchExcerpt. now destruct (getContents api repo (ti_path f)) as [[raw|]|m].
Qed.

Lemma fetchTopRepoFiles_from_top (api : Api) (repo : RepoInfo)
    (out : list FileExcerpt) (f : FileExcerpt) :
  fetchTopRepoFiles api repo = Ok out -> In f out ->
  exists tree item,
    getTree api repo = Ok (Some tree) /\ In item (topFiles tree) /\
    f = fetchExcerpt api repo item /\ excerpt f <> "(Read failed)".
Proof.
  intros Hout Hin.
  destruct (fetchTopRepoFiles_inv _ _ _ Hout) as (tree & Htree & ->).
  apply filter_In in Hin as [Hin Hkeep].
  apply in_map_iff in Hin as (item & <- & Hitem).
  destruct Htree as [Htree|[_ ->]]; [|destruct Hitem].
  exists tree, item. repeat split; try assumption.
  intros E. rewrite E in Hkeep. discriminate.
Qed.

Lemma some_false_In {A} (p : A -> bool) (l : list A) (x : A) :
  JsArray.some p l = false -> In x l -> p x = false.
Proof.
  unfold JsArray.some. intros H Hx.
  destruct (p x) eqn:E; [|reflexivity].
  assert (existsb p l = true) by (apply existsb_exists; eauto). congruence.
Qed.

(** [C5] The eligible files are ordered by descending score, the score being
    the sum of the eight weights (10 for the prefix [src/], 10 for [app/],
    8 for [lib/], 5 for each of the substrings [main], [index], [server] and
    [App], 2 for fewer than three segments); files of equal score keep the
    order of the tree listing; the order is the only one with these two
    properties, so the output is the same for the same input; and the
    excerpts returned follow that order. *)
Theorem selector_orders_by_score_stably (tree : list TreeItem) :
  let score := fun f => scoreFile (ti_path f) in
  let b2z := fun (b : bool) (w : Z) => if b then w else 0%Z in
  (forall p,
     scoreFile p =
       (b2z (startsWith p "src/") 10 + b2z (startsWith p "app/") 10
        + b2z (startsWith p "lib/") 8 + b2z (includes p "main") 5
        + b2z (includes p "index") 5 + b2z (includes p "server") 5
        + b2z (includes p "App") 5
        + b2z (List.length (split "/" p) <? 3)%nat 2)%Z) /\
  Permutation (sortedFiles tree) (allFiles tree) /\
  StronglySorted (fun a b => (score b <= score a)%Z) (sortedFiles tree) /\
  (forall z,
     List.filter (fun f => (score f =? z)%Z) (sortedFiles tree)
     = List.filter (fun f => (score f =? z)%Z) (allFiles tree)) /\
  (forall l,
     StronglySorted (fun a b => (score b <= score a)%Z) l ->
     (forall z, List.filter (fun f => (score f =? z)%Z) l
                = List.filter (fun f => (score f =? z)%Z) (allFiles tree)) ->
     l = sortedFiles tree) /\
  topFiles tree = firstn 12 (sortedFiles tree) /\
  (forall api repo out,
     getTree api repo = Ok (Some tree) ->
     fetchTopRepoFiles api repo = Ok out ->
     sublist (map path out) (map ti_path (topFiles tree))).
Proof.
  intros score b2z. repeat split.
  - intros p. unfold scoreFile, b2z.
    repeat match goal with
           | |- context [if ?b then _ else _] => destruct b
           end; reflexivity.
  - apply (sort_Permutation score).
  - apply (sort_sorted score).
  - intros z. apply (sort_stable score).
  - intros l Hs Hz. apply (stable_sorted_unique score); [exact Hs|apply (sort_sorted score)|].
    intros z. rewrite Hz. symmetry. apply (sort_stable score).
  - intros api repo out Htree Hout.
    destruct (fetchTopRepoFiles_inv _ _ _ Hout) as (tree' & Htree' & ->).
    assert (tree' = tree) as ->.
    { destruct Htree' as [E|[E _]]; congruence. }
    transitivity (map path (map (fetchExcerpt api repo) (topFiles tree))).
    + apply sublist_map, sublist_List_filter.
    + rewrite map_map. erewrite map_ext; [reflexivity|].
      intros f. apply fetchExcerpt_path.
Qed.

(** [C6] Whatever the tree listing, at most 12 files are selected and at
    most 12 excerpts are returned. *)
Theorem selector_returns_at_most_12 (api : Api) (repo : RepoInfo) (out : list FileExcerpt) :
  fetchTopRepoFiles api repo = Ok out ->
  (List.length out <= 12)%nat /\
  forall tree, (List.length (topFiles tree) <= 12)%nat.
Proof.
  intros Hout. split; [|apply topFiles_length].
  destruct (fetchTopRepoFiles_inv _ _ _ Hout) as (tree & _ & ->).
  etransitivity; [apply filter_length_le|].
  rewrite length_map. apply topFiles_length.
Qed.

Lemma selector_returns_at_most_12_witness :
  (12 < List.length (allFiles Demo.tree))%nat /\
  fetchTopRepoFiles Demo.api Demo.repo = Ok Demo.topExcerpts /\
  (List.length Demo.topExcerpts <= 12)%nat.
Proof.
  split; [vm_compute; lia|].
  split; [vm_compute; reflexivity|].
  apply (selector_returns_at_most_12 Demo.api Demo.repo). vm_compute. reflexivity.
Defined.

(** [C7] A file whose path contains one of the excluded substrings is never
    selected and never appears among the excerpts returned, whatever its
    score. *)
Theorem excluded_path_never_selected (api : Api) (repo : RepoInfo)
    (out : list FileExcerpt) (tree : list TreeItem) (item : TreeItem) (p : string) :
  In p [ "node_modules"; "dist"; "build"; "coverage"; "package-lock.json";
         "yarn.lock"; ".png"; ".jpg"; ".jpeg"; ".gif"; ".svg"; ".ico"; ".git/" ] ->
  includes (ti_path item) p = true ->
  ~ In item (topFiles tree) /\
  (fetchTopRepoFiles api repo = Ok out -> ~ In (ti_path item) (map path out)).
Proof.
  intros Hp Hinc.
  assert (Hno : forall it, interesting it = true -> includes (ti_path it) p = false).
  { intros it Hit. unfold interesting in Hit.
    destruct (negb (String.eqb (type it) "blob")); [discriminate|].
    destruct (JsArray.some _ excludePatterns) eqn:Hs; [discriminate|].
    exact (some_false_In _ _ p Hs Hp). }
  split.
  - intros Hin. apply topFiles_interesting in Hin as [_ Hin].
    apply Hno in Hin. congruence.
  - intros Hout Hin. apply in_map_iff in Hin as (f & Hf & Hin).
    destruct (fetchTopRepoFiles_from_top _ _ _ _ Hout Hin) as (tree' & it & _ & Hit & -> & _).
    rewrite fetchExcerpt_path in Hf.
    apply topFiles_interesting in Hit as [_ Hit].
    apply Hno in Hit. congruence.
Qed.

Lemma excluded_path_never_selected_witness :
  fetchTopRepoFiles Demo.api Demo.repo = Ok Demo.topExcerpts /\
  ~ In (Demo.blob "node_modules/x/index.js") (topFiles Demo.tree) /\
  ~ In "node_modules/x/index.js" (map path Demo.topExcerpts).
Proof.
  destruct (excluded_path_never_selected Demo.api Demo.repo Demo.topExcerpts
              Demo.tree (Demo.blob "node_modules/x/index.js") "node_modules")
    as [H1 H2].
  - vm_compute. tauto.
  - vm_compute. reflexivity.
  - split; [vm_compute; reflexivity|].
    split; [exact H1|]. apply H2. vm_compute. reflexivity.
Defined.

(** The tree of four entries with two excluded paths: the two others are
    selected, [src/index.ts] before [README.md]. *)
Example selector_on_four_entries :
  map ti_path
    (topFiles (map Demo.blob [ "src/index.ts"; "node_modules/x/index.js";
                               "dist/bundle.js"; "README.md" ]))
  = ["src/index.ts"; "README.md"] /\
  scoreFile "src/index.ts" = 17%Z /\ scoreFile "README.md" = 2%Z.
Proof. repeat split; vm_compute; reflexivity. Qed.

Lemma selector_orders_by_score_stably_witness :
  sublist (map path Demo.topExcerpts) (map ti_path (topFiles Demo.tree)).
Proof.
  destruct (selector_orders_by_score_stably Demo.tree) as (_ & _ & _ & _ & _ & _ & H).
  apply (H Demo.api Demo.repo); vm_compute; reflexivity.
Defined.

(** ** Strings *)

Section StringFacts.

(** The defining equations of concatenation (the library keeps it folded
    under simplification). *)
Lemma app_nil_l (s : string) : "" +:+ s = s.
Proof. reflexivity. Qed.

Lemma app_cons (c : ascii) (a b : string) : String c a +:+ b = String c (a +:+ b).
Proof. reflexivity. Qed.

Lemma length_app (a b : string) :
  String.length (a +:+ b) = (String.length a + String.length b)%nat.
Proof.
  induction a as [|c a IH]; [reflexivity|].
  rewrite app_cons. simpl. now rewrite IH.
Qed.

Lemma app_assoc (a b c : string) : (a +:+ b) +:+ c = a +:+ (b +:+ c).
Proof.
  induction a as [|x a IH]; [reflexivity|].
  rewrite !app_cons. now rewrite IH.
Qed.

Lemma app_nil_r (a : string) : a +:+ "" = a.
Proof.
  induction a as [|x a IH]; [reflexivity|].
  rewrite app_cons. now rewrite IH.
Qed.

Lemma prefix_app (p s : string) :
  String.prefix p s = true <-> exists r, s = p +:+ r.
Proof.
  revert s. induction p as [|c p IH]; intros [|d s]; simpl.
  - split; [intros _; now exists ""|reflexivity].
  - split; [intros _; now exists (String d s)|reflexivity].
  - split; [discriminate|intros [r Hr]; rewrite app_cons in Hr; discriminate].
  - destruct (Ascii.ascii_dec c d) as [->|Hne].
    + rewrite IH. split; intros [r Hr]; exists r; rewrite app_cons in *; congruence.
    + split; [discriminate|]. intros [r Hr]. rewrite app_cons in Hr. congruence.
Qed.

Lemma drop_units_app (p r : string) : drop_units (String.length p) (p +:+ r) = r.
Proof.
  induction p as [|c p IH]; [now destruct r|].
  rewrite app_cons. simpl. exact IH.
Qed.

Lemma length_substring0 (n : nat) (s : string) :
  String.length (String.substring 0 n s) = Nat.min n (String.length s).
Proof.
  revert s. induction n as [|n IH]; intros [|c s]; simpl; try reflexivity.
  now rewrite IH.
Qed.

Lemma substring0_all (n : nat) (s : string) :
  (String.length s <= n)%nat -> String.substring 0 n s = s.
Proof.
  revert s. induction n as [|n IH]; intros [|c s]; simpl; intros H;
    try reflexivity; try lia.
  rewrite IH; [reflexivity|lia].
Qed.

Lemma substring0_prefix (n : nat) (s : string) :
  exists r, s = String.substring 0 n s +:+ r.
Proof.
  revert s. induction n as [|n IH]; intros [|c s]; simpl;
    try (eexists; reflexivity).
  destruct (IH s) as [r Hr]. exists r. rewrite app_cons. now rewrite <- Hr.
Qed.

(** [s.substring(0, n)] keeps the first [n] units. *)
Lemma js_substring0 (s : string) (n : nat) :
  JsString.substring s 0 n = String.substring 0 (Nat.min n (String.length s)) s.
Proof.
  unfold JsString.substring.
  rewrite Nat.min_0_l, Nat.min_0_l, Nat.max_0_l, Nat.sub_0_r. reflexivity.
Qed.

Lemma js_substring0_length (s : string) (n : nat) :
  String.length (JsString.substring s 0 n) = Nat.min n (String.length s).
Proof. rewrite js_substring0, length_substring0. lia. Qed.

Lemma js_substring0_prefix (s : string) (n : nat) :
  exists r, s = JsString.substring s 0 n +:+ r.
Proof. rewrite js_substring0. apply substring0_prefix. Qed.

End StringFacts.

(** ** Excerpts *)

Lemma fetchDependencyFiles_inv (api : Api) (repo : RepoInfo) (f : FileExcerpt) :
  In f (fetchDependencyFiles api repo) ->
  exists target, In target targets /\ fetchDependencyFile api repo target = Some f.
Proof.
  unfold fetchDependencyFiles. generalize targets as ts.
  induction ts as [|t ts IH]; simpl; [tauto|].
  destruct (fetchDependencyFile api repo t) as [g|] eqn:E; simpl.
  - intros [<-|H]; [exists t; now split; [left|]|].
    destruct (IH H) as (t' & ? & ?). exists t'. split; [now right|assumption].
  - intros H. destruct (IH H) as (t' & ? & ?). exists t'. split; [now right|assumption].
Qed.

(** [C9] An excerpt of the broad scan carries at most the first 500 units of
    the file (followed by the marker [... [truncated]] exactly when the file
    is longer); an excerpt of a dependency manifest is the first 3000 units
    of the manifest at most. *)
Theorem excerpts_are_truncated (api : Api) (repo : RepoInfo) :
  (forall out f,
     fetchTopRepoFiles api repo = Ok out -> In f out ->
     exists rawContent kept marker rest,
       getContents api repo (path f) = Ok (Some rawContent) /\
       excerpt f = kept +:+ marker /\
       rawContent = kept +:+ rest /\
       String.length kept = Nat.min 500 (String.length rawContent) /\
       (String.length kept <= 500)%nat /\
       marker = (if (500 <? String.length rawContent)%nat then "... [truncated]" else "") /\
       (String.length (excerpt f) <= 500 + 15)%nat) /\
  (forall f,
     In f (fetchDependencyFiles api repo) ->
     exists content rest,
       getContents api repo (path f) = Ok (Some content) /\
       content = excerpt f +:+ rest /\
       String.length (excerpt f) = Nat.min 3000 (String.length content) /\
       (String.length (excerpt f) <= 3000)%nat).
Proof.
  split.
  - intros out f Hout Hin.
    destruct (fetchTopRepoFiles_from_top _ _ _ _ Hout Hin)
      as (tree & item & _ & _ & -> & Hok).
    rewrite fetchExcerpt_path. unfold fetchExcerpt in *.
    destruct (getContents api repo (ti_path item)) as [[raw|]|m];
      try (exfalso; apply Hok; reflexivity).
    cbn [excerpt] in *. unfold limit.
    destruct (500 <? String.length raw)%nat eqn:E.
    + apply Nat.ltb_lt in E as Hlong.
      destruct (js_substring0_prefix raw 500) as [rest Hrest].
      exists raw, (JsString.substring raw 0 500), "... [truncated]", rest.
      pose proof (js_substring0_length raw 500) as Hlen.
      rewrite E, length_app, Hlen.
      change (String.length "... [truncated]") with 15%nat.
      repeat split; try assumption; lia.
    + apply Nat.ltb_ge in E as Hshort.
      exists raw, raw, "", "".
      rewrite E, !app_nil_r. repeat split; lia.
  - intros f Hin.
    destruct (fetchDependencyFiles_inv _ _ _ Hin) as (target & _ & Hf).
    unfold fetchDependencyFile, fetchFullFileContent in Hf.
    destruct (getContents api repo target) as [[content|]|m] eqn:E; try discriminate.
    destruct content as [|c content]; [discriminate|].
    injection Hf as <-. cbn [path excerpt].
    destruct (js_substring0_prefix (String c content) 3000) as [rest Hrest].
    pose proof (js_substring0_length (String c content) 3000) as Hlen.
    exists (String c content), rest. repeat split; try assumption; lia.
Qed.

Lemma excerpts_are_truncated_witness :
  exists f d,
    In f Demo.topExcerpts /\ path f = "src/index.ts" /\
    (String.length (excerpt f) <= 500 + 15)%nat /\
    In d (fetchDependencyFiles Demo.api Demo.repo) /\ path d = "package.json" /\
    (String.length (excerpt d) <= 3000)%nat.
Proof.
  destruct (excerpts_are_truncated Demo.api Demo.repo) as [Htop Hdep].
  exists (fetchExcerpt Demo.api Demo.repo (Demo.blob "src/index.ts")).
  exists {| path := "package.json"; excerpt := repeat "d" 3000; size := 3100 |}.
  assert (I1 : In (fetchExcerpt Demo.api Demo.repo (Demo.blob "src/index.ts")) Demo.topExcerpts)
    by (vm_compute; tauto).
  assert (I2 : In {| path := "package.json"; excerpt := repeat "d" 3000; size := 3100 |}
                  (fetchDependencyFiles Demo.api Demo.repo))
    by (vm_compute; tauto).
  split; [exact I1|]. split; [reflexivity|].
  split.
  { destruct (Htop Demo.topExcerpts _ ltac:(vm_compute; reflexivity) I1)
      as (? & ? & ? & ? & _ & _ & _ & _ & _ & _ & H). exact H. }
  split; [exact I2|]. split; [reflexivity|].
  destruct (Hdep _ I2) as (? & ? & _ & _ & _ & H). exact H.
Defined.

(** ** The windows of the symbol aggregator *)

Lemma chunk_loop_step (fullContent : string) (i : nat) (acc : list string) :
  (i < String.length fullContent)%nat ->
  chunk_loop fullContent i acc
  = chunk_loop fullContent (i + 2000)
      (acc ++ [JsString.substring fullContent i
                 (Nat.min (i + CHUNK_SIZE) (String.length fullContent))])%list.
Proof.
  intros H. rewrite chunk_loop_equation_1.
  destruct (decide (i < String.length fullContent)); [reflexivity|contradiction].
Qed.

Lemma chunk_loop_exit (fullContent : string) (i : nat) (acc : list string) :
  ~ (i < String.length fullContent)%nat -> chunk_loop fullContent i acc = acc.
Proof.
  intros H. rewrite chunk_loop_equation_1.
  destruct (decide (i < String.length fullContent)); [contradiction|reflexivity].
Qed.

Lemma window_count_lt (fullContent : string) (k : nat) :
  (2000 * k < String.length fullContent <-> k < window_count fullContent)%nat.
Proof.
  unfold window_count.
  pose proof (Nat.div_mod_eq (String.length fullContent + 1999) 2000) as Hdiv.
  pose proof (Nat.mod_upper_bound (String.length fullContent + 1999) 2000) as Hmod.
  set (q := ((String.length fullContent + 1999) / 2000)%nat) in *.
  set (r := ((String.length fullContent + 1999) mod 2000)%nat) in *.
  lia.
Qed.

Lemma chunk_loop_windows (fullContent : string) (m k : nat) (acc : list string) :
  (k + m = window_count fullContent)%nat ->
  chunk_loop fullContent (2000 * k) acc
  = (acc ++ map (window fullContent) (seq k m))%list.
Proof.
  revert k acc.
  induction m as [|m IH]; intros k acc Hm.
  - rewrite chunk_loop_exit by (rewrite window_count_lt; lia).
    simpl. now rewrite List.app_nil_r.
  - rewrite chunk_loop_step by (rewrite window_count_lt; lia).
    replace (2000 * k + 2000)%nat with (2000 * S k)%nat by lia.
    rewrite IH by lia. rewrite <- List.app_assoc. reflexivity.
Qed.

Lemma chunks_windows (fullContent : string) :
  chunks fullContent = map (window fullContent) (seq 0 (window_count fullContent)).
Proof.
  unfold chunks. change 0%nat with (2000 * 0)%nat at 1.
  now rewrite (chunk_loop_windows fullContent (window_count fullContent)).
Qed.

Lemma substring_splits (n m : nat) (s : string) :
  (n + m <= String.length s)%nat ->
  exists pre post,
    s = pre +:+ String.substring n m s +:+ post /\
    String.length pre = n /\ String.length (String.substring n m s) = m.
Proof.
  revert n m. induction s as [|c s IH]; intros n m H.
  - simpl in H. assert (n = 0 /\ m = 0)%nat as [-> ->] by lia.
    exists "", "". now repeat split.
  - destruct n as [|n].
    + destruct m as [|m].
      * exists "", (String c s). now repeat split.
      * destruct (IH 0%nat m) as (pre & post & Hs & Hpre & Hlen); [simpl in *; lia|].
        destruct pre; [|discriminate].
        exists "", post. cbn [String.substring].
        rewrite app_nil_l in *. rewrite app_cons.
        repeat split; [congruence|simpl; congruence].
    + destruct (IH n m) as (pre & post & Hs & Hpre & Hlen); [simpl in *; lia|].
      exists (String c pre), post. cbn [String.substring].
      rewrite app_cons. repeat split; [congruence|simpl; congruence|exact Hlen].
Qed.

(** [s.substring(a, b)] for [a <= b <= s.length]: the [b - a] units that
    follow the first [a]. *)
Lemma js_substring_splits (s : string) (a b : nat) :
  (a <= b <= String.length s)%nat ->
  exists pre post,
    s = pre +:+ JsString.substring s a b +:+ post /\
    String.length pre = a /\ String.length (JsString.substring s a b) = (b - a)%nat.
Proof.
  intros H. unfold JsString.substring.
  replace (Nat.min (Nat.min a (String.length s)) (Nat.min b (String.length s)))
    with a by lia.
  replace (Nat.max (Nat.min a (String.length s)) (Nat.min b (String.length s)))
    with b by lia.
  apply substring_splits. lia.
Qed.

(** ** The merge of the symbol aggregator *)

Section KeyFacts.

Lemma has_dash_app (x u : string) : has_dash (x +:+ String "-" u) = true.
Proof.
  induction x as [|c x IH]; [reflexivity|].
  rewrite app_cons. simpl. rewrite IH. apply orb_true_r.
Qed.

Lemma kind_string_no_dash (k : SymbolKind) : has_dash (kind_string k) = false.
Proof. destruct k; reflexivity. Qed.

Lemma kind_string_inj (k1 k2 : SymbolKind) : kind_string k1 = kind_string k2 -> k1 = k2.
Proof. destruct k1, k2; simpl; intros H; try reflexivity; discriminate. Qed.

(** The last dash of a key separates the name from the kind. *)
Lemma dash_split_unique (x y u v : string) :
  has_dash u = false -> has_dash v = false ->
  x +:+ String "-" u = y +:+ String "-" v -> x = y /\ u = v.
Proof.
  intros Hu Hv. revert y.
  induction x as [|c x IH]; intros [|d y] H; rewrite ?app_cons, ?app_nil_l in H.
  - split; congruence.
  - injection H as <- ->. now rewrite has_dash_app in Hu.
  - injection H as -> <-. now rewrite has_dash_app in Hv.
  - injection H as -> H. destruct (IH _ H) as [-> ->]. now split.
Qed.

Lemma key_inj (r s : SymbolDefinition) :
  key r = key s <-> (symbol r, kind r) = (symbol s, kind s).
Proof.
  unfold key. split.
  - intros H. apply dash_split_unique in H as [Hs Hk];
      try apply kind_string_no_dash.
    apply kind_string_inj in Hk. congruence.
  - intros [= -> ->]. reflexivity.
Qed.

End KeyFacts.

Section MergeFacts.

Lemma first_records_In (seen : gset string) (l : list SymbolDefinition)
    (s : SymbolDefinition) :
  In s (first_records seen l) <-> (key s ∉ seen) /\ first_with_key l s.
Proof.
  revert seen. induction l as [|a l IH]; intros seen; cbn [first_records].
  - split; [intros []|]. intros (_ & [|? ?] & ? & ? & _); discriminate.
  - case_bool_decide as Ha.
    + rewrite IH. split.
      * intros (Hs & before & after & -> & Hfirst). split; [exact Hs|].
        exists (a :: before), after. split; [reflexivity|].
        intros r [<-|Hr]; [congruence|now apply Hfirst].
      * intros (Hs & [|b before] & after & Hl & Hfirst); injection Hl as -> ->.
        { contradiction. }
        split; [exact Hs|]. exists before, after. split; [reflexivity|].
        intros r Hr. apply Hfirst. now right.
    + cbn [In]. rewrite IH. split.
      * intros [<-|(Hs & before & after & -> & Hfirst)].
        { split; [exact Ha|]. exists [], l. split; [reflexivity|]. intros r []. }
        split; [set_solver|].
        exists (a :: before), after. split; [reflexivity|].
        intros r [<-|Hr]; [set_solver|now apply Hfirst].
      * intros (Hs & [|b before] & after & Hl & Hfirst); injection Hl as -> ->.
        { now left. }
        right. split.
        { assert (key b <> key s) by (apply Hfirst; now left). set_solver. }
        exists before, after. split; [reflexivity|].
        intros r Hr. apply Hfirst. now right.
Qed.

Lemma first_records_NoDup (seen : gset string) (l : list SymbolDefinition) :
  List.NoDup (map key (first_records seen l)).
Proof.
  revert seen. induction l as [|a l IH]; intros seen; cbn [first_records].
  - constructor.
  - case_bool_decide as Ha; [apply IH|].
    cbn [map]. apply List.NoDup_cons; [|apply IH].
    intros Hin. apply in_map_iff in Hin as (s & Hk & Hs).
    apply first_records_In in Hs as [Hs _]. set_solver.
Qed.

Lemma first_records_sublist (seen : gset string) (l : list SymbolDefinition) :
  sublist (first_records seen l) l.
Proof.
  revert seen. induction l as [|a l IH]; intros seen; cbn [first_records].
  - constructor.
  - case_bool_decide; [apply sublist_cons|apply sublist_skip]; apply IH.
Qed.

(** Every key of the list has a first record. *)
Lemma first_with_key_exists (l : list SymbolDefinition) (r : SymbolDefinition) :
  In r l -> exists s, first_with_key l s /\ key s = key r.
Proof.
  induction l as [|a l IH]; [intros []|].
  intros Hr. destruct (decide (key a = key r)) as [E|N].
  - exists a. split; [|exact E]. exists [], l. split; [reflexivity|]. intros ? [].
  - destruct Hr as [->|Hr]; [congruence|].
    destruct (IH Hr) as (s & (before & after & -> & Hfirst) & Hk).
    exists s. split; [|exact Hk].
    exists (a :: before), after. split; [reflexivity|].
    intros x [<-|Hx]; [congruence|now apply Hfirst].
Qed.

(** The filter on a list without [null] keeps the first records; a [null]
    anywhere in the list makes it throw. *)
Lemma filter_unseen_Some (seen : gset string) (l : list SymbolDefinition) :
  filter_unseen seen (map Some l) = Ok (first_records seen l).
Proof.
  revert seen. induction l as [|a l IH]; intros seen; [reflexivity|].
  cbn [map filter_unseen first_records].
  case_bool_decide; [apply IH|]. now rewrite IH.
Qed.

Lemma filter_unseen_None (seen : gset string) (l : list (option SymbolDefinition)) :
  In None l -> filter_unseen seen l = Throw "TypeError".
Proof.
  revert seen. induction l as [|[a|] l IH]; intros seen; [intros []| |reflexivity].
  intros [E|H]; [discriminate|]. cbn [filter_unseen].
  case_bool_decide; [now apply IH|]. now rewrite IH.
Qed.

Lemma without_None {A} (l : list (option A)) :
  ~ In None l -> exists l', l = map Some l'.
Proof.
  induction l as [|[a|] l IH]; intros H.
  - now exists [].
  - destruct IH as [l' ->]; [intros Hin; apply H; now right|]. now exists (a :: l').
  - exfalso. apply H. now left.
Qed.

Lemma In_None_dec {A} (l : list (option A)) : In None l \/ ~ In None l.
Proof.
  induction l as [|[a|] l [IH|IH]].
  - right. intros [].
  - left. now right.
  - right. intros [E|H]; [discriminate|contradiction].
  - left. now left.
  - left. now left.
Qed.

Lemma filter_unseen_Ok (seen : gset string) (l : list (option SymbolDefinition))
    (out : list SymbolDefinition) :
  filter_unseen seen l = Ok out ->
  exists l', l = map Some l' /\ out = first_records seen l'.
Proof.
  intros H. destruct (In_None_dec l) as [Hin|Hnot].
  - rewrite (filter_unseen_None seen l Hin) in H. discriminate.
  - destruct (without_None l Hnot) as [l' ->]. exists l'. split; [reflexivity|].
    rewrite filter_unseen_Some in H. now injection H as <-.
Qed.

End MergeFacts.

Section WindowFacts.
Variable ai : GenAI.

Lemma analyzeChunk_returns (p : string) (index : nat) (chunk : string) :
  analyzeChunk ai p index chunk = Ok (windowSymbols ai p index chunk).
Proof.
  unfold analyzeChunk, windowSymbols, try_catch.
  destruct (generateContent ai (chunkPrompt p index chunk)) as [text|m]; cbn.
  - destruct (falsy text); [reflexivity|].
    now destruct (parse_SymbolDefinitions ai (default "" text)).
  - reflexivity.
Qed.

Lemma promise_all_imap {A B} (f : nat -> A -> result B) (g : nat -> A -> B)
    (l : list A) :
  (forall i a, f i a = Ok (g i a)) ->
  JsArray.promise_all (imap f l) = Ok (imap g l).
Proof.
  revert f g. induction l as [|a l IH]; intros f g H; [reflexivity|].
  cbn [imap JsArray.promise_all]. rewrite H.
  rewrite (IH (f ∘ S) (g ∘ S)); [reflexivity|]. intros i b. apply H.
Qed.

(** The callbacks, window by window. *)
Lemma imap_map_seq {A B} (f : nat -> A -> B) (g : nat -> A) (a n : nat) :
  imap (fun i => f (a + i)%nat) (map g (seq a n))
  = map (fun k => f k (g k)) (seq a n).
Proof.
  revert a f. induction n as [|n IH]; intros a f; [reflexivity|].
  cbn [seq map imap]. rewrite Nat.add_0_r. f_equal.
  rewrite <- (IH (S a) f). apply imap_ext. intros i x _. cbn.
  f_equal. lia.
Qed.

Lemma chunksToProcess_windows (fullContent : string) :
  chunksToProcess fullContent
  = map (window fullContent) (seq 0 (Nat.min 3 (window_count fullContent))).
Proof.
  unfold chunksToProcess, JsArray.slice0. rewrite chunks_windows.
  rewrite firstn_map, take_seq. reflexivity.
Qed.


(** Every callback returns, so [Promise.all] resolves; what the
    aggregator returns or throws is what the filter does on the merged
    answers. *)
Lemma analyzeCodeSymbols_merges (p fullContent : string) :
  JsArray.promise_all (chunkPromises ai p fullContent)
  = Ok (imap (windowSymbols ai p) (chunksToProcess fullContent)) /\
  analyzeCodeSymbols ai p fullContent
  = filter_unseen ∅ (flat (imap (windowSymbols ai p) (chunksToProcess fullContent))).
Proof.
  assert (H : JsArray.promise_all (chunkPromises ai p fullContent)
              = Ok (imap (windowSymbols ai p) (chunksToProcess fullContent))).
  { unfold chunkPromises. apply promise_all_imap. apply analyzeChunk_returns. }
  split; [exact H|]. unfold analyzeCodeSymbols. rewrite H. reflexivity.
Qed.

Lemma contributions_windows (p fullContent : string) :
  imap (windowSymbols ai p) (chunksToProcess fullContent)
  = map (fun k => windowSymbols ai p k (window fullContent k))
        (seq 0 (Nat.min 3 (window_count fullContent))).
Proof.
  rewrite chunksToProcess_windows.
  apply (imap_map_seq (windowSymbols ai p) (window fullContent) 0).
Qed.

End WindowFacts.



(** [C2] The records returned for a file have pairwise distinct
    (symbol, kind) pairs, and the record returned for a pair is the first one
    with that pair in the merged windows, taken in window order, whatever the
    other fields of the later ones; a list is returned whenever no item of
    the merged windows is [null]. *)
Theorem aggregator_keeps_first_record_of_each_symbol_and_kind
    (ai : GenAI) (p fullContent : string) :
  exists windows,
    JsArray.promise_all (chunkPromises ai p fullContent) = Ok windows /\
    (~ In None (flat windows) ->
     exists out, analyzeCodeSymbols ai p fullContent = Ok out) /\
    forall out,
      analyzeCodeSymbols ai p fullContent = Ok out ->
      exists allSymbols,
        flat windows = map Some allSymbols /\
        List.NoDup (map (fun s => (symbol s, kind s)) out) /\
        sublist out allSymbols /\
        (forall s,
           In s out <->
           exists before after,
             allSymbols = (before ++ s :: after)%list /\
             forall r, In r before -> (symbol r, kind r) <> (symbol s, kind s)) /\
        (forall r,
           In r allSymbols ->
           exists s, In s out /\ (symbol s, kind s) = (symbol r, kind r)).
Proof.
  destruct (analyzeCodeSymbols_merges ai p fullContent) as [Hw Hout].
  eexists. split; [exact Hw|]. rewrite Hout. split.
  { intros Hnot. destruct (without_None _ Hnot) as [l' ->].
    rewrite filter_unseen_Some. now eexists. }
  intros out Hok. apply filter_unseen_Ok in Hok as (allSymbols & Hall & ->).
  exists allSymbols. split; [exact Hall|].
  assert (Hin : forall s, In s (first_records ∅ allSymbols) <-> first_with_key allSymbols s).
  { intros s. rewrite first_records_In. split; [tauto|]. split; [set_solver|assumption]. }
  repeat split.
  - apply (List.NoDup_map_inv (fun '(sym, k) => sym +:+ "-" +:+ kind_string k)).
    rewrite map_map. apply first_records_NoDup.
  - apply first_records_sublist.
  - rewrite Hin. intros (before & after & E & Hfirst).
    exists before, after. split; [exact E|].
    intros r Hr Hpair. apply (Hfirst r Hr). now apply key_inj.
  - intros (before & after & E & Hfirst). apply Hin.
    exists before, after. split; [exact E|].
    intros r Hr Hkey. apply (Hfirst r Hr). now apply key_inj.
  - intros r Hr. destruct (first_with_key_exists _ _ Hr) as (s & Hs & Hk).
    exists s. split; [now apply Hin|now apply key_inj].
Qed.

Lemma aggregator_keeps_first_record_of_each_symbol_and_kind_witness :
  analyzeCodeSymbols Demo.ai "src/a.ts" (repeat "a" 6000)
    = Ok [Demo.useState; Demo.Store] /\
  List.NoDup (map (fun s => (symbol s, kind s)) [Demo.useState; Demo.Store]) /\
  exists allSymbols,
    sublist [Demo.useState; Demo.Store] allSymbols /\ List.length allSymbols = 6%nat.
Proof.
  assert (E : analyzeCodeSymbols Demo.ai "src/a.ts" (repeat "a" 6000)
              = Ok [Demo.useState; Demo.Store]) by (vm_compute; reflexivity).
  destruct (aggregator_keeps_first_record_of_each_symbol_and_kind
              Demo.ai "src/a.ts" (repeat "a" 6000))
    as (windows & Hw & _ & H).
  destruct (H _ E) as (allSymbols & Hall & Hnd & Hsub & _).
  split; [exact E|]. split; [exact Hnd|].
  exists allSymbols. split; [exact Hsub|].
  assert (Hwin : JsArray.promise_all (chunkPromises Demo.ai "src/a.ts" (repeat "a" 6000))
                 = Ok [ an_array [Some Demo.useState; Some Demo.Store;
                                  Some Demo.useState_again];
                        an_array [];
                        an_array [Some Demo.useState; Some Demo.Store;
                                  Some Demo.useState_again] ])
    by (vm_compute; reflexivity).
  rewrite Hwin in Hw. injection Hw as <-.
  apply (f_equal (@List.length _)) in Hall. rewrite length_map in Hall.
  rewrite <- Hall. reflexivity.
Defined.

Lemma extraction_fails_nil (ai : GenAI) (p : string) (index : nat) (chunk : string) :
  extraction_fails ai p index chunk -> windowSymbols ai p index chunk = an_array [].
Proof.
  unfold extraction_fails, windowSymbols.
  destruct (generateContent ai (chunkPrompt p index chunk)) as [text|m]; [|reflexivity].
  intros [->|[m ->]]; [reflexivity|]. now destruct (falsy text).
Qed.

Lemma flat_In (results : list JsonValue) (item : option SymbolDefinition) :
  In item (flat results) <->
  exists r, In r results /\
    match r with
    | an_array items => In item items
    | not_an_array value => item = value
    end.
Proof.
  unfold flat. rewrite in_concat. split.
  - intros (l & Hl & Hitem). apply in_map_iff in Hl as (r & <- & Hr).
    exists r. split; [exact Hr|]. destruct r; [exact Hitem|].
    destruct Hitem as [->|[]]. reflexivity.
  - intros (r & Hr & Hitem).
    exists (match r with an_array items => items | not_an_array value => [value] end).
    split; [apply in_map_iff; exists r; now split|].
    destruct r; [exact Hitem|]. left. now symmetry.
Qed.

Lemma flat_imap_nil {A} (f : nat -> A -> JsonValue) (l : list A) :
  (forall i a, f i a = an_array []) -> flat (imap f l) = [].
Proof.
  revert f. induction l as [|a l IH]; intros f H; [reflexivity|].
  unfold flat in *. cbn [imap map concat]. rewrite H, (IH (f ∘ S)); [reflexivity|].
  intros i b. apply H.
Qed.

(** [C4] Where the aggregator raises.  A window whose request is rejected or
    whose answer has no text or does not parse contributes the empty array,
    and the aggregator returns the first records of the merged answers, the
    empty list when every window fails or the text is empty, as long as no
    item of the merged answers is [null]; an answer that parses to [null],
    or to an array with [null] among its items, is returned by its window
    like any other, and the filter, which runs outside every [try], throws
    on it: the aggregator raises. *)
Theorem aggregator_raises_on_a_null_answer (ai : GenAI) (p fullContent : string) :
  let contributions := imap (windowSymbols ai p) (chunksToProcess fullContent) in
  (forall index chunk,
     extraction_fails ai p index chunk ->
     windowSymbols ai p index chunk = an_array []) /\
  (forall index chunk text value,
     generateContent ai (chunkPrompt p index chunk) = Ok (Some text) ->
     text <> "" ->
     parse_SymbolDefinitions ai text = Ok value ->
     windowSymbols ai p index chunk = value) /\
  (~ In None (flat contributions) ->
   exists out, analyzeCodeSymbols ai p fullContent = Ok out) /\
  ((forall index chunk, extraction_fails ai p index chunk) ->
   analyzeCodeSymbols ai p fullContent = Ok []) /\
  (fullContent = "" -> analyzeCodeSymbols ai p fullContent = Ok []) /\
  (In None (flat contributions) ->
   analyzeCodeSymbols ai p fullContent = Throw "TypeError") /\
  (forall k text,
     (k < Nat.min 3 (window_count fullContent))%nat ->
     generateContent ai (chunkPrompt p k (window fullContent k)) = Ok (Some text) ->
     text <> "" ->
     parse_SymbolDefinitions ai text = Ok (not_an_array None)
     \/ (exists items, parse_SymbolDefinitions ai text = Ok (an_array items) /\
                       In None items) ->
     analyzeCodeSymbols ai p fullContent = Throw "TypeError").
Proof.
  intros contributions.
  destruct (analyzeCodeSymbols_merges ai p fullContent) as [_ Hout].
  fold contributions in Hout.
  assert (Hvalue : forall index chunk text value,
            generateContent ai (chunkPrompt p index chunk) = Ok (Some text) ->
            text <> "" ->
            parse_SymbolDefinitions ai text = Ok value ->
            windowSymbols ai p index chunk = value).
  { intros index chunk text value Hg Ht Hp. unfold windowSymbols. rewrite Hg.
    destruct text; [contradiction|]. cbn. now rewrite Hp. }
  split; [apply extraction_fails_nil|].
  split; [exact Hvalue|].
  split.
  { intros Hnot. rewrite Hout. destruct (without_None _ Hnot) as [l' ->].
    rewrite filter_unseen_Some. now eexists. }
  split.
  { intros Hall. rewrite Hout. subst contributions. rewrite flat_imap_nil; [reflexivity|].
    intros i c. apply extraction_fails_nil, Hall. }
  split.
  { intros ->. reflexivity. }
  split.
  { intros Hin. rewrite Hout. now apply filter_unseen_None. }
  intros k text Hk Hg Ht Hparse. rewrite Hout. apply filter_unseen_None.
  subst contributions. rewrite contributions_windows. apply flat_In.
  exists (windowSymbols ai p k (window fullContent k)). split.
  { apply in_map_iff. exists k. split; [reflexivity|]. apply in_seq. lia. }
  destruct Hparse as [Hp|(items & Hp & Hin)];
    rewrite (Hvalue _ _ _ _ Hg Ht Hp); [reflexivity|exact Hin].
Qed.

Lemma aggregator_raises_on_a_null_answer_witness :
  analyzeCodeSymbols Demo.nullSymbols "src/a.ts" "x" = Throw "TypeError" /\
  analyzeCodeSymbols Demo.silent "src/a.ts" (repeat "a" 6000) = Ok [] /\
  analyzeCodeSymbols Demo.ai "src/a.ts" "" = Ok [].
Proof.
  destruct (aggregator_raises_on_a_null_answer Demo.nullSymbols "src/a.ts" "x")
    as (_ & _ & _ & _ & _ & _ & Hnull).
  destruct (aggregator_raises_on_a_null_answer Demo.silent "src/a.ts" (repeat "a" 6000))
    as (_ & _ & _ & Hfail & _).
  destruct (aggregator_raises_on_a_null_answer Demo.ai "src/a.ts" "")
    as (_ & _ & _ & _ & Hempty & _).
  split; [|split].
  - apply (Hnull 0%nat "[...]"); [vm_compute; lia|vm_compute; reflexivity|discriminate|].
    left. reflexivity.
  - apply Hfail. intros index chunk. left. reflexivity.
  - apply Hempty. reflexivity.
Defined.

(** The windows of a text of 6000 units under the model [Demo.ai]: the
    second one fails, the first and the third return the same three
    records, and one record of each symbol and kind is kept. *)
Example aggregator_on_partial_failure :
  map (windowSymbols Demo.ai "src/a.ts" 1) ["x"] = [an_array []] /\
  JsArray.promise_all (chunkPromises Demo.ai "src/a.ts" (repeat "a" 6000))
    = Ok [ an_array [Some Demo.useState; Some Demo.Store; Some Demo.useState_again];
           an_array [];
           an_array [Some Demo.useState; Some Demo.Store; Some Demo.useState_again] ] /\
  analyzeCodeSymbols Demo.ai "src/a.ts" (repeat "a" 6000)
    = Ok [Demo.useState; Demo.Store].
Proof. repeat split; vm_compute; reflexivity. Qed.

(** ** Stage failures *)

Section StageFacts.
Variable ai : GenAI.

Lemma summarizeRepo_fails (readmeContent : string) :
  structured_failure ai (parse_AnalysisResult ai) (summarizePrompt readmeContent) ->
  summarizeRepo ai readmeContent = Throw "Failed to analyze the repository content.".
Proof.
  intros (text & Hg & Hfail). unfold summarizeRepo. cbv zeta. rewrite Hg. cbn.
  destruct Hfail as [->|[m Hm]]; [reflexivity|].
  destruct (falsy text); [reflexivity|]. now rewrite Hm.
Qed.

Lemma analyzeArchitecture_fails (files : list FileExcerpt) :
  structured_failure ai (parse_ArchitectureAnalysis ai) (architecturePrompt files) ->
  analyzeArchitecture ai files = Throw "Failed to analyze architecture.".
Proof.
  intros (text & Hg & Hfail). unfold analyzeArchitecture. cbv zeta. rewrite Hg. cbn.
  destruct Hfail as [->|[m Hm]]; [reflexivity|].
  destruct (falsy text); [reflexivity|]. now rewrite Hm.
Qed.

Lemma detectSetup_degrades (dependencyFiles : list FileExcerpt) :
  structured_failure ai (parse_SetupDetection ai) (setupPrompt dependencyFiles) ->
  exists note, detectSetup ai dependencyFiles = Ok (setupDefault note).
Proof.
  intros (text & Hg & Hfail). unfold detectSetup.
  destruct (List.length dependencyFiles =? 0)%nat; [eexists; reflexivity|].
  cbv zeta. rewrite Hg. cbn.
  destruct Hfail as [->|[m Hm]]; [eexists; reflexivity|].
  destruct (falsy text); [eexists; reflexivity|]. rewrite Hm. eexists; reflexivity.
Qed.

Lemma analyzePitfalls_degrades (files : list FileExcerpt) :
  structured_failure ai (parse_Pitfalls ai) (pitfallsPrompt files) ->
  analyzePitfalls ai files = Ok [].
Proof.
  intros (text & Hg & Hfail). unfold analyzePitfalls. cbv zeta. rewrite Hg. cbn.
  destruct Hfail as [->|[m Hm]]; [reflexivity|].
  destruct (falsy text); [reflexivity|]. now rewrite Hm.
Qed.

(** The two best-effort stages return whatever the model does. *)
Lemma detectSetup_returns (dependencyFiles : list FileExcerpt) :
  exists setup, detectSetup ai dependencyFiles = Ok setup.
Proof.
  unfold detectSetup.
  destruct (List.length dependencyFiles =? 0)%nat; [eexists; reflexivity|].
  cbv zeta. destruct (generateContent ai _) as [text|m]; cbn; [|eexists; reflexivity].
  destruct (falsy text); [eexists; reflexivity|].
  destruct (parse_SetupDetection ai _); eexists; reflexivity.
Qed.

Lemma analyzePitfalls_returns (files : list FileExcerpt) :
  exists found, analyzePitfalls ai files = Ok found.
Proof.
  unfold analyzePitfalls.
  cbv zeta. destruct (generateContent ai _) as [text|m]; cbn; [|eexists; reflexivity].
  destruct (falsy text); [eexists; reflexivity|].
  destruct (parse_Pitfalls ai _); eexists; reflexivity.
Qed.

End StageFacts.

Import App.

(** Runs the statements of [M] at the head of the goal: binds, state
    updates and awaits are unfolded and the projections of the worlds they
    build are reduced, so that the term stays linear in the number of
    statements. *)
Ltac run_statements :=
  cbv beta iota zeta delta [bindM set await ret fst snd ui localStorage].

Section PipelineFacts.
Variable env : Env.

(** The scanning step when both requests are answered. *)
Lemma scan_Ok (repo : RepoInfo) (languages : list (string * nat))
    (files : list FileExcerpt) :
  fetchRepoLanguages (api env) repo = Ok languages ->
  fetchTopRepoFiles (api env) repo = Ok files ->
  scan env repo = Ok (languages, files, fetchDependencyFiles (api env) repo).
Proof. intros Hl Hf. unfold scan. now rewrite Hl, Hf. Qed.

(** The scanning step returns only when both requests are answered. *)
Lemma scan_inv (repo : RepoInfo) (languages : list (string * nat))
    (files deps : list FileExcerpt) :
  scan env repo = Ok (languages, files, deps) ->
  fetchRepoLanguages (api env) repo = Ok languages /\
  fetchTopRepoFiles (api env) repo = Ok files /\
  deps = fetchDependencyFiles (api env) repo.
Proof.
  unfold scan.
  destruct (fetchRepoLanguages (api env) repo) as [l|ml];
    destruct (fetchTopRepoFiles (api env) repo) as [f|mf];
    try discriminate.
  - now intros [= -> -> ->].
  - destruct (defaultBranch repo) as [[|? ?]|]; [discriminate| |discriminate].
    destruct (languagesFirst env); discriminate.
Qed.

(** The loop over the entry points writes nothing but the log line; it
    returns, or it throws what the aggregator threw for one of the files. *)
Lemma analyzeEntryPoints_outcome (repo : RepoInfo) (entryPoints : list string)
    (acc : list StaticAnalysisEntry) (w : World) :
  exists w' r,
    analyzeEntryPoints env repo entryPoints acc w = (w', r) /\
    localStorage w' = localStorage w /\
    st_setupData (ui w') = st_setupData (ui w) /\
    st_pitfalls (ui w') = st_pitfalls (ui w) /\
    st_error (ui w') = st_error (ui w) /\
    match r with
    | Ok _ => True
    | Throw m => exists p c, analyzeCodeSymbols (ai env) p c = Throw m
    end.
Proof.
  revert acc w. induction entryPoints as [|filePath rest IH]; intros acc w.
  - exists w, (Ok acc). now repeat split.
  - cbn [analyzeEntryPoints]. run_statements.
    destruct (fetchFullFileContent (api env) repo filePath) as [|c content].
    + edestruct IH as (w' & r & -> & ? & ? & ? & ? & ?).
      exists w', r. now repeat split.
    + destruct (analyzeCodeSymbols (ai env) filePath (String c content))
        as [found|m] eqn:E.
      * edestruct IH as (w' & r & -> & ? & ? & ? & ? & ?).
        exists w', r. now repeat split.
      * eexists _, (Throw m). split; [reflexivity|]. repeat split.
        now exists filePath, (String c content).
Qed.

(** A failure of the summary stage ends the run in the [error] step,
    before any later stage has run and without a write to the cache. *)
Lemma summary_failure_aborts (repoInfo repoInfo' : RepoInfo) (readmeContent : string)
    (w : World) :
  fetchRepoDetails (api env) repoInfo = Ok repoInfo' ->
  fetchRepoReadme (api env) repoInfo' = Ok readmeContent ->
  structured_failure (ai env) (parse_AnalysisResult (ai env))
    (summarizePrompt readmeContent) ->
  exists w',
    freshRun env repoInfo w = (w', Ok tt) /\
    currentStep (ui w') = error /\
    st_error (ui w') = Some "Failed to analyze the repository content." /\
    st_analysisResult (ui w') = None /\
    st_setupData (ui w') = None /\
    st_wikiMarkdown (ui w') = "" /\
    localStorage w' = localStorage w.
Proof.
  intros Hd Hr Hs. apply summarizeRepo_fails in Hs.
  unfold freshRun, pipeline. run_statements.
  rewrite Hd. cbv beta iota. rewrite Hr. cbv beta iota. rewrite Hs. cbv beta iota.
  eexists. split; [reflexivity|]. now repeat split.
Qed.

(** So does a failure of the architecture stage, whatever the setup and
    pitfall stages returned before it. *)
Lemma architecture_failure_aborts (repoInfo repoInfo' : RepoInfo)
    (readmeContent : string) (summary : AnalysisResult)
    (languages : list (string * nat)) (files : list FileExcerpt) (w : World) :
  fetchRepoDetails (api env) repoInfo = Ok repoInfo' ->
  fetchRepoReadme (api env) repoInfo' = Ok readmeContent ->
  summarizeRepo (ai env) readmeContent = Ok summary ->
  fetchRepoLanguages (api env) repoInfo' = Ok languages ->
  fetchTopRepoFiles (api env) repoInfo' = Ok files ->
  files <> [] ->
  structured_failure (ai env) (parse_ArchitectureAnalysis (ai env))
    (architecturePrompt files) ->
  exists w',
    freshRun env repoInfo w = (w', Ok tt) /\
    currentStep (ui w') = error /\
    st_error (ui w') = Some "Failed to analyze architecture." /\
    st_wikiMarkdown (ui w') = "" /\
    localStorage w' = localStorage w.
Proof.
  intros Hd Hr Hs Hl Hf Hne Ha. apply analyzeArchitecture_fails in Ha.
  unfold freshRun, pipeline. run_statements.
  rewrite Hd. cbv beta iota. rewrite Hr. cbv beta iota. rewrite Hs. cbv beta iota.
  rewrite (scan_Ok _ _ _ Hl Hf). cbv beta iota.
  destruct (detectSetup_returns (ai env)
              (fetchDependencyFiles (api env) repoInfo')) as [setup ->].
  cbv beta iota.
  destruct (analyzePitfalls_returns (ai env)
              (JsArray.slice0 15 (fetchDependencyFiles (api env) repoInfo' ++ files)%list))
    as [found ->].
  cbv beta iota.
  destruct files as [|f files]; [contradiction|].
  cbn [List.length Nat.ltb Nat.leb]. run_statements.
  rewrite Ha. cbv beta iota.
  eexists. split; [reflexivity|]. now repeat split.
Qed.

(** A run in which the fetches, the summary and the architecture succeed
    goes through the setup and pitfall stages with whatever they returned,
    and completes unless the symbol aggregator throws. *)
Lemma best_effort_stages_do_not_abort (repoInfo repoInfo' : RepoInfo)
    (readmeContent : string) (summary : AnalysisResult)
    (languages : list (string * nat)) (files : list FileExcerpt)
    (architecture : ArchitectureAnalysis) (w : World) :
  fetchRepoDetails (api env) repoInfo = Ok repoInfo' ->
  fetchRepoReadme (api env) repoInfo' = Ok readmeContent ->
  summarizeRepo (ai env) readmeContent = Ok summary ->
  fetchRepoLanguages (api env) repoInfo' = Ok languages ->
  fetchTopRepoFiles (api env) repoInfo' = Ok files ->
  analyzeArchitecture (ai env) files = Ok architecture ->
  let deps := fetchDependencyFiles (api env) repoInfo' in
  exists w' setup found,
    freshRun env repoInfo w = (w', Ok tt) /\
    detectSetup (ai env) deps = Ok setup /\
    analyzePitfalls (ai env) (JsArray.slice0 15 (deps ++ files)%list) = Ok found /\
    st_setupData (ui w') = Some setup /\
    st_pitfalls (ui w') = found /\
    ((currentStep (ui w') = complete /\ st_error (ui w') = None)
     \/ (currentStep (ui w') = error /\
         exists p c m,
           analyzeCodeSymbols (ai env) p c = Throw m /\
           st_error (ui w') = Some (errorMessage m))).
Proof.
  intros Hd Hr Hs Hl Hf Ha deps.
  destruct (detectSetup_returns (ai env) deps) as [setup Hsetup].
  destruct (analyzePitfalls_returns (ai env) (JsArray.slice0 15 (deps ++ files)%list))
    as [found Hfound].
  unfold freshRun, pipeline. run_statements.
  rewrite Hd. cbv beta iota. rewrite Hr. cbv beta iota. rewrite Hs. cbv beta iota.
  rewrite (scan_Ok _ _ _ Hl Hf). cbv beta iota.
  fold deps. rewrite Hsetup. cbv beta iota. rewrite Hfound. cbv beta iota.
  set (good := fun w' : World =>
         st_setupData (ui w') = Some setup /\
         st_pitfalls (ui w') = found /\
         ((currentStep (ui w') = complete /\ st_error (ui w') = None)
          \/ (currentStep (ui w') = error /\
              exists p c m,
                analyzeCodeSymbols (ai env) p c = Throw m /\
                st_error (ui w') = Some (errorMessage m)))).
  assert (Hfinish : forall (w0 : World) (data : CachedRepoData),
            st_error (ui w0) = None -> st_setupData (ui w0) = Some setup ->
            st_pitfalls (ui w0) = found ->
            exists w',
              (let (w1, r) :=
                 let (w1, r) := saveToCache env data w0 in
                 match r with
                 | Ok _ =>
                     ({| ui := setLogMessage "Full analysis complete."
                                 (setCurrentStep complete (ui w1));
                         localStorage := localStorage w1 |}, Ok tt)
                 | Throw m => (w1, Throw m)
                 end in
               match r with
               | Ok tt => (w1, Ok tt)
               | Throw err =>
                   ({| ui := setError (Some (errorMessage err))
                               (setCurrentStep error (ui w1));
                       localStorage := localStorage w1 |}, Ok tt)
               end) = (w', Ok tt) /\ good w').
  { intros w0 data He Hsd Hpf. unfold saveToCache, good.
    destruct (quota_ok env _);
      (eexists; split; [reflexivity|]; split; [exact Hsd|]; split; [exact Hpf|];
       left; split; [reflexivity|exact He]). }
  assert (Hwrap : forall X : World * result unit,
            (exists w', X = (w', Ok tt) /\ good w') ->
            exists w' setup0 found0,
              X = (w', Ok tt) /\ Ok setup = Ok setup0 /\ Ok found = Ok found0 /\
              st_setupData (ui w') = Some setup0 /\ st_pitfalls (ui w') = found0 /\
              ((currentStep (ui w') = complete /\ st_error (ui w') = None)
               \/ (currentStep (ui w') = error /\
                   exists p c m,
                     analyzeCodeSymbols (ai env) p c = Throw m /\
                     st_error (ui w') = Some (errorMessage m)))).
  { intros X (w' & HX & Hsd & Hpf & Hend). exists w', setup, found. now repeat split. }
  apply Hwrap.
  destruct (0 <? List.length files)%nat.
  - run_statements. rewrite Ha.
    cbv beta iota zeta delta [fst snd].
    match goal with
    | |- context [(0 <? List.length ?eps)%nat] => destruct (0 <? List.length eps)%nat
    end.
    + run_statements.
      match goal with
      | |- context [analyzeEntryPoints env ?r ?e ?a ?w0] =>
          destruct (analyzeEntryPoints_outcome r e a w0)
            as (w1 & res & -> & Hls & Hsd & Hpf & Herr & Hres)
      end.
      destruct res as [res|m]; cbv beta iota.
      * apply Hfinish; cbn; assumption.
      * eexists. split; [reflexivity|]. unfold good.
        split; [exact Hsd|]. split; [exact Hpf|]. right.
        split; [reflexivity|]. destruct Hres as (p & c & Hthrow).
        now exists p, c, m.
    + run_statements.
      apply Hfinish; reflexivity.
  - run_statements.
    apply Hfinish; reflexivity.
Qed.

End PipelineFacts.

(** [C8] When the model answers a stage without text or with text that does
    not parse, setup detection returns the default (no command, no variable,
    a note) and pitfall detection returns the empty list, and the run goes on
    with these values, to completion unless the symbol aggregator throws
    later on; the summary stage and the architecture stage throw, and the
    run ends in the [error] step with their message, nothing being written
    to the cache. *)
Theorem structured_failure_aborts_only_summary_and_architecture (e : Env) :
  let m := ai e in
  (forall deps,
     structured_failure m (parse_SetupDetection m) (setupPrompt deps) ->
     exists note,
       detectSetup m deps = Ok (setupDefault note) /\
       install (setupDefault note) = [] /\ test (setupDefault note) = [] /\
       env (setupDefault note) = [] /\ sd_notes (setupDefault note) = note) /\
  (forall files,
     structured_failure m (parse_Pitfalls m) (pitfallsPrompt files) ->
     analyzePitfalls m files = Ok []) /\
  (forall readmeContent,
     structured_failure m (parse_AnalysisResult m) (summarizePrompt readmeContent) ->
     summarizeRepo m readmeContent = Throw "Failed to analyze the repository content.") /\
  (forall files,
     structured_failure m (parse_ArchitectureAnalysis m) (architecturePrompt files) ->
     analyzeArchitecture m files = Throw "Failed to analyze architecture.") /\
  (forall repoInfo repoInfo' readmeContent w,
     fetchRepoDetails (api e) repoInfo = Ok repoInfo' ->
     fetchRepoReadme (api e) repoInfo' = Ok readmeContent ->
     structured_failure m (parse_AnalysisResult m) (summarizePrompt readmeContent) ->
     exists w',
       freshRun e repoInfo w = (w', Ok tt) /\
       currentStep (ui w') = error /\
       st_error (ui w') = Some "Failed to analyze the repository content." /\
       st_wikiMarkdown (ui w') = "" /\
       localStorage w' = localStorage w) /\
  (forall repoInfo repoInfo' readmeContent summary languages files w,
     fetchRepoDetails (api e) repoInfo = Ok repoInfo' ->
     fetchRepoReadme (api e) repoInfo' = Ok readmeContent ->
     summarizeRepo m readmeContent = Ok summary ->
     fetchRepoLanguages (api e) repoInfo' = Ok languages ->
     fetchTopRepoFiles (api e) repoInfo' = Ok files ->
     files <> [] ->
     structured_failure m (parse_ArchitectureAnalysis m) (architecturePrompt files) ->
     exists w',
       freshRun e repoInfo w = (w', Ok tt) /\
       currentStep (ui w') = error /\
       st_error (ui w') = Some "Failed to analyze architecture." /\
       st_wikiMarkdown (ui w') = "" /\
       localStorage w' = localStorage w) /\
  (forall repoInfo repoInfo' readmeContent summary languages files architecture w,
     fetchRepoDetails (api e) repoInfo = Ok repoInfo' ->
     fetchRepoReadme (api e) repoInfo' = Ok readmeContent ->
     summarizeRepo m readmeContent = Ok summary ->
     fetchRepoLanguages (api e) repoInfo' = Ok languages ->
     fetchTopRepoFiles (api e) repoInfo' = Ok files ->
     analyzeArchitecture m files = Ok architecture ->
     let deps := fetchDependencyFiles (api e) repoInfo' in
     structured_failure m (parse_SetupDetection m) (setupPrompt deps) ->
     structured_failure m (parse_Pitfalls m)
       (pitfallsPrompt (JsArray.slice0 15 (deps ++ files)%list)) ->
     exists w' note,
       freshRun e repoInfo w = (w', Ok tt) /\
       st_setupData (ui w') = Some (setupDefault note) /\
       st_pitfalls (ui w') = [] /\
       ((currentStep (ui w') = complete /\ st_error (ui w') = None)
        \/ (currentStep (ui w') = error /\
            exists p c thrown,
              analyzeCodeSymbols m p c = Throw thrown /\
              st_error (ui w') = Some (errorMessage thrown))) /\
       ((forall p c, exists out, analyzeCodeSymbols m p c = Ok out) ->
        currentStep (ui w') = complete /\ st_error (ui w') = None)).
Proof.
  intros m. repeat apply conj.
  - intros deps H. destruct (detectSetup_degrades m deps H) as [note Hn].
    exists note. now repeat split.
  - apply analyzePitfalls_degrades.
  - apply summarizeRepo_fails.
  - apply analyzeArchitecture_fails.
  - intros repoInfo repoInfo' readmeContent w Hd Hr Hs.
    destruct (summary_failure_aborts e _ _ _ w Hd Hr Hs)
      as (w' & ? & ? & ? & _ & _ & ? & ?).
    exists w'. now repeat split.
  - intros repoInfo repoInfo' readmeContent summary languages files w.
    apply architecture_failure_aborts.
  - intros repoInfo repoInfo' readmeContent summary languages files architecture w
      Hd Hr Hs Hl Hf Ha deps Hsetup Hpit.
    destruct (best_effort_stages_do_not_abort e _ _ _ _ _ _ _ w Hd Hr Hs Hl Hf Ha)
      as (w' & setup & found & Hrun & Hsetup' & Hfound' & Hsd & Hpf & Hend).
    destruct (detectSetup_degrades m deps Hsetup) as [note Hn].
    pose proof (analyzePitfalls_degrades m _ Hpit) as Hp.
    fold deps in Hsetup', Hfound'. fold m in Hsetup', Hfound', Hend.
    exists w', note. split; [exact Hrun|]. split; [congruence|]. split; [congruence|].
    split; [exact Hend|].
    intros Hreturns. destruct Hend as [Hdone|(_ & p & c & thrown & Hthrow & _)];
      [exact Hdone|].
    destruct (Hreturns p c) as [out Hout]. congruence.
Qed.

Lemma structured_failure_aborts_only_summary_and_architecture_witness :
  (exists w',
     freshRun Demo.quiet Demo.repo Demo.emptyWorld = (w', Ok tt) /\
     currentStep (ui w') = error /\
     st_error (ui w') = Some "Failed to analyze the repository content." /\
     st_wikiMarkdown (ui w') = "" /\
     localStorage w' = None) /\
  (exists w',
     freshRun Demo.unarchitected Demo.repo Demo.emptyWorld = (w', Ok tt) /\
     currentStep (ui w') = error /\
     st_error (ui w') = Some "Failed to analyze architecture." /\
     st_wikiMarkdown (ui w') = "" /\
     localStorage w' = None) /\
  (exists w' note,
     freshRun Demo.env Demo.repo Demo.emptyWorld = (w', Ok tt) /\
     currentStep (ui w') = complete /\
     st_error (ui w') = None /\
     st_setupData (ui w') = Some (setupDefault note) /\
     st_pitfalls (ui w') = []) /\
  (exists w' note,
     freshRun Demo.nullAnswers Demo.repo Demo.emptyWorld = (w', Ok tt) /\
     currentStep (ui w') = error /\
     st_setupData (ui w') = Some (setupDefault note) /\
     st_pitfalls (ui w') = []).
Proof.
  split; [|split; [|split]].
  - destruct (structured_failure_aborts_only_summary_and_architecture Demo.quiet)
      as (_ & _ & _ & _ & H & _).
    apply (H Demo.repo Demo.repo "# r" Demo.emptyWorld); try reflexivity.
    exists None. split; [reflexivity|now left].
  - destruct (structured_failure_aborts_only_summary_and_architecture Demo.unarchitected)
      as (_ & _ & _ & _ & _ & H & _).
    eapply (H Demo.repo Demo.repo "# r" _ _ Demo.topExcerpts Demo.emptyWorld);
      try (vm_compute; reflexivity).
    + discriminate.
    + exists (Some "[...]"). split; [vm_compute; reflexivity|]. right.
      exists "SyntaxError". reflexivity.
  - destruct (structured_failure_aborts_only_summary_and_architecture Demo.env)
      as (_ & _ & _ & _ & _ & _ & H).
    assert (Hex : exists w' note,
               freshRun Demo.env Demo.repo Demo.emptyWorld = (w', Ok tt) /\
               st_setupData (ui w') = Some (setupDefault note) /\
               st_pitfalls (ui w') = []).
    { edestruct (H Demo.repo Demo.repo "# r"
                   {| ar_summary := "A library."; ar_runtime := rt_node |}
                   [("TypeScript", 1000%nat)] Demo.topExcerpts
                   {| arch_summary := "One package."; arch_runtime := rt_node;
                      components := [];
                      entry_points := [{| ep_path := "src/index.ts";
                                          ep_reason := "main" |}] |}
                   Demo.emptyWorld)
        as (w' & note & Hrun & Hsd & Hpf & _);
        try (vm_compute; reflexivity).
      - exists (Some "[...]"). split; [vm_compute; reflexivity|]. right.
        exists "SyntaxError". reflexivity.
      - exists (Some "[...]"). split; [vm_compute; reflexivity|]. right.
        exists "SyntaxError". reflexivity.
      - exists w', note. split; [exact Hrun|]. split; [exact Hsd|exact Hpf]. }
    destruct Hex as (w' & note & Hrun & Hsd & Hpf).
    + exists w', note. split; [exact Hrun|].
      assert (Hw : w' = fst (freshRun Demo.env Demo.repo Demo.emptyWorld))
        by now rewrite Hrun.
      split; [rewrite Hw; vm_compute; reflexivity|].
      split; [rewrite Hw; vm_compute; reflexivity|]. split; [exact Hsd|exact Hpf].
  - destruct (structured_failure_aborts_only_summary_and_architecture Demo.nullAnswers)
      as (_ & _ & _ & _ & _ & _ & H).
    assert (Hex : exists w' note,
               freshRun Demo.nullAnswers Demo.repo Demo.emptyWorld = (w', Ok tt) /\
               st_setupData (ui w') = Some (setupDefault note) /\
               st_pitfalls (ui w') = []).
    { edestruct (H Demo.repo Demo.repo "# r"
                   {| ar_summary := "A library."; ar_runtime := rt_node |}
                   [("TypeScript", 1000%nat)] Demo.topExcerpts
                   {| arch_summary := "One package."; arch_runtime := rt_node;
                      components := [];
                      entry_points := [{| ep_path := "src/index.ts";
                                          ep_reason := "main" |}] |}
                   Demo.emptyWorld)
        as (w' & note & Hrun & Hsd & Hpf & _);
        try (vm_compute; reflexivity).
      - exists (Some "[...]"). split; [vm_compute; reflexivity|]. right.
        exists "SyntaxError". reflexivity.
      - exists (Some "[...]"). split; [vm_compute; reflexivity|]. right.
        exists "SyntaxError". reflexivity.
      - exists w', note. split; [exact Hrun|]. split; [exact Hsd|exact Hpf]. }
    destruct Hex as (w' & note & Hrun & Hsd & Hpf).
    + exists w', note. split; [exact Hrun|].
      assert (Hw : w' = fst (freshRun Demo.nullAnswers Demo.repo Demo.emptyWorld))
        by now rewrite Hrun.
      split; [rewrite Hw; vm_compute; reflexivity|]. split; [exact Hsd|exact Hpf].
Defined.

(** ** The cached report *)

(** Reads a slot whose shape is known. *)
Ltac read_slot :=
  cbn [negb andb truthy JSON_parse read_repoInfo read_timestamp mbind result_bind].

Tactic Notation "read_slot" "in" hyp(H) :=
  cbn [negb andb truthy JSON_parse read_repoInfo read_timestamp mbind result_bind] in H.

(** Neither the effect that runs on mount nor the cache check of
    [handleAnalyze] lets the age of a stored report decide anything. *)
Lemma cached_report_is_restored_at_any_age (e : Env) (w : World)
    (report : CachedRepoData) (parsedUrl : RepoInfo) :
  localStorage w = Some (Serialized report) ->
  parseGithubUrl (st_url (ui w)) = Some parsedUrl ->
  name (repoInfo report) = name parsedUrl ->
  owner (repoInfo report) = owner parsedUrl ->
  handleAnalyze e false w
    = ({| ui := restore report (ui w); localStorage := localStorage w |}, Ok tt) /\
  loadCacheOnMount (Date_now e) w = w.
Proof.
  intros Hls Hurl Hname Howner. unfold handleAnalyze, loadCacheOnMount.
  rewrite Hurl, Hls. read_slot.
  rewrite Hname, Howner, !String.eqb_refl. cbn [andb].
  split; [reflexivity|]. now destruct (_ <? _)%Z.
Qed.

(** [C1] What the code does with a report stored two hours before the read:
    the effect that runs on mount leaves it in the slot, and [handleAnalyze]
    restores it into the visible state and starts no analysis. *)
Theorem stale_cached_report_is_restored :
  let w := fst (handleAnalyze Demo.env false Demo.staleWorld) in
  (Date_now Demo.env - timestamp Demo.staleReport = 2 * 3600000)%Z /\
  loadCacheOnMount (Date_now Demo.env) Demo.staleWorld = Demo.staleWorld /\
  handleAnalyze Demo.env false Demo.staleWorld
    = ({| ui := restore Demo.staleReport (ui Demo.staleWorld);
          localStorage := Some (Serialized Demo.staleReport) |}, Ok tt) /\
  currentStep (ui w) = complete /\
  logMessage (ui w) = "Restored from Cache" /\
  st_wikiMarkdown (ui w) = wikiMarkdown Demo.staleReport /\
  st_analysisResult (ui w) = Some (analysisResult Demo.staleReport) /\
  currentStep (ui (fst (handleAnalyze Demo.env true Demo.staleWorld))) = complete /\
  logMessage (ui (fst (handleAnalyze Demo.env true Demo.staleWorld)))
    = "Full analysis complete.".
Proof. repeat split; vm_compute; reflexivity. Qed.

(** ** parseGithubUrl *)

Section SegmentFacts.

Lemma no_slash_app (a b : string) :
  no_slash (a +:+ b) = no_slash a && no_slash b.
Proof.
  induction a as [|c a IH]; [reflexivity|].
  rewrite app_cons. simpl. rewrite IH. now rewrite andb_assoc.
Qed.

(** The greedy group splits its input at the first slash. *)
Lemma take_segment_spec (s : string) :
  s = fst (take_segment s) +:+ snd (take_segment s) /\
  no_slash (fst (take_segment s)) = true /\
  (snd (take_segment s) = "" \/ exists r, snd (take_segment s) = String "/" r).
Proof.
  induction s as [|c s (IH1 & IH2 & IH3)]; [now repeat split; left|].
  cbn [take_segment]. destruct (Ascii.eqb_spec c "/") as [->|Hc].
  - repeat split. right. now exists s.
  - destruct (take_segment s) as [seg rest]. cbn [fst snd] in *.
    rewrite app_cons. repeat split; [congruence| |exact IH3].
    simpl. rewrite IH2. apply Ascii.eqb_neq in Hc. now rewrite Hc.
Qed.

Lemma take_segment_app (seg x : string) :
  no_slash seg = true ->
  take_segment (seg +:+ x)
  = (seg +:+ fst (take_segment x), snd (take_segment x)).
Proof.
  induction seg as [|c seg IH]; intros H.
  - rewrite !app_nil_l. now destruct (take_segment x).
  - simpl in H. apply andb_prop in H as [Hc H].
    rewrite !app_cons. cbn [take_segment].
    apply negb_true_iff in Hc. rewrite Hc, (IH H). reflexivity.
Qed.

Lemma take_segment_slash (r : string) : take_segment (String "/" r) = ("", String "/" r).
Proof. reflexivity. Qed.

(** A segment is determined by the text it starts. *)
Lemma segment_unique (a b x y : string) :
  no_slash a = true -> no_slash b = true ->
  (x = "" \/ exists r, x = String "/" r) ->
  (y = "" \/ exists r, y = String "/" r) ->
  a +:+ x = b +:+ y -> a = b /\ x = y.
Proof.
  intros Ha Hb Hx Hy E.
  assert (T : take_segment (a +:+ x) = take_segment (b +:+ y)) by now rewrite E.
  rewrite !take_segment_app in T by assumption.
  assert (Tx : take_segment x = ("", x)) by (destruct Hx as [->|[r ->]]; reflexivity).
  assert (Ty : take_segment y = ("", y)) by (destruct Hy as [->|[r ->]]; reflexivity).
  rewrite Tx, Ty in T. cbn [fst snd] in T. rewrite !app_nil_r in T.
  now injection T.
Qed.

End SegmentFacts.

Section PatternFacts.

(** The pattern tried at one offset: sound and complete for [matches_at]
    with an empty prefix. *)
Lemma match_here_sound (s o n : string) :
  match_here s = Some (o, n) ->
  exists rest,
    matches_at s "" o n rest /\ (rest = "" \/ exists r, rest = String "/" r).
Proof.
  unfold match_here.
  destruct (String.prefix "github.com/" s) eqn:Hp; [|discriminate].
  apply prefix_app in Hp as [r0 ->].
  change 11%nat with (String.length "github.com/"). rewrite drop_units_app.
  destruct (take_segment_spec r0) as (E1 & N1 & _).
  destruct (take_segment r0) as [g1 r1]. cbn [fst snd] in *.
  destruct g1 as [|c1 g1]; [discriminate|].
  destruct r1 as [|c r2]; [discriminate|].
  destruct (Ascii.eqb_spec c "/") as [->|]; [|discriminate].
  destruct (take_segment_spec r2) as (E2 & N2 & R2).
  destruct (take_segment r2) as [g2 r3]. cbn [fst snd] in *.
  destruct g2 as [|c2 g2]; [discriminate|].
  intros [= <- <-]. exists r3. split; [|exact R2].
  unfold matches_at. rewrite app_nil_l.
  repeat split; try assumption; try discriminate.
  rewrite E1 at 1. rewrite E2 at 1. reflexivity.
Qed.

Lemma match_here_complete (s o n rest : string) :
  matches_at s "" o n rest -> exists n', match_here s = Some (o, n').
Proof.
  intros (-> & Ho & Hn & No & Nn). rewrite app_nil_l. unfold match_here.
  assert (Hp : String.prefix "github.com/" ("github.com/" +:+ o +:+ "/" +:+ n +:+ rest) = true)
    by (apply prefix_app; eexists; reflexivity).
  rewrite Hp. change 11%nat with (String.length "github.com/"). rewrite drop_units_app.
  rewrite (take_segment_app o) by assumption.
  change ("/" +:+ n +:+ rest) with (String "/" (n +:+ rest)).
  rewrite take_segment_slash. cbn [fst snd]. rewrite app_nil_r.
  destruct o as [|co o]; [contradiction|].
  rewrite Ascii.eqb_refl.
  rewrite (take_segment_app n) by assumption.
  destruct n as [|cn n]; [contradiction|].
  rewrite app_cons. eexists. reflexivity.
Qed.

Lemma matches_at_tail (c : ascii) (s pre o n rest : string) :
  matches_at (String c s) (String c pre) o n rest <-> matches_at s pre o n rest.
Proof.
  unfold matches_at. rewrite app_cons.
  split; intros (E & H); (split; [congruence|exact H]).
Qed.

Lemma matches_at_head (c : ascii) (s pre o n rest : string) :
  matches_at (String c s) pre o n rest ->
  pre = "" \/ exists pre', pre = String c pre' /\ matches_at s pre' o n rest.
Proof.
  destruct pre as [|d pre]; [now left|]. intros H. right.
  assert (d = c) as -> by (destruct H as [E _]; rewrite app_cons in E; congruence).
  exists pre. split; [reflexivity|]. exact (proj1 (matches_at_tail _ _ _ _ _ _) H).
Qed.

(** The scan over the offsets reports the leftmost match, or none when no
    offset has one. *)
Lemma regex_match_spec (s : string) :
  match regex_match s with
  | Some (o, n) => exists pre rest, leftmost_match s pre o n rest
  | None => ~ has_repo_pattern s
  end.
Proof.
  induction s as [|c s IH]; cbn [regex_match].
  - destruct (match_here "") as [[o n]|] eqn:Hm.
    + destruct (match_here_sound _ _ _ Hm) as (rest & Hrest & Hg).
      exists "", rest. split; [exact Hrest|]. split; [exact Hg|]. intros; simpl; lia.
    + intros (pre & o & n & rest & H).
      destruct pre; [|destruct H as [E _]; rewrite app_cons in E; discriminate].
      destruct (match_here_complete _ _ _ _ H) as [n' Hn']. congruence.
  - destruct (match_here (String c s)) as [[o n]|] eqn:Hm.
    + destruct (match_here_sound _ _ _ Hm) as (rest & Hrest & Hg).
      exists "", rest. split; [exact Hrest|]. split; [exact Hg|]. intros; simpl; lia.
    + assert (Hnot : forall o n rest, ~ matches_at (String c s) "" o n rest).
      { intros o n rest H. destruct (match_here_complete _ _ _ _ H) as [n' Hn']. congruence. }
      destruct (regex_match s) as [[o n]|].
      * destruct IH as (pre & rest & Hmatch & Hg & Hleft).
        exists (String c pre), rest. split; [exact (proj2 (matches_at_tail _ _ _ _ _ _) Hmatch)|].
        split; [exact Hg|].
        intros pre' o' n' rest' H'.
        destruct (matches_at_head _ _ _ _ _ _ H') as [->|(p & -> & Hp)].
        { now apply Hnot in H'. }
        simpl. apply Hleft in Hp. lia.
      * intros (pre & o & n & rest & H).
        destruct (matches_at_head _ _ _ _ _ _ H) as [->|(p & -> & Hp)].
        { now apply Hnot in H. }
        apply IH. now exists p, o, n, rest.
Qed.



End PatternFacts.

Section ReplaceFacts.

Lemma replace_unfold (s pat repl : string) :
  replace s pat repl
  = if String.prefix pat s then repl +:+ drop_units (String.length pat) s
    else match s with
         | EmptyString => EmptyString
         | String c s' => String c (replace s' pat repl)
         end.
Proof. now destruct s. Qed.






End ReplaceFacts.

Section TrimFacts.

Lemma trimStart_suffix (s : string) : exists a, s = a +:+ trimStart s.
Proof.
  induction s as [|c s [a IH]]; [now exists ""|].
  cbn [trimStart]. destruct (is_white c); [|now exists ""].
  exists (String c a). rewrite app_cons. congruence.
Qed.

Lemma trimEnd_prefix (s : string) : exists b, s = trimEnd s +:+ b.
Proof.
  induction s as [|c s [b IH]]; [now exists ""|].
  cbn [trimEnd]. destruct (trimEnd s) as [|d t].
  - destruct (is_white c).
    + exists (String c s). reflexivity.
    + exists b. rewrite app_cons, app_nil_l. rewrite app_nil_l in IH. congruence.
  - exists b. rewrite app_cons. congruence.
Qed.

(** [s.trim()] is [s] without some units at its two ends. *)
Lemma trim_middle (s : string) : exists a b, s = a +:+ trim s +:+ b.
Proof.
  unfold trim. destruct (trimStart_suffix s) as [a Ha].
  destruct (trimEnd_prefix (trimStart s)) as [b Hb].
  exists a, b. rewrite <- Hb. exact Ha.
Qed.

Lemma has_repo_pattern_trim (s : string) :
  has_repo_pattern (trim s) -> has_repo_pattern s.
Proof.
  intros (pre & o & n & rest & E & H).
  destruct (trim_middle s) as (a & b & Hs).
  exists (a +:+ pre), o, n, (rest +:+ b). split; [|exact H].
  rewrite Hs at 1. rewrite E. now rewrite !app_assoc.
Qed.

End TrimFacts.




(* ===================================================================== *)
(** * Further properties *)
(* ===================================================================== *)

(** ** parseGithubUrl: what it returns *)

Section ParsedFields.


Lemma parseGithubUrl_inv (input : string) (r : RepoInfo) :
  parseGithubUrl input = Some r ->
  exists pre o n rest,
    leftmost_match (trim input) pre o n rest /\
    r = {| owner := o; name := replace n ".git" ""; url := trim input;
           defaultBranch := None |}.
Proof.
  unfold parseGithubUrl. pose proof (regex_match_spec (trim input)) as Hspec.
  destruct (regex_match (trim input)) as [[o n]|]; [|discriminate].
  destruct Hspec as (pre & rest & M). intros [= <-]. now exists pre, o, n, rest.
Qed.

End ParsedFields.



(** ** parseGithubUrl: the usual addresses *)

Section UsualAddresses.

Lemma match_here_other (c : ascii) (s : string) :
  c <> "g"%char -> match_here (String c s) = None.
Proof.
  intros Hc. unfold match_here. cbn [String.prefix].
  destruct (ascii_dec "g" c) as [E|_]; [congruence|reflexivity].
Qed.

Lemma regex_match_skip (c : ascii) (s : string) :
  c <> "g"%char -> regex_match (String c s) = regex_match s.
Proof. intros Hc. cbn [regex_match]. now rewrite match_here_other. Qed.

(** At an offset where the text reads [github.com/o/n] up to a slash or its
    end, the pattern matches with exactly these groups. *)
Lemma match_here_exact (o n rest : string) :
  o <> "" -> n <> "" -> no_slash o = true -> no_slash n = true ->
  (rest = "" \/ exists r, rest = String "/" r) ->
  match_here ("github.com/" +:+ o +:+ "/" +:+ n +:+ rest) = Some (o, n).
Proof.
  intros Ho Hn No Nn Hrest.
  destruct (match_here_complete ("github.com/" +:+ o +:+ "/" +:+ n +:+ rest) o n rest)
    as [n' Hn'].
  { unfold matches_at. now rewrite app_nil_l. }
  rewrite Hn'. destruct (match_here_sound _ _ _ Hn') as (rest' & (E & _ & _ & _ & Nn') & Hrest').
  rewrite app_nil_l in E. apply String.app_inj, String.app_inj in E.
  change ("/" +:+ n +:+ rest) with (String "/" (n +:+ rest)) in E.
  change ("/" +:+ n' +:+ rest') with (String "/" (n' +:+ rest')) in E.
  injection E as E. apply segment_unique in E as [-> _]; auto.
Qed.

Lemma trimEnd_app (a b : string) :
  trimEnd b <> "" -> trimEnd (a +:+ b) = a +:+ trimEnd b.
Proof.
  intros Hb. induction a as [|c a IH]; [reflexivity|].
  rewrite !app_cons. cbn [trimEnd]. rewrite IH.
  destruct (a +:+ trimEnd b) eqn:E; [|reflexivity].
  destruct a; [rewrite app_nil_l in E; contradiction|rewrite app_cons in E; discriminate].
Qed.

(** Removing [.git] from a name that ends with it and has no other
    occurrence leaves the name without the suffix. *)
Lemma replace_git_suffix (m : string) :
  includes m ".git" = false -> replace (m +:+ ".git") ".git" "" = m.
Proof.
  induction m as [|c m IH]; [reflexivity|].
  cbn [includes]. intros H. apply orb_false_elim in H as [Hp H].
  rewrite app_cons, replace_unfold.
  assert (Hq : String.prefix ".git" (String c (m +:+ ".git")) = false).
  { destruct m as [|c1 [|c2 [|c3 m]]]; rewrite ?app_cons, ?app_nil_l;
      cbn [String.prefix] in *;
      repeat match goal with
             | |- context [ascii_dec ?x ?y] => destruct (ascii_dec x y); try subst
             end; try reflexivity; try discriminate; try congruence;
      destruct m; discriminate. }
  rewrite Hq. now rewrite IH.
Qed.

End UsualAddresses.

(** [X2] The address [https://github.com/<owner>/<name>] of a repository,
    for an owner and a name that are non-empty and free of slashes and a
    name that does not end in white space, parses to this owner and to the
    name without its first [.git]; the clone address
    [https://github.com/<owner>/<name>.git] of a name that contains no
    [.git] parses to this owner and this name. *)
Theorem repository_address_parses_to_its_owner_and_name (o n : string) :
  o <> "" -> n <> "" -> no_slash o = true -> no_slash n = true ->
  trimEnd n = n ->
  let address := "https://github.com/" +:+ o +:+ "/" +:+ n in
  parseGithubUrl address
    = Some {| owner := o; name := replace n ".git" ""; url := address;
              defaultBranch := None |} /\
  (includes n ".git" = false ->
   parseGithubUrl (address +:+ ".git")
     = Some {| owner := o; name := n; url := address +:+ ".git";
               defaultBranch := None |}).
Proof.
  intros Ho Hn No Nn Ht address.
  assert (Hparse : forall m, m <> "" -> no_slash m = true -> trimEnd m = m ->
            parseGithubUrl ("https://github.com/" +:+ o +:+ "/" +:+ m)
            = Some {| owner := o; name := replace m ".git" "";
                      url := "https://github.com/" +:+ o +:+ "/" +:+ m;
                      defaultBranch := None |}).
  { intros m Hm Nm Htm. unfold parseGithubUrl.
    assert (Htrim : trim ("https://github.com/" +:+ o +:+ "/" +:+ m)
                    = "https://github.com/" +:+ o +:+ "/" +:+ m).
    { assert (Hstart : trimStart ("https://github.com/" +:+ o +:+ "/" +:+ m)
                       = "https://github.com/" +:+ o +:+ "/" +:+ m) by reflexivity.
      unfold trim. rewrite Hstart.
      replace ("https://github.com/" +:+ o +:+ "/" +:+ m)
        with (("https://github.com/" +:+ o +:+ "/") +:+ m) by now rewrite !app_assoc.
      rewrite trimEnd_app by congruence. now rewrite Htm. }
    rewrite Htrim.
    change ("https://github.com/" +:+ o +:+ "/" +:+ m)
      with (String "h" (String "t" (String "t" (String "p" (String "s"
             (String ":" (String "/" (String "/"
                ("github.com/" +:+ o +:+ "/" +:+ m))))))))) at 1.
    rewrite !regex_match_skip by discriminate.
    replace ("github.com/" +:+ o +:+ "/" +:+ m)
      with ("github.com/" +:+ o +:+ "/" +:+ m +:+ "") by now rewrite app_nil_r.
    assert (Hm' : regex_match ("github.com/" +:+ o +:+ "/" +:+ m +:+ "") = Some (o, m)).
    { destruct o as [|co o']; [contradiction|].
      change ("github.com/" +:+ String co o' +:+ "/" +:+ m +:+ "")
        with (String "g" ("ithub.com/" +:+ String co o' +:+ "/" +:+ m +:+ "")).
      cbn [regex_match].
      change (String "g" ("ithub.com/" +:+ String co o' +:+ "/" +:+ m +:+ ""))
        with ("github.com/" +:+ String co o' +:+ "/" +:+ m +:+ "").
      rewrite match_here_exact; auto. }
    rewrite Hm'. reflexivity. }
  split; [now apply Hparse|].
  intros Hno. unfold address.
  replace (("https://github.com/" +:+ o +:+ "/" +:+ n) +:+ ".git")
    with ("https://github.com/" +:+ o +:+ "/" +:+ (n +:+ ".git")) by now rewrite !app_assoc.
  rewrite Hparse.
  - now rewrite replace_git_suffix.
  - destruct n; [contradiction|rewrite app_cons; discriminate].
  - now rewrite no_slash_app, Nn.
  - rewrite trimEnd_app; [reflexivity|discriminate].
Qed.

Lemma repository_address_parses_to_its_owner_and_name_witness :
  parseGithubUrl "https://github.com/facebook/react"
    = Some {| owner := "facebook"; name := "react";
              url := "https://github.com/facebook/react"; defaultBranch := None |} /\
  parseGithubUrl "https://github.com/facebook/react.git"
    = Some {| owner := "facebook"; name := "react";
              url := "https://github.com/facebook/react.git"; defaultBranch := None |}.
Proof.
  destruct (repository_address_parses_to_its_owner_and_name "facebook" "react")
    as [H1 H2]; try discriminate; try reflexivity.
  split; [exact H1|]. apply H2. reflexivity.
Defined.

(** ** parseGithubUrl: white space *)

Section TrimTwice.

Lemma trimEnd_cons (c : ascii) (s : string) :
  trimEnd (String c s)
  = match trimEnd s with
    | EmptyString => if is_white c then EmptyString else String c EmptyString
    | t => String c t
    end.
Proof. reflexivity. Qed.

Lemma trimEnd_idem (s : string) : trimEnd (trimEnd s) = trimEnd s.
Proof.
  induction s as [|c s IH]; [reflexivity|].
  rewrite trimEnd_cons. destruct (trimEnd s) as [|d t] eqn:E.
  - destruct (is_white c) eqn:W; [reflexivity|]. rewrite trimEnd_cons. cbn [trimEnd].
    now rewrite W.
  - rewrite trimEnd_cons. now rewrite IH.
Qed.

Lemma trimEnd_keeps_head (c : ascii) (s : string) :
  is_white c = false -> exists r, trimEnd (String c s) = String c r.
Proof.
  intros W. cbn [trimEnd]. destruct (trimEnd s); [rewrite W|]; eexists; reflexivity.
Qed.

Lemma trimStart_head (s : string) :
  trimStart s = "" \/ exists c r, trimStart s = String c r /\ is_white c = false.
Proof.
  induction s as [|c s IH]; [now left|].
  cbn [trimStart]. destruct (is_white c) eqn:W; [exact IH|].
  right. now exists c, s.
Qed.

Lemma trim_idem (s : string) : trim (trim s) = trim s.
Proof.
  unfold trim. destruct (trimStart_head s) as [->|(c & r & -> & W)]; [reflexivity|].
  destruct (trimEnd_keeps_head c r W) as [t Ht].
  rewrite Ht. cbn [trimStart]. rewrite W, <- Ht. apply trimEnd_idem.
Qed.

End TrimTwice.

(** [X3] White space around the input changes nothing, and the [url] that a
    parsed repository records parses to the same repository again. *)
Theorem parsed_url_parses_to_the_same_repository (input : string) :
  parseGithubUrl (trim input) = parseGithubUrl input /\
  forall r, parseGithubUrl input = Some r -> parseGithubUrl (url r) = Some r.
Proof.
  assert (H : parseGithubUrl (trim input) = parseGithubUrl input)
    by (unfold parseGithubUrl; now rewrite trim_idem).
  split; [exact H|].
  intros r Hr. destruct (parseGithubUrl_inv _ _ Hr) as (pre & o & n & rest & _ & E).
  replace (url r) with (trim input) by now rewrite E.
  now rewrite H.
Qed.

Lemma parsed_url_parses_to_the_same_repository_witness :
  parseGithubUrl "https://github.com/x/a.github"
    = parseGithubUrl (String (ascii_of_nat 9) "  https://github.com/x/a.github  ") /\
  exists r,
    parseGithubUrl "  https://github.com/x/a.github " = Some r /\
    parseGithubUrl (url r) = Some r.
Proof.
  split.
  - destruct (parsed_url_parses_to_the_same_repository
                (String (ascii_of_nat 9) "  https://github.com/x/a.github  ")) as [H _].
    exact H.
  - destruct (parsed_url_parses_to_the_same_repository "  https://github.com/x/a.github ")
      as [_ H].
    eexists. split; [vm_compute; reflexivity|]. apply H. vm_compute. reflexivity.
Defined.

(** ** The files fetched from the repository *)

Section FetchFacts.
Variable api : Api.

Lemma omap_id_sublist {A} (f : string -> option A) (g : A -> string) (l : list string) :
  (forall t a, f t = Some a -> g a = t) ->
  sublist (map g (omap id (map f l))) l.
Proof.
  intros H. induction l as [|t l IH]; [constructor|].
  cbn. destruct (f t) as [a|] eqn:E; cbn.
  - rewrite (H _ _ E). now constructor.
  - now constructor.
Qed.

Lemma omap_id_In {A} (f : string -> option A) (l : list string) (t : string) (a : A) :
  In t l -> f t = Some a -> In a (omap id (map f l)).
Proof.
  intros Ht Ha. induction l as [|u l IH]; [destruct Ht|].
  cbn. destruct Ht as [->|Ht].
  - rewrite Ha. now left.
  - destruct (f u); cbn; [right|]; now apply IH.
Qed.

Lemma fetchDependencyFile_inv (repo : RepoInfo) (target : string) (f : FileExcerpt) :
  fetchDependencyFile api repo target = Some f ->
  exists content,
    getContents api repo target = Ok (Some content) /\ content <> "" /\
    f = {| path := target; excerpt := JsString.substring content 0 3000;
           size := String.length content |}.
Proof.
  unfold fetchDependencyFile, fetchFullFileContent.
  destruct (getContents api repo target) as [[content|]|m]; try discriminate.
  destruct content as [|c content]; [discriminate|].
  intros [= <-]. exists (String c content). now repeat split.
Qed.

End FetchFacts.

(** [X4] The manifests returned are those of the eleven probed names that
    have content, in the order of the probes and each at most once; a
    manifest that cannot be fetched, has no content or is empty is absent
    and raises nothing; every manifest returned has a non-empty excerpt, and
    its [size] is the length of the whole content. *)
Theorem dependency_manifests_follow_the_probe_list (api : Api) (repo : RepoInfo) :
  let found := fetchDependencyFiles api repo in
  sublist (map path found) targets /\
  List.NoDup (map path found) /\
  (List.length found <= 11)%nat /\
  (forall target,
     In target targets ->
     (In target (map path found) <->
      exists content, getContents api repo target = Ok (Some content) /\ content <> "")) /\
  (forall f, In f found ->
     exists content,
       getContents api repo (path f) = Ok (Some content) /\
       size f = String.length content /\
       excerpt f <> "" /\ (String.length (excerpt f) <= size f)%nat).
Proof.
  intros found.
  assert (Hsub : sublist (map path found) targets).
  { apply omap_id_sublist. intros t a Ha.
    destruct (fetchDependencyFile_inv _ _ _ _ Ha) as (c & _ & _ & ->). reflexivity. }
  assert (Hin : forall f, In f found ->
            exists target content,
              In target targets /\ getContents api repo target = Ok (Some content) /\
              content <> "" /\
              f = {| path := target; excerpt := JsString.substring content 0 3000;
                     size := String.length content |}).
  { intros f Hf. destruct (fetchDependencyFiles_inv _ _ _ Hf) as (t & Ht & Hs).
    destruct (fetchDependencyFile_inv _ _ _ _ Hs) as (c & ? & ? & ?). now exists t, c. }
  split; [exact Hsub|].
  split.
  { apply NoDup_ListNoDup. eapply sublist_NoDup; [|exact Hsub].
    apply NoDup_ListNoDup. unfold targets.
    repeat (constructor; [cbn; intuition discriminate|]). constructor. }
  split.
  { apply sublist_length in Hsub. rewrite length_map in Hsub. exact Hsub. }
  split.
  { intros target Ht. split.
    - intros Hp. apply in_map_iff in Hp as (f & <- & Hf).
      destruct (Hin f Hf) as (t & c & _ & Hc & Hne & ->). now exists c.
    - intros (content & Hc & Hne).
      assert (Hs : fetchDependencyFile api repo target
                   = Some {| path := target;
                             excerpt := JsString.substring content 0 3000;
                             size := String.length content |}).
      { unfold fetchDependencyFile, fetchFullFileContent. rewrite Hc.
        destruct content; [contradiction|reflexivity]. }
      apply in_map_iff. eexists. split; [|exact (omap_id_In _ _ _ _ Ht Hs)].
      reflexivity. }
  intros f Hf. destruct (Hin f Hf) as (t & c & _ & Hc & Hne & ->). cbn [path excerpt size].
  exists c. split; [exact Hc|]. split; [reflexivity|].
  pose proof (js_substring0_length c 3000) as Hlen.
  split; [|lia].
  intros E. rewrite E in Hlen. destruct c; [contradiction|]. simpl in Hlen. lia.
Qed.

Lemma dependency_manifests_follow_the_probe_list_witness :
  In "package.json" (map path (fetchDependencyFiles Demo.api Demo.repo)) /\
  ~ In "Makefile" (map path (fetchDependencyFiles Demo.api Demo.repo)).
Proof.
  destruct (dependency_manifests_follow_the_probe_list Demo.api Demo.repo)
    as (_ & _ & _ & H & _).
  split.
  - apply (H "package.json"); [vm_compute; tauto|].
    exists (JsString.repeat "d" 3100). split; [reflexivity|discriminate].
  - intros Hin. apply (H "Makefile") in Hin as (content & Hc & _); [|vm_compute; tauto].
    vm_compute in Hc. discriminate.
Defined.

Section SelectionFacts.
Variable api : Api.
Variable repo : RepoInfo.

Lemma filter_map_comm {A B} (p : B -> bool) (f : A -> B) (l : list A) :
  List.filter p (map f l) = map f (List.filter (fun a => p (f a)) l).
Proof.
  induction l as [|a l IH]; [reflexivity|].
  cbn. destruct (p (f a)); cbn; now rewrite IH.
Qed.

(** An excerpt is the placeholder exactly when the file could not be read
    or reads as the placeholder. *)
Lemma fetchExcerpt_kept (item : TreeItem) :
  negb (String.eqb (excerpt (fetchExcerpt api repo item)) "(Read failed)")
  = Selection.readable api repo item.
Proof.
  unfold fetchExcerpt, Selection.readable.
  destruct (getContents api repo (ti_path item)) as [[raw|]|m]; try reflexivity.
  cbn [excerpt]. unfold limit.
  destruct (500 <? String.length raw)%nat eqn:E; [|reflexivity].
  apply Nat.ltb_lt in E.
  assert (H1 : raw <> "(Read failed)").
  { intros ->. change (String.length "(Read failed)") with 13%nat in E. lia. }
  assert (H2 : JsString.substring raw 0 500 +:+ "... [truncated]" <> "(Read failed)").
  { intros H. apply (f_equal String.length) in H.
    rewrite length_app, js_substring0_length in H.
    change (String.length "... [truncated]") with 15%nat in H.
    change (String.length "(Read failed)") with 13%nat in H. lia. }
  apply String.eqb_neq in H1, H2. now rewrite H1, H2.
Qed.

Lemma fetchTopRepoFiles_paths (tree : list TreeItem) (out : list FileExcerpt) :
  getTree api repo = Ok (Some tree) ->
  fetchTopRepoFiles api repo = Ok out ->
  out = map (fetchExcerpt api repo)
          (List.filter (Selection.readable api repo) (topFiles tree)).
Proof.
  intros Htree Hout.
  destruct (fetchTopRepoFiles_inv _ _ _ Hout) as (tree' & [Ht|[Ht _]] & ->);
    rewrite Htree in Ht; [|discriminate].
  injection Ht as <-. rewrite filter_map_comm.
  f_equal. apply filter_ext. intros item. apply fetchExcerpt_kept.
Qed.

End SelectionFacts.

(** [X5] [fetchTopRepoFiles] throws only for a repository without default
    branch (before any request) and when the request of the tree fails (with
    the error of that request); it returns no file when the answer has no
    tree; otherwise it returns, in the order of the selection, the excerpts
    of the selected files whose content could be read, a file whose request
    or decoding fails being left out without an error, as is a file whose
    whole content is the text [(Read failed)]. *)
Theorem top_files_fail_only_with_the_tree_request (api : Api) (repo : RepoInfo) :
  (defaultBranch repo = None \/ defaultBranch repo = Some "" ->
   fetchTopRepoFiles api repo = Throw "Default branch not found") /\
  (forall branch,
     defaultBranch repo = Some branch -> branch <> "" ->
     (forall m, getTree api repo = Throw m -> fetchTopRepoFiles api repo = Throw m) /\
     (getTree api repo = Ok None -> fetchTopRepoFiles api repo = Ok []) /\
     (forall tree,
        getTree api repo = Ok (Some tree) ->
        exists out,
          fetchTopRepoFiles api repo = Ok out /\
          out = map (fetchExcerpt api repo)
                  (List.filter (Selection.readable api repo) (topFiles tree)) /\
          map path out
          = map ti_path (List.filter (Selection.readable api repo) (topFiles tree)) /\
          map size out
          = map ti_size (List.filter (Selection.readable api repo) (topFiles tree)))).
Proof.
  split.
  - unfold fetchTopRepoFiles. now intros [->| ->].
  - intros branch Hb Hne.
    assert (Hrun : fetchTopRepoFiles api repo
                   = (treeData ← getTree api repo;
                      match treeData with
                      | None => Ok []
                      | Some tree =>
                          Ok (List.filter
                                (fun f => negb (String.eqb (excerpt f) "(Read failed)"))
                                (map (fetchExcerpt api repo) (topFiles tree)))
                      end)).
    { unfold fetchTopRepoFiles. rewrite Hb. destruct branch; [contradiction|reflexivity]. }
    split; [intros m Hm; now rewrite Hrun, Hm|].
    split; [intros Hm; now rewrite Hrun, Hm|].
    intros tree Htree.
    assert (Hout : fetchTopRepoFiles api repo
                   = Ok (List.filter
                           (fun f => negb (String.eqb (excerpt f) "(Read failed)"))
                           (map (fetchExcerpt api repo) (topFiles tree))))
      by now rewrite Hrun, Htree.
    eexists. split; [exact Hout|].
    pose proof (fetchTopRepoFiles_paths api repo tree _ Htree Hout) as E.
    split; [exact E|]. rewrite E, !map_map.
    split; apply map_ext; intros item; unfold fetchExcerpt;
      now destruct (getContents api repo (ti_path item)) as [[raw|]|m].
Qed.

Lemma top_files_fail_only_with_the_tree_request_witness :
  fetchTopRepoFiles Demo.api
    {| owner := "o"; name := "r"; url := "https://github.com/o/r";
       defaultBranch := None |} = Throw "Default branch not found" /\
  ~ In "lib/util.ts" (map path Demo.topExcerpts) /\
  In (Demo.blob "lib/util.ts") (topFiles Demo.tree).
Proof.
  split.
  - destruct (top_files_fail_only_with_the_tree_request Demo.api
                {| owner := "o"; name := "r"; url := "https://github.com/o/r";
                   defaultBranch := None |}) as [H _].
    apply H. now left.
  - destruct (top_files_fail_only_with_the_tree_request Demo.api Demo.repo) as [_ H].
    destruct (H "main" eq_refl) as (_ & _ & Hall); [discriminate|].
    destruct (Hall Demo.tree eq_refl) as (out & Hout & _ & Hp & _).
    assert (Hd : fetchTopRepoFiles Demo.api Demo.repo = Ok Demo.topExcerpts)
      by (vm_compute; reflexivity).
    rewrite Hd in Hout. injection Hout as <-.
    split; [rewrite Hp; vm_compute; intuition discriminate|vm_compute; tauto].
Defined.

(** [X6] Every excerpt returned belongs to an entry of the tree that is a
    blob, whose path ends with one of the seventeen extensions or whose
    last segment is [Dockerfile], [Makefile] or [Gemfile], and carries the
    size the tree gives for it. *)
Theorem returned_files_are_source_or_build_files (api : Api) (repo : RepoInfo)
    (out : list FileExcerpt) (f : FileExcerpt) :
  fetchTopRepoFiles api repo = Ok out -> In f out ->
  exists tree item,
    getTree api repo = Ok (Some tree) /\ In item tree /\
    type item = "blob" /\ ti_path item = path f /\ ti_size item = size f /\
    ((exists ext,
        In ext [ ".js"; ".jsx"; ".ts"; ".tsx"; ".py"; ".go"; ".rs"; ".java"; ".c";
                 ".cpp"; ".rb"; ".php"; ".json"; ".toml"; ".yaml"; ".yml"; ".md" ] /\
        endsWith (path f) ext = true)
     \/ (exists file, Selection.basename (path f) = Some file /\
                     In file ["Dockerfile"; "Makefile"; "Gemfile"])).
Proof.
  intros Hout Hin.
  destruct (fetchTopRepoFiles_from_top _ _ _ _ Hout Hin) as (tree & item & Ht & Hi & -> & _).
  apply topFiles_interesting in Hi as [Hi Hint].
  exists tree, item. split; [exact Ht|]. split; [exact Hi|].
  rewrite fetchExcerpt_path.
  assert (Hsize : ti_size item = size (fetchExcerpt api repo item)).
  { unfold fetchExcerpt. now destruct (getContents api repo (ti_path item)) as [[raw|]|m]. }
  unfold interesting in Hint.
  destruct (String.eqb_spec (type item) "blob") as [Hb|]; [|discriminate]. cbn [negb] in Hint.
  destruct (JsArray.some _ excludePatterns); [discriminate|].
  split; [exact Hb|]. split; [reflexivity|]. split; [exact Hsize|].
  apply orb_prop in Hint as [Hext|Hcfg].
  - left. unfold JsArray.some in Hext. apply existsb_exists in Hext as (ext & He & Hends).
    now exists ext.
  - right. unfold Selection.basename.
    destruct (pop (split "/" (ti_path item))) as [file|]; [|discriminate].
    exists file. split; [reflexivity|].
    cbn [JsArray.includes] in Hcfg. apply existsb_exists in Hcfg as (x & Hx & E).
    apply String.eqb_eq in E. now subst.
Qed.

Lemma returned_files_are_source_or_build_files_witness :
  exists tree item,
    getTree Demo.api Demo.repo = Ok (Some tree) /\ In item tree /\
    type item = "blob" /\ ti_path item = "README.md" /\ ti_size item = 100%nat.
Proof.
  destruct (returned_files_are_source_or_build_files Demo.api Demo.repo Demo.topExcerpts
              {| path := "README.md"; excerpt := "// README.md"; size := 100 |})
    as (tree & item & H1 & H2 & H3 & H4 & H5 & _).
  - vm_compute. reflexivity.
  - vm_compute. tauto.
  - exists tree, item. now repeat split.
Defined.

(** ** The score *)

(** [X7] The three directory bonuses exclude one another, so that a score
    lies between 0 and 32, and between 0 and 22 outside [src/], [app/] and
    [lib/]. *)
Theorem score_is_between_0_and_32 (p : string) :
  (0 <= scoreFile p <= 32)%Z /\
  (startsWith p "src/" = false -> startsWith p "app/" = false ->
   startsWith p "lib/" = false -> (scoreFile p <= 22)%Z) /\
  (startsWith p "src/" && startsWith p "app/" = false) /\
  (startsWith p "src/" && startsWith p "lib/" = false) /\
  (startsWith p "app/" && startsWith p "lib/" = false).
Proof.
  assert (Hex : startsWith p "src/" && startsWith p "app/" = false /\
                startsWith p "src/" && startsWith p "lib/" = false /\
                startsWith p "app/" && startsWith p "lib/" = false).
  { unfold startsWith. destruct p as [|c p]; [now repeat split|].
    cbn [String.prefix].
    destruct (ascii_dec "s" c), (ascii_dec "a" c), (ascii_dec "l" c); subst;
      try discriminate; repeat split; try reflexivity; apply andb_false_r. }
  destruct Hex as (H1 & H2 & H3).
  split; [|split; [|now repeat split]].
  - unfold scoreFile.
    destruct (startsWith p "src/"), (startsWith p "app/"), (startsWith p "lib/");
      try discriminate;
      repeat match goal with
             | |- context [if ?b then _ else _] => destruct b
             end; lia.
  - intros Ha Hb Hc. unfold scoreFile. rewrite Ha, Hb, Hc.
    repeat match goal with
           | |- context [if ?b then _ else _] => destruct b
           end; lia.
Qed.

Lemma score_is_between_0_and_32_witness :
  scoreFile "src/main/index-server-App.ts" = 30%Z /\
  scoreFile "src/main-index-server-App.ts" = 32%Z /\
  (scoreFile "docs/main/index-server-App.ts" <= 22)%Z.
Proof.
  split; [reflexivity|]. split; [reflexivity|].
  destruct (score_is_between_0_and_32 "docs/main/index-server-App.ts") as (_ & H & _).
  apply H; reflexivity.
Defined.

(** ** The decoding of fetched content *)

Section EscapeFacts.
Import Base64.

Lemma percentEncode_digits (c : ascii) :
  exists h l,
    percentEncode c = String "%" (String h (String l "")) /\
    hex_value h = Some (nat_of_ascii c / 16)%nat /\
    hex_value l = Some (nat_of_ascii c mod 16)%nat.
Proof.
  destruct c as [[] [] [] [] [] [] [] []];
    eexists _, _; (split; [vm_compute; reflexivity|split; vm_compute; reflexivity]).
Qed.

Lemma join_empty_cons (p : string) (l : list string) :
  join "" (p :: l) = p +:+ join "" l.
Proof.
  destruct l as [|q l]; cbn [join]; [now rewrite app_nil_r|now rewrite app_nil_l].
Qed.

Lemma remove_white_app (a b : string) :
  remove_white (a +:+ b) = remove_white a +:+ remove_white b.
Proof.
  induction a as [|c a IH]; [reflexivity|].
  rewrite app_cons. cbn [remove_white]. destruct (is_white c); [exact IH|].
  now rewrite app_cons, IH.
Qed.

Lemma remove_white_clean (s : string) :
  forall c, In c (list_ascii_of_string (remove_white s)) -> is_white c = false.
Proof.
  induction s as [|d s IH]; intros c; [intros []|].
  cbn [remove_white]. destruct (is_white d) eqn:W; [apply IH|].
  cbn. intros [<-|H]; [exact W|now apply IH].
Qed.

End EscapeFacts.

Import Base64.

(** [X8] The text handed to [decodeURIComponent] is one escape [%hh] per
    byte of the decoded base64, with two lower-case hexadecimal digits whose
    value is the byte: it is three times as long as the bytes, and reading
    the escapes back gives the bytes. *)
Theorem percent_escapes_spell_the_bytes (binary : string) :
  let escaped := join "" (map percentEncode (list_ascii_of_string binary)) in
  String.length escaped = (3 * String.length binary)%nat /\
  percentDecode escaped = Some binary /\
  forall c,
    exists h l,
      percentEncode c = String "%" (String h (String l "")) /\
      hex_value h = Some (nat_of_ascii c / 16)%nat /\
      hex_value l = Some (nat_of_ascii c mod 16)%nat.
Proof.
  intros escaped. split; [|split; [|apply percentEncode_digits]].
  - subst escaped. induction binary as [|c s IH]; [reflexivity|].
    cbn [list_ascii_of_string map]. rewrite join_empty_cons, length_app, IH.
    destruct (percentEncode_digits c) as (h & l & -> & _). simpl. lia.
  - subst escaped. induction binary as [|c s IH]; [reflexivity|].
    cbn [list_ascii_of_string map]. rewrite join_empty_cons.
    destruct (percentEncode_digits c) as (h & l & -> & Hh & Hl).
    rewrite !app_cons, app_nil_l. cbn [percentDecode].
    rewrite Ascii.eqb_refl, Hh, Hl, IH.
    rewrite <- Nat.div_mod_eq, ascii_nat_embedding. reflexivity.
Qed.

(** [X9] White space in the encoded content is ignored; text that [atob]
    rejects makes [b64DecodeUnicode] throw the error of [atob]; bytes that
    are not UTF-8 are returned as they are; otherwise the result is the
    decoded text. *)
Theorem decoding_ignores_white_space_and_falls_back_to_bytes
    (host : Host) (str : string) :
  (forall a b w, str = a +:+ String w b -> is_white w = true ->
     b64DecodeUnicode host str = b64DecodeUnicode host (a +:+ b)) /\
  (forall c, In c (list_ascii_of_string (remove_white str)) -> is_white c = false) /\
  (forall m, atob host (remove_white str) = Throw m ->
     b64DecodeUnicode host str = Throw m) /\
  (forall binary,
     atob host (remove_white str) = Ok binary ->
     let escaped := join "" (map percentEncode (list_ascii_of_string binary)) in
     (forall text, decodeURIComponent host escaped = Ok text ->
        b64DecodeUnicode host str = Ok text) /\
     (forall m, decodeURIComponent host escaped = Throw m ->
        b64DecodeUnicode host str = Ok binary)).
Proof.
  split.
  { intros a b w -> W. unfold b64DecodeUnicode.
    rewrite !remove_white_app. cbn [remove_white]. now rewrite W. }
  split; [apply remove_white_clean|].
  split.
  { intros m Hm. unfold b64DecodeUnicode. now rewrite Hm. }
  intros binary Hb escaped. unfold b64DecodeUnicode. rewrite Hb. cbn. fold escaped.
  split; [intros text ->; reflexivity|intros m ->; reflexivity].
Qed.

Lemma decoding_ignores_white_space_and_falls_back_to_bytes_witness :
  b64DecodeUnicode Demo.host ("aG" +:+ String (ascii_of_nat 10) "k=") = Ok "hi" /\
  b64DecodeUnicode Demo.host "a G k =" = Ok "hi" /\
  b64DecodeUnicode Demo.host "/w==" = Ok (String (ascii_of_nat 255) "") /\
  b64DecodeUnicode Demo.host "*" = Throw "InvalidCharacterError".
Proof.
  destruct (decoding_ignores_white_space_and_falls_back_to_bytes Demo.host
              ("aG" +:+ String (ascii_of_nat 10) "k=")) as (Hw & _).
  destruct (decoding_ignores_white_space_and_falls_back_to_bytes Demo.host "/w==")
    as (_ & _ & _ & Hb).
  destruct (decoding_ignores_white_space_and_falls_back_to_bytes Demo.host "*")
    as (_ & _ & Ht & _).
  split; [|split; [|split]].
  - rewrite (Hw "aG" "k=" (ascii_of_nat 10)); reflexivity.
  - reflexivity.
  - destruct (Hb (String (ascii_of_nat 255) "") eq_refl) as [_ Hraw].
    apply (Hraw "URIError"). reflexivity.
  - apply Ht. reflexivity.
Defined.

(** ** What the symbol aggregator sends *)

Section CoverageFacts.

Lemma window_length (fullContent : string) (k : nat) :
  (k < window_count fullContent)%nat ->
  String.length (window fullContent k)
  = Nat.min 2500 (String.length fullContent - 2000 * k).
Proof.
  intros Hk. apply window_count_lt in Hk. unfold window.
  destruct (js_substring_splits fullContent (2000 * k)
              (Nat.min (2000 * k + 2500) (String.length fullContent)))
    as (_ & _ & _ & _ & ->); lia.
Qed.

End CoverageFacts.

(** [X10] The windows that are processed lie within the first 6500 units of
    the text and leave none of these units out: what follows the offset
    6500 of a file is never sent for extraction, and two consecutive windows
    share the 500 units before the end of the first, or what the text has
    of them. *)
Theorem processed_windows_cover_the_first_6500_units (fullContent : string) :
  let len := String.length fullContent in
  let n := Nat.min 3 (window_count fullContent) in
  chunksToProcess fullContent = map (window fullContent) (seq 0 n) /\
  (forall k, (k < n)%nat ->
     (2000 * k + String.length (window fullContent k) <= Nat.min len 6500)%nat) /\
  (forall i, (i < Nat.min len 6500)%nat ->
     exists k, (k < n)%nat /\
       (2000 * k <= i < 2000 * k + String.length (window fullContent k))%nat) /\
  (forall k, (S k < n)%nat ->
     (2000 * k + String.length (window fullContent k)
      = Nat.min len (2000 * S k + 500))%nat).
Proof.
  intros len n.
  assert (E6500 : 6500%nat = (13 * 500)%nat) by reflexivity.
  rewrite E6500. clear E6500.
  assert (Hlt : forall k, (k < n)%nat ->
            (2000 * k < len)%nat /\
            String.length (window fullContent k) = Nat.min 2500 (len - 2000 * k)).
  { intros k Hk. assert (Hc : (k < window_count fullContent)%nat) by (subst n; lia).
    split; [now apply window_count_lt|now apply window_length]. }
  assert (Hn : forall k, (k < 3)%nat -> (2000 * k < len)%nat -> (k < n)%nat).
  { intros k H3 Hk. apply window_count_lt in Hk. subst n. lia. }
  split.
  { unfold chunksToProcess, JsArray.slice0. rewrite chunks_windows.
    rewrite firstn_map, take_seq. reflexivity. }
  split.
  { intros k Hk. destruct (Hlt k Hk) as [H1 ->]. subst n. lia. }
  split.
  { intros i Hi.
    assert (Hk : exists k, (k < 3)%nat /\ (2000 * k <= i < 2000 * k + 2500)%nat /\
                           (2000 * k < len)%nat).
    { destruct (Nat.lt_ge_cases i 2000); [exists 0%nat; lia|].
      destruct (Nat.lt_ge_cases i 4000); [exists 1%nat; lia|exists 2%nat; lia]. }
    destruct Hk as (k & H3 & Hr & Hl). exists k.
    assert (Hkn : (k < n)%nat) by now apply Hn.
    split; [exact Hkn|]. destruct (Hlt k Hkn) as [_ ->]. lia. }
  intros k Hk. destruct (Hlt k) as [_ ->]; [lia|]. destruct (Hlt (S k) Hk) as [H1 _]. lia.
Qed.

Lemma processed_windows_cover_the_first_6500_units_witness :
  exists k,
    (k < 3)%nat /\
    (2000 * k <= 6499 < 2000 * k + String.length (window (JsString.repeat "a" 9000) k))%nat.
Proof.
  destruct (processed_windows_cover_the_first_6500_units (JsString.repeat "a" 9000))
    as (_ & _ & H & _).
  destruct (H 6499%nat) as (k & Hk & Hr).
  - vm_compute. repeat constructor.
  - exists k. split; [|exact Hr].
    change (Nat.min 3 (window_count (JsString.repeat "a" 9000))) with 3%nat in Hk.
    exact Hk.
Defined.

(** ** The prompts and the errors of the two fatal stages *)

Section PromptFacts.

Lemma summarizePrompt_shape (readmeContent : string) :
  exists head tail,
    forall r,
      summarizePrompt r
      = head +:+ (if (8000 <? String.length r)%nat
                  then JsString.substring r 0 8000 +:+ nl +:+ "...[Truncated]..."
                  else r) +:+ tail.
Proof.
  exists ("You are a senior technical summarizer. Given the README text below, return a JSON object with keys: { 'summary': '<1-2 sentence summary>', 'runtime': 'node|python|go|other' }."
          +:+ nl +:+ nl +:+ "  README CONTENT:" +:+ nl +:+ "  "), (nl +:+ "  ").
  intros r. unfold summarizePrompt. cbv zeta.
  generalize (if (8000 <? String.length r)%nat
              then JsString.substring r 0 8000 +:+ nl +:+ "...[Truncated]..."
              else r) as middle.
  intros middle. now rewrite !app_assoc.
Qed.

End PromptFacts.

(** [X11] The prompt of the summary stage grows with the README up to 8000
    units and no further: it carries the whole README when that is at most
    8000 units long, and otherwise its first 8000 units followed by a
    marker of 18 units. *)
Theorem summary_prompt_is_bounded (readmeContent : string) :
  let len := String.length readmeContent in
  let fixed := String.length (summarizePrompt "") in
  String.length (summarizePrompt readmeContent)
    = (fixed + if (8000 <? len)%nat then 8000 + 18 else len)%nat /\
  (String.length (summarizePrompt readmeContent) <= fixed + (8000 + 18))%nat /\
  exists head tail,
    summarizePrompt readmeContent
    = head +:+ JsString.substring readmeContent 0 8000 +:+ tail.
Proof.
  intros len fixed.
  destruct (summarizePrompt_shape readmeContent) as (head & tail & Hshape).
  assert (Hfixed : fixed = (String.length head + String.length tail)%nat).
  { subst fixed. pose proof (Hshape "") as H0.
    assert (E0 : (8000 <? String.length "")%nat = false) by (vm_compute; reflexivity).
    rewrite E0 in H0. rewrite H0, !length_app. reflexivity. }
  pose proof (js_substring0_length readmeContent 8000) as Hsub.
  pose proof (js_substring0 readmeContent 8000) as Hsub0.
  specialize (Hshape readmeContent). fold len in Hshape, Hsub, Hsub0.
  clearbody fixed. revert Hshape Hsub Hsub0.
  generalize 8000%nat as N. intros N Hshape Hsub Hsub0.
  assert (Hlen : String.length (summarizePrompt readmeContent)
                 = (fixed + if (N <? len)%nat then N + 18 else len)%nat).
  { rewrite Hshape, Hfixed.
    destruct (N <? len)%nat eqn:E; rewrite !length_app; [|lia].
    apply Nat.ltb_lt in E. rewrite Hsub.
    change (String.length nl) with 1%nat.
    change (String.length "...[Truncated]...") with 17%nat. lia. }
  split; [exact Hlen|]. split.
  { rewrite Hlen. destruct (Nat.ltb_spec N len); lia. }
  rewrite Hshape. destruct (N <? len)%nat eqn:E.
  - exists head, (nl +:+ "...[Truncated]..." +:+ tail). now rewrite !app_assoc.
  - apply Nat.ltb_ge in E. exists head, tail.
    rewrite Hsub0. replace (Nat.min N len) with len by lia.
    now rewrite substring0_all.
Qed.

(** [X12] The summary stage and the architecture stage return exactly when
    the model answers with non-empty text that parses, and then return what
    the text parses to; whatever else happens, a rejected request included,
    they throw their own fixed message, never the error that occurred. *)
Theorem fatal_stages_replace_every_error (ai : GenAI) :
  (forall readmeContent,
     (forall m, summarizeRepo ai readmeContent = Throw m ->
        m = "Failed to analyze the repository content.") /\
     (forall a, summarizeRepo ai readmeContent = Ok a <->
        exists text,
          generateContent ai (summarizePrompt readmeContent) = Ok (Some text) /\
          text <> "" /\ parse_AnalysisResult ai text = Ok a)) /\
  (forall files,
     (forall m, analyzeArchitecture ai files = Throw m ->
        m = "Failed to analyze architecture.") /\
     (forall a, analyzeArchitecture ai files = Ok a <->
        exists text,
          generateContent ai (architecturePrompt files) = Ok (Some text) /\
          text <> "" /\ parse_ArchitectureAnalysis ai text = Ok a)).
Proof.
  split.
  - intros readmeContent. unfold summarizeRepo. cbv zeta.
    destruct (generateContent ai (summarizePrompt readmeContent)) as [[[|c t]|]|e]; cbn.
    + split; [now intros m [= <-]|]. intros a. split; [discriminate|].
      intros (text & [= <-] & Hne & _). contradiction.
    + destruct (parse_AnalysisResult ai (String c t)) as [a0|e] eqn:E; cbn.
      * split; [discriminate|]. intros a. split.
        { intros [= <-]. exists (String c t). now repeat split. }
        { intros (text & [= <-] & _ & Hp). congruence. }
      * split; [now intros m [= <-]|]. intros a. split; [discriminate|].
        intros (text & [= <-] & _ & Hp). congruence.
    + split; [now intros m [= <-]|]. intros a. split; [discriminate|].
      intros (text & Hg & _). discriminate.
    + split; [now intros m [= <-]|]. intros a. split; [discriminate|].
      intros (text & Hg & _). discriminate.
  - intros files. unfold analyzeArchitecture. cbv zeta.
    destruct (generateContent ai (architecturePrompt files)) as [[[|c t]|]|e]; cbn.
    + split; [now intros m [= <-]|]. intros a. split; [discriminate|].
      intros (text & [= <-] & Hne & _). contradiction.
    + destruct (parse_ArchitectureAnalysis ai (String c t)) as [a0|e] eqn:E; cbn.
      * split; [discriminate|]. intros a. split.
        { intros [= <-]. exists (String c t). now repeat split. }
        { intros (text & [= <-] & _ & Hp). congruence. }
      * split; [now intros m [= <-]|]. intros a. split; [discriminate|].
        intros (text & [= <-] & _ & Hp). congruence.
    + split; [now intros m [= <-]|]. intros a. split; [discriminate|].
      intros (text & Hg & _). discriminate.
    + split; [now intros m [= <-]|]. intros a. split; [discriminate|].
      intros (text & Hg & _). discriminate.
Qed.

Lemma fatal_stages_replace_every_error_witness :
  summarizeRepo Samples.unreachable "# r" = Throw "Failed to analyze the repository content." /\
  generateContent Samples.unreachable (summarizePrompt "# r") = Throw "API key not valid".
Proof.
  split; [|reflexivity].
  destruct (fatal_stages_replace_every_error Samples.unreachable) as [H _].
  destruct (H "# r") as [Hm _].
  destruct (summarizeRepo Samples.unreachable "# r") as [a|m] eqn:E;
    [vm_compute in E; discriminate|].
  now rewrite (Hm m eq_refl).
Defined.

(** The README is tested as it arrives and decoded afterwards: an absent or
    empty field throws, a field of blanks passes the test and decodes to the
    empty text, and a field that is not base64 throws the error of [atob]. *)
Example readme_field_is_tested_before_decoding :
  fetchRepoReadme (Samples.readmeField None) Demo.repo
    = Throw "Repository empty or unreadable." /\
  fetchRepoReadme (Samples.readmeField (Some "")) Demo.repo
    = Throw "Repository empty or unreadable." /\
  fetchRepoReadme (Samples.readmeField (Some "  ")) Demo.repo = Ok "" /\
  fetchRepoReadme (Samples.readmeField (Some "Iy By")) Demo.repo = Ok "# r" /\
  fetchRepoReadme (Samples.readmeField (Some "*")) Demo.repo
    = Throw "InvalidCharacterError".
Proof. repeat split; vm_compute; reflexivity. Qed.

(** ** Runs of the pipeline *)

Section RunFacts.
Variable env : Env.

Lemma fetchRepoDetails_keeps (repo repo' : RepoInfo) :
  fetchRepoDetails (api env) repo = Ok repo' ->
  owner repo' = owner repo /\ name repo' = name repo /\ url repo' = url repo.
Proof.
  unfold fetchRepoDetails. destruct (getDetails (api env) repo); [|discriminate].
  intros [= <-]. now repeat split.
Qed.

Lemma generateWiki_nonempty (readmeContent : string) (architecture : option ArchitectureAnalysis)
    (staticAnalysis : option StaticAnalysisData) (deps : list FileExcerpt) :
  generateWiki (ai env) readmeContent architecture staticAnalysis deps <> "".
Proof.
  unfold generateWiki. cbv zeta.
  destruct (generateContent (ai env) _) as [[[|c t]|]|m]; cbn; discriminate.
Qed.

Lemma errorMessage_nonempty (message : string) : errorMessage message <> "".
Proof. destruct message; discriminate. Qed.

Lemma unique_fresh (seen : gset string) (l : list string) :
  NoDup (JsArray.unique seen l) /\ forall x, In x (JsArray.unique seen l) -> x ∉ seen.
Proof.
  revert seen. induction l as [|a l IH]; intros seen; cbn [JsArray.unique].
  - split; [constructor|intros x []].
  - case_bool_decide as Ha; [apply IH|].
    destruct (IH ({[a]} ∪ seen)) as [Hnd Hfresh]. split.
    + apply NoDup_cons. split; [|exact Hnd].
      intros Hin. apply list_elem_of_In, Hfresh in Hin. set_solver.
    + intros x [<-|Hx]; [exact Ha|]. apply Hfresh in Hx. set_solver.
Qed.

(** The loop over the entry points writes nothing but the log line; when
    it returns, it has appended one entry for each entry point that has
    content, in order. *)
Lemma analyzeEntryPoints_frame (repo : RepoInfo) (entryPoints : list string)
    (acc : list StaticAnalysisEntry) (w : World) :
  exists w' r,
    analyzeEntryPoints env repo entryPoints acc w = (w', r) /\
    localStorage w' = localStorage w /\
    (ui w' = ui w \/ exists message, ui w' = setLogMessage message (ui w)) /\
    match r with
    | Ok staticResults =>
        exists added,
          staticResults = (acc ++ added)%list /\
          sublist (map sa_path added) entryPoints
    | Throw _ => True
    end.
Proof.
  revert acc w. induction entryPoints as [|filePath rest IH]; intros acc w.
  - exists w, (Ok acc). repeat split; [now left|].
    exists []. rewrite List.app_nil_r. split; [reflexivity|constructor].
  - cbn [analyzeEntryPoints]. run_statements.
    destruct (fetchFullFileContent (api env) repo filePath) as [|c content].
    + edestruct IH as (w' & r & -> & Hls & Hui & Hr).
      exists w', r. split; [reflexivity|]. split; [exact Hls|].
      split; [right; destruct Hui as [E|[message E]]; eexists; exact E|].
      destruct r as [staticResults|m]; [|exact I].
      destruct Hr as (added & -> & Hsub). exists added. split; [reflexivity|].
      now constructor.
    + destruct (analyzeCodeSymbols (ai env) filePath (String c content)) as [found|m].
      * edestruct IH as (w' & r & -> & Hls & Hui & Hr).
        exists w', r. split; [reflexivity|]. split; [exact Hls|].
        split; [right; destruct Hui as [E|[message E]]; eexists; exact E|].
        destruct r as [staticResults|m]; [|exact I].
        destruct Hr as (added & -> & Hsub). eexists (_ :: added).
        split; [now rewrite <- List.app_assoc|]. now constructor.
      * eexists _, (Throw m). split; [reflexivity|]. split; [reflexivity|].
        split; [right; eexists; reflexivity|exact I].
Qed.

End RunFacts.

Section OutcomeFacts.
Variable env : Env.
Import CacheView.

(** How a fresh run ends: in the [error] step with the cache untouched, or
    in the [complete] step with a report that the screen shows and the cache
    receives. *)
Lemma freshRun_outcome (repo : RepoInfo) (w : World) :
  exists w',
    freshRun env repo w = (w', Ok tt) /\
    st_url (ui w') = st_url (ui w) /\
    ((currentStep (ui w') = error /\
      (exists m, st_error (ui w') = Some (errorMessage m)) /\
      st_wikiMarkdown (ui w') = "" /\
      st_staticAnalysisData (ui w') = None /\
      localStorage w' = localStorage w)
     \/
     (currentStep (ui w') = complete /\
      st_error (ui w') = None /\
      exists payload staticResults,
        timestamp payload = Date_now env /\
        owner (repoInfo payload) = owner repo /\
        name (repoInfo payload) = name repo /\
        wikiMarkdown payload <> "" /\
        shows payload (ui w') /\
        staticAnalysisData payload = Some {| results := staticResults |} /\
        (st_staticAnalysisData (ui w') = Some {| results := staticResults |}
         \/ (st_staticAnalysisData (ui w') = None /\ staticResults = [])) /\
        (List.length staticResults <= 3)%nat /\
        List.NoDup (map sa_path staticResults) /\
        localStorage w'
        = (if quota_ok env payload then Some (Serialized payload) else localStorage w))).
Proof.
  unfold freshRun, pipeline. run_statements.
  destruct (fetchRepoDetails (api env) repo) as [repo'|m] eqn:Hd; cbv beta iota;
    [|eexists; split; [reflexivity|]; split; [reflexivity|]; left;
      repeat split; eexists; reflexivity].
  destruct (fetchRepoDetails_keeps env _ _ Hd) as (Howner & Hname & _).
  destruct (fetchRepoReadme (api env) repo') as [readmeContent|m]; cbv beta iota;
    [|eexists; split; [reflexivity|]; split; [reflexivity|]; left;
      repeat split; eexists; reflexivity].
  destruct (summarizeRepo (ai env) readmeContent) as [summary|m]; cbv beta iota;
    [|eexists; split; [reflexivity|]; split; [reflexivity|]; left;
      repeat split; eexists; reflexivity].
  destruct (scan env repo') as [[[languages files] deps]|m] eqn:Hscan; cbv beta iota;
    [|eexists; split; [reflexivity|]; split; [reflexivity|]; left;
      repeat split; eexists; reflexivity].
  clear Hscan.
  destruct (detectSetup_returns (ai env) deps) as [setup ->]. cbv beta iota.
  destruct (analyzePitfalls_returns (ai env) (JsArray.slice0 15 (deps ++ files)%list))
    as [found ->]. cbv beta iota.
  (* the end of the run, from the state reached before the wiki *)
  assert (Hfinish : forall (st : State) (ls : option Stored) archData staticResults,
            st_url st = st_url (ui w) -> ls = localStorage w ->
            st_error st = None ->
            st_analysisResult st = Some summary ->
            st_deepScanData st
              = Some {| languages := languages; files := files; architecture := archData |} ->
            st_setupData st = Some setup -> st_pitfalls st = found ->
            rawReadme st = readmeContent -> st_dependencyFiles st = deps ->
            (st_staticAnalysisData st = Some {| results := staticResults |}
             \/ (st_staticAnalysisData st = None /\ staticResults = [])) ->
            (List.length staticResults <= 3)%nat ->
            List.NoDup (map sa_path staticResults) ->
            forall data,
              data = {| timestamp := 0; repoInfo := repo'; readme := readmeContent;
                        analysisResult := summary;
                        deepScanData := {| languages := languages; files := files;
                                           architecture := archData |};
                        setupData := setup; pitfalls := found;
                        staticAnalysisData := Some {| results := staticResults |};
                        wikiMarkdown := generateWiki (ai env) readmeContent archData
                                          (Some {| results := staticResults |}) deps;
                        dependencyFiles := deps |} ->
              exists w',
                (let (w1, r) :=
                   let (w1, r) :=
                     saveToCache env data
                       {| ui := setWikiMarkdown (wikiMarkdown data)
                                  (setLogMessage
                                     "Synthesizing comprehensive Wiki documentation..."
                                     (setCurrentStep generating_wiki st));
                          localStorage := ls |} in
                   match r with
                   | Ok _ =>
                       ({| ui := setLogMessage "Full analysis complete."
                                   (setCurrentStep complete (ui w1));
                           localStorage := localStorage w1 |}, Ok tt)
                   | Throw m => (w1, Throw m)
                   end in
                 match r with
                 | Ok tt => (w1, Ok tt)
                 | Throw err =>
                     ({| ui := setError (Some (errorMessage err))
                                 (setCurrentStep error (ui w1));
                         localStorage := localStorage w1 |}, Ok tt)
                 end) = (w', Ok tt) /\
                st_url (ui w') = st_url (ui w) /\
                ((currentStep (ui w') = error /\
                  (exists m, st_error (ui w') = Some (errorMessage m)) /\
                  st_wikiMarkdown (ui w') = "" /\
                  st_staticAnalysisData (ui w') = None /\
                  localStorage w' = localStorage w)
                 \/
                 (currentStep (ui w') = complete /\
                  st_error (ui w') = None /\
                  exists payload staticResults,
                    timestamp payload = Date_now env /\
                    owner (repoInfo payload) = owner repo /\
                    name (repoInfo payload) = name repo /\
                    wikiMarkdown payload <> "" /\
                    shows payload (ui w') /\
                    staticAnalysisData payload = Some {| results := staticResults |} /\
                    (st_staticAnalysisData (ui w') = Some {| results := staticResults |}
                     \/ (st_staticAnalysisData (ui w') = None /\ staticResults = [])) /\
                    (List.length staticResults <= 3)%nat /\
                    List.NoDup (map sa_path staticResults) /\
                    localStorage w'
                    = (if quota_ok env payload then Some (Serialized payload)
                       else localStorage w)))).
  { intros st ls archData staticResults Hurl -> Herr Har Hds Hsd Hpf Hrr Hdf Hsa Hlen Hnd
      data ->.
    unfold saveToCache. cbn [timestamp repoInfo readme analysisResult deepScanData
      setupData pitfalls staticAnalysisData wikiMarkdown dependencyFiles].
    match goal with
    | |- context [quota_ok env ?p] => set (payload := p)
    end.
    assert (Hcommon :
      timestamp payload = Date_now env /\
      owner (repoInfo payload) = owner repo /\
      name (repoInfo payload) = name repo /\
      wikiMarkdown payload <> "")
      by (repeat split; try assumption; apply generateWiki_nonempty).
    destruct Hcommon as (H1 & H2 & H3 & H4).
    destruct (quota_ok env payload) eqn:Hq;
      (eexists; split; [reflexivity|]; split; [exact Hurl|]; right;
       split; [reflexivity|]; split; [exact Herr|];
       exists payload, staticResults;
       split; [exact H1|]; split; [exact H2|]; split; [exact H3|]; split; [exact H4|];
       split; [repeat split; assumption|];
       split; [reflexivity|]; split; [exact Hsa|]; split; [exact Hlen|];
       split; [exact Hnd|]; rewrite ?Hq; reflexivity). }
  destruct (0 <? List.length files)%nat eqn:Hfiles.
  - run_statements.
    destruct (analyzeArchitecture (ai env) files) as [architecture|m]; cbv beta iota;
      [|eexists; split; [reflexivity|]; split; [reflexivity|]; left;
        repeat split; eexists; reflexivity].
    cbv beta iota zeta delta [fst snd].
    match goal with
    | |- context [(0 <? List.length ?eps)%nat] => set (entryPoints := eps)
    end.
    assert (Heps : (List.length entryPoints <= 3)%nat /\ List.NoDup entryPoints).
    { subst entryPoints. split; [apply firstn_le_length|].
      apply NoDup_ListNoDup. eapply sublist_NoDup; [|apply sublist_take].
      apply unique_fresh. }
    destruct Heps as [Hlen Hnd].
    destruct (0 <? List.length entryPoints)%nat eqn:Heps.
    + run_statements.
      match goal with
      | |- context [analyzeEntryPoints env ?r ?e ?a ?w0] =>
          destruct (analyzeEntryPoints_frame env r e a w0)
            as (w1 & res & -> & Hls & Hui & Hres)
      end.
      destruct w1 as [st1 ls1]. cbn [ui localStorage] in Hls, Hui. subst ls1.
      destruct res as [staticResults|m]; cbv beta iota;
        [|destruct Hui as [->|[message ->]];
          (eexists; split; [reflexivity|]; split; [reflexivity|]; left;
           repeat split; eexists; reflexivity)].
      destruct Hres as (added & -> & Hsub). rewrite List.app_nil_l.
      assert (Hadd : (List.length added <= 3)%nat /\ List.NoDup (map sa_path added)).
      { split.
        - apply sublist_length in Hsub. rewrite length_map in Hsub. lia.
        - apply NoDup_ListNoDup. eapply sublist_NoDup; [|exact Hsub].
          now apply NoDup_ListNoDup. }
      destruct Hadd as [Hl Hn].
      destruct Hui as [->|[message ->]];
        (eapply (Hfinish _ _ (Some architecture) added); try reflexivity; try assumption;
         left; reflexivity).
    + run_statements.
      eapply (Hfinish _ _ (Some architecture) []); try reflexivity;
        try (right; split; reflexivity); try (cbn; lia); constructor.
  - run_statements.
    eapply (Hfinish _ _ None []); try reflexivity;
      try (right; split; reflexivity); try (cbn; lia); constructor.
Qed.

End OutcomeFacts.

Import CacheView.

(** A refresh of a valid address is a fresh run, whatever the slot holds. *)
Lemma handleAnalyze_refresh (e : Env) (w : World) (repo : RepoInfo) :
  parseGithubUrl (st_url (ui w)) = Some repo ->
  handleAnalyze e true w = freshRun e repo w.
Proof.
  intros Hparse. unfold handleAnalyze. rewrite Hparse.
  now destruct (localStorage w).
Qed.

(** A fresh run never rejects. *)
Lemma freshRun_returns (e : Env) (repo : RepoInfo) (w : World) :
  snd (freshRun e repo w) = Ok tt.
Proof. destruct (freshRun_outcome e repo w) as (w' & -> & _). reflexivity. Qed.

(** [X13] A refreshed analysis never rejects and never stops at an
    intermediate step: it ends in the [error] step, with a non-empty message
    and the cache slot as it was, or in the [complete] step, with no error
    and a non-empty wiki; the address typed by the user is left as it is. *)
Theorem refreshed_analysis_ends_complete_or_in_error (e : Env) (w : World) :
  exists w',
    handleAnalyze e true w = (w', Ok tt) /\
    st_url (ui w') = st_url (ui w) /\
    ((currentStep (ui w') = error /\
      (exists m, st_error (ui w') = Some m /\ m <> "") /\
      localStorage w' = localStorage w)
     \/ (currentStep (ui w') = complete /\
         st_error (ui w') = None /\
         st_wikiMarkdown (ui w') <> "")).
Proof.
  destruct (parseGithubUrl (st_url (ui w))) as [repo|] eqn:Hparse;
    [rewrite (handleAnalyze_refresh e w repo Hparse)
    |unfold handleAnalyze; rewrite Hparse].
  - destruct (freshRun_outcome e repo w) as (w' & Hrun & Hurl & Hend).
    exists w'. split; [exact Hrun|]. split; [exact Hurl|].
    destruct Hend as [(Hs & [m Hm] & _ & _ & Hls)|(Hs & He & payload & sr & Hp)].
    + left. split; [exact Hs|]. split; [|exact Hls].
      exists (errorMessage m). split; [exact Hm|apply errorMessage_nonempty].
    + right. split; [exact Hs|]. split; [exact He|].
      destruct Hp as (_ & _ & _ & Hw & (_ & _ & _ & _ & -> & _) & _). exact Hw.
  - eexists. split; [reflexivity|]. split; [reflexivity|]. left.
    split; [reflexivity|]. split; [|reflexivity].
    eexists. split; [reflexivity|discriminate].
Qed.

(** [X14] When a refreshed analysis completes, the report it hands to the
    cache carries the time of the run and the owner and name parsed from the
    address, and holds what the screen shows; it replaces whatever the slot
    held, unless the storage refuses the write, and once stored, analysing
    the same address again restores from the cache, without a new run, the
    summary, the scan, the setup, the pitfalls and the wiki that are on the
    screen. *)
Theorem completed_run_is_cached_and_restored (e : Env) (w w' : World)
    (repo : RepoInfo) (r : result unit) :
  parseGithubUrl (st_url (ui w)) = Some repo ->
  handleAnalyze e true w = (w', r) ->
  currentStep (ui w') = complete ->
  exists payload,
    timestamp payload = Date_now e /\
    owner (repoInfo payload) = owner repo /\
    name (repoInfo payload) = name repo /\
    shows payload (ui w') /\
    localStorage w'
    = (if quota_ok e payload then Some (Serialized payload) else localStorage w) /\
    (quota_ok e payload = true ->
     exists w'',
       handleAnalyze e false w' = (w'', Ok tt) /\
       localStorage w'' = localStorage w' /\
       currentStep (ui w'') = complete /\
       logMessage (ui w'') = "Restored from Cache" /\
       shows payload (ui w'') /\
       st_wikiMarkdown (ui w'') = st_wikiMarkdown (ui w') /\
       st_analysisResult (ui w'') = st_analysisResult (ui w') /\
       st_deepScanData (ui w'') = st_deepScanData (ui w') /\
       st_setupData (ui w'') = st_setupData (ui w') /\
       st_pitfalls (ui w'') = st_pitfalls (ui w')).
Proof.
  intros Hparse Hrun Hstep. rewrite (handleAnalyze_refresh _ _ _ Hparse) in Hrun.
  destruct (freshRun_outcome e repo w) as (w1 & Hrun1 & Hurl & Hend).
  rewrite Hrun1 in Hrun. injection Hrun as <- <-.
  destruct Hend as [(Hs & _)|(_ & _ & payload & sr & Ht & Ho & Hn & _ & Hshows & _ & _ & _ & _ & Hls)];
    [congruence|].
  exists payload. split; [exact Ht|]. split; [exact Ho|]. split; [exact Hn|].
  split; [exact Hshows|]. split; [exact Hls|].
  intros Hq. rewrite Hq in Hls.
  destruct (cached_report_is_restored_at_any_age e w1 payload repo Hls) as [Hrestore _];
    [now rewrite Hurl|exact Hn|exact Ho|].
  eexists. split; [exact Hrestore|].
  destruct Hshows as (H1 & H2 & H3 & H4 & H5 & H6 & H7).
  cbn [ui localStorage]. split; [reflexivity|]. split; [reflexivity|].
  split; [reflexivity|]. split; [now repeat split|].
  cbn. now rewrite H1, H2, H3, H4, H5.
Qed.

Lemma completed_run_is_cached_and_restored_witness :
  exists payload w'',
    timestamp payload = 7200000%Z /\
    owner (repoInfo payload) = "o" /\ name (repoInfo payload) = "r" /\
    localStorage (fst (handleAnalyze Demo.env true Demo.staleWorld))
    = Some (Serialized payload) /\
    handleAnalyze Demo.env false (fst (handleAnalyze Demo.env true Demo.staleWorld))
    = (w'', Ok tt) /\
    logMessage (ui w'') = "Restored from Cache" /\
    st_wikiMarkdown (ui w'')
    = st_wikiMarkdown (ui (fst (handleAnalyze Demo.env true Demo.staleWorld))).
Proof.
  destruct (completed_run_is_cached_and_restored Demo.env Demo.staleWorld
              (fst (handleAnalyze Demo.env true Demo.staleWorld)) Samples.parsed
              (snd (handleAnalyze Demo.env true Demo.staleWorld)))
    as (payload & Ht & Ho & Hn & _ & Hls & Hrestore).
  - vm_compute. reflexivity.
  - now destruct (handleAnalyze Demo.env true Demo.staleWorld).
  - vm_compute. reflexivity.
  - destruct (Hrestore eq_refl) as (w'' & Hr & _ & _ & Hlog & _ & Hwiki & _).
    exists payload, w''. repeat split; assumption.
Defined.

(** [X15] The deep static analysis of a run covers at most three files, no
    file twice. *)
Theorem static_analysis_covers_at_most_3_distinct_files (e : Env) (w w' : World)
    (repo : RepoInfo) (r : result unit) (d : StaticAnalysisData) :
  parseGithubUrl (st_url (ui w)) = Some repo ->
  handleAnalyze e true w = (w', r) ->
  st_staticAnalysisData (ui w') = Some d ->
  (List.length (results d) <= 3)%nat /\ List.NoDup (map sa_path (results d)).
Proof.
  intros Hparse Hrun Hd. rewrite (handleAnalyze_refresh _ _ _ Hparse) in Hrun.
  destruct (freshRun_outcome e repo w) as (w1 & Hrun1 & _ & Hend).
  rewrite Hrun1 in Hrun. injection Hrun as <- <-.
  destruct Hend as [(_ & _ & _ & Hnone & _)|(_ & _ & payload & sr & Hp)]; [congruence|].
  destruct Hp as (_ & _ & _ & _ & _ & _ & [Hs|[Hs _]] & Hlen & Hnd & _); [|congruence].
  rewrite Hs in Hd. injection Hd as <-. now split.
Qed.

Lemma static_analysis_covers_at_most_3_distinct_files_witness :
  exists d,
    st_staticAnalysisData (ui (fst (handleAnalyze Demo.env true Demo.emptyWorld))) = Some d /\
    map sa_path (results d) = ["src/index.ts"; "src/App.tsx"; "app/server.js"] /\
    (List.length (results d) <= 3)%nat.
Proof.
  destruct (st_staticAnalysisData (ui (fst (handleAnalyze Demo.env true Demo.emptyWorld))))
    as [d|] eqn:Hd; [|vm_compute in Hd; discriminate].
  exists d. split; [reflexivity|].
  split; [vm_compute in Hd; injection Hd as <-; reflexivity|].
  apply (static_analysis_covers_at_most_3_distinct_files Demo.env Demo.emptyWorld
           (fst (handleAnalyze Demo.env true Demo.emptyWorld)) Samples.parsed
           (snd (handleAnalyze Demo.env true Demo.emptyWorld)) d).
  - vm_compute. reflexivity.
  - now destruct (handleAnalyze Demo.env true Demo.emptyWorld).
  - exact Hd.
Defined.

(** [X16] An address without [github.com/<owner>/<name>] is refused before
    anything else happens: whatever the services would answer and whatever
    the cache holds, the step becomes [error] with the message about the
    format, and the results on the screen and the cache slot stay as they
    were. *)
Theorem address_without_repository_is_refused (e : Env) (skipCache : bool) (w : World) :
  ~ has_repo_pattern (st_url (ui w)) ->
  exists w',
    handleAnalyze e skipCache w = (w', Ok tt) /\
    currentStep (ui w') = error /\
    st_error (ui w') = Some "Invalid GitHub URL. Format: https://github.com/owner/repo" /\
    localStorage w' = localStorage w /\
    st_wikiMarkdown (ui w') = st_wikiMarkdown (ui w) /\
    st_analysisResult (ui w') = st_analysisResult (ui w) /\
    st_deepScanData (ui w') = st_deepScanData (ui w) /\
    st_staticAnalysisData (ui w') = st_staticAnalysisData (ui w) /\
    forall e' skipCache', handleAnalyze e' skipCache' w = (w', Ok tt).
Proof.
  intros Hno.
  assert (Hparse : parseGithubUrl (st_url (ui w)) = None).
  { unfold parseGithubUrl. pose proof (regex_match_spec (trim (st_url (ui w)))) as Hspec.
    destruct (regex_match (trim (st_url (ui w)))) as [[o n]|]; [|reflexivity].
    destruct Hspec as (pre & rest & M & _). exfalso. apply Hno.
    apply has_repo_pattern_trim. now exists pre, o, n, rest. }
  unfold handleAnalyze. rewrite Hparse.
  eexists. split; [reflexivity|]. repeat split.
Qed.

Lemma address_without_repository_is_refused_witness :
  exists w',
    handleAnalyze Demo.env false
      {| ui := setUrl "https://gitlab.com/o/r" (restore Demo.staleReport initialState);
         localStorage := Some (Serialized Demo.staleReport) |} = (w', Ok tt) /\
    currentStep (ui w') = error /\
    st_wikiMarkdown (ui w') = "# old wiki".
Proof.
  destruct (address_without_repository_is_refused Demo.env false
              {| ui := setUrl "https://gitlab.com/o/r" (restore Demo.staleReport initialState);
                 localStorage := Some (Serialized Demo.staleReport) |})
    as (w' & Hrun & Hstep & _ & _ & Hwiki & _).
  - intros H.
    assert (Hnone : regex_match "https://gitlab.com/o/r" = None) by (vm_compute; reflexivity).
    pose proof (regex_match_spec "https://gitlab.com/o/r") as Hspec.
    rewrite Hnone in Hspec. exact (Hspec H).
  - exists w'. split; [exact Hrun|]. split; [exact Hstep|]. rewrite Hwiki. reflexivity.
Defined.

(** [X17] The effect that runs on mount never changes the screen, and it
    removes the slot exactly when its text is not empty and either does not
    parse or parses to [null]; the empty text, a report of any age and JSON
    for a value without [repoInfo], such as [{}], stay.  With a valid
    address, the cache check of [handleAnalyze] rejects, everything being
    left as it was, on text that is not empty and does not parse, on [null]
    and on a value without [repoInfo]; the empty text is skipped.  So after
    the effect, [handleAnalyze] rejects exactly when the cache is consulted
    for a valid address and the slot holds a value without [repoInfo]. *)
Theorem mount_effect_removes_only_what_it_cannot_read (e : Env) (now : Z) (w : World) :
  ui (loadCacheOnMount now w) = ui w /\
  (forall saved,
     localStorage w = Some saved ->
     (localStorage (loadCacheOnMount now w) = None <->
      (exists c text, saved = Unparsable (String c text)) \/ saved = JsonNull) /\
     (localStorage (loadCacheOnMount now w) <> None -> loadCacheOnMount now w = w)) /\
  (forall repo,
     parseGithubUrl (st_url (ui w)) = Some repo ->
     (forall c text,
        localStorage w = Some (Unparsable (String c text)) ->
        handleAnalyze e false w = (w, Throw "SyntaxError")) /\
     (localStorage w = Some JsonNull \/ localStorage w = Some NoRepoInfo ->
      handleAnalyze e false w = (w, Throw "TypeError")) /\
     (localStorage w = Some (Unparsable "") ->
      handleAnalyze e false w = handleAnalyze e true w)) /\
  (forall skipCache,
     (exists m, snd (handleAnalyze e skipCache (loadCacheOnMount now w)) = Throw m) <->
     skipCache = false /\
     localStorage w = Some NoRepoInfo /\
     parseGithubUrl (st_url (ui w)) <> None).
Proof.
  assert (Hui : ui (loadCacheOnMount now w) = ui w).
  { unfold loadCacheOnMount.
    destruct (localStorage w) as [[report|[|c text]| |]|]; read_slot; try reflexivity.
    now destruct (_ <? _)%Z. }
  split; [exact Hui|]. split; [|split].
  - intros saved Hls. unfold loadCacheOnMount. rewrite Hls.
    destruct saved as [report|[|c text]| |]; read_slot.
    + assert (E : (if (now - timestamp report <? 3600000)%Z then w else w) = w)
        by now destruct (_ <? _)%Z.
      rewrite E, Hls. split; [|reflexivity].
      split; [discriminate|]. intros [(c & text & H)|H]; discriminate.
    + rewrite Hls. split; [|reflexivity].
      split; [discriminate|]. intros [(c & text & H)|H]; discriminate.
    + cbn [localStorage]. split; [|intros H; now contradiction H].
      split; [|reflexivity]. intros _. left. now exists c, text.
    + cbn [localStorage]. split; [|intros H; now contradiction H].
      split; [|reflexivity]. intros _. now right.
    + rewrite Hls. split; [|reflexivity].
      split; [discriminate|]. intros [(c & text & H)|H]; discriminate.
  - intros repo Hparse. unfold handleAnalyze. rewrite Hparse. repeat split.
    + intros c text ->. reflexivity.
    + intros [->| ->]; reflexivity.
    + intros ->. reflexivity.
  - intros skipCache. split.
    + intros [m Hm]. unfold handleAnalyze in Hm. rewrite Hui in Hm.
      destruct (parseGithubUrl (st_url (ui w))) as [repo|] eqn:Hparse;
        [|discriminate].
      unfold loadCacheOnMount in Hm.
      destruct skipCache;
        destruct (localStorage w) as [[report|[|c text]| |]|] eqn:Hls;
        read_slot in Hm;
        try (assert (E : (if (now - timestamp report <? 3600000)%Z then w else w) = w)
               by (now destruct (_ <? _)%Z); rewrite E in Hm);
        cbn [localStorage ui] in Hm;
        try rewrite Hls in Hm; read_slot in Hm;
        try (rewrite freshRun_returns in Hm; discriminate);
        try (now repeat split).
      match type of Hm with
      | context [String.eqb ?a ?b && String.eqb ?c ?d] =>
          destruct (String.eqb a b && String.eqb c d)
      end; [discriminate|].
      rewrite freshRun_returns in Hm. discriminate.
    + intros (-> & Hls & Hparse).
      destruct (parseGithubUrl (st_url (ui w))) as [repo|] eqn:Hp; [|contradiction].
      assert (Hkept : loadCacheOnMount now w = w).
      { unfold loadCacheOnMount. rewrite Hls. reflexivity. }
      rewrite Hkept. unfold handleAnalyze. rewrite Hp, Hls. now exists "TypeError".
Qed.

Lemma mount_effect_removes_only_what_it_cannot_read_witness :
  handleAnalyze Demo.env false Samples.brokenWorld
    = (Samples.brokenWorld, Throw "SyntaxError") /\
  localStorage (loadCacheOnMount 7200000 Samples.brokenWorld) = None /\
  loadCacheOnMount 7200000 Samples.emptyObjectWorld = Samples.emptyObjectWorld /\
  exists m,
    snd (handleAnalyze Demo.env false (loadCacheOnMount 7200000 Samples.emptyObjectWorld))
    = Throw m.
Proof.
  destruct (mount_effect_removes_only_what_it_cannot_read
              Demo.env 7200000 Samples.brokenWorld)
    as (_ & Hslot & Hcheck & _).
  destruct (mount_effect_removes_only_what_it_cannot_read
              Demo.env 7200000 Samples.emptyObjectWorld)
    as (_ & Hslot' & _ & Hafter).
  destruct (Hcheck Samples.parsed) as (Hsyntax & _); [vm_compute; reflexivity|].
  destruct (Hslot (Unparsable "{") eq_refl) as [Hremoved _].
  destruct (Hslot' NoRepoInfo eq_refl) as [_ Hkept].
  split; [apply (Hsyntax "{"%char ""); reflexivity|].
  split; [apply Hremoved; left; now exists "{"%char, ""|].
  split; [apply Hkept; discriminate|].
  apply Hafter. split; [reflexivity|]. split; [reflexivity|].
  vm_compute. discriminate.
Defined.

(** [X18] The single slot serves one repository: a stored report whose owner
    or name differs from the parsed address is not restored, the call runs
    as a refresh does. *)
Theorem report_of_another_repository_is_not_restored (e : Env) (w : World)
    (report : CachedRepoData) (repo : RepoInfo) :
  localStorage w = Some (Serialized report) ->
  parseGithubUrl (st_url (ui w)) = Some repo ->
  name (repoInfo report) <> name repo \/ owner (repoInfo report) <> owner repo ->
  handleAnalyze e false w = handleAnalyze e true w.
Proof.
  intros Hls Hparse Hdiff. unfold handleAnalyze. rewrite Hparse, Hls. read_slot.
  destruct Hdiff as [H|H]; apply String.eqb_neq in H; rewrite H;
    [reflexivity|now rewrite andb_false_r].
Qed.

Lemma report_of_another_repository_is_not_restored_witness :
  handleAnalyze Demo.env false Samples.otherWorld
    = handleAnalyze Demo.env true Samples.otherWorld /\
  logMessage (ui (fst (handleAnalyze Demo.env false Samples.otherWorld)))
    = "Full analysis complete.".
Proof.
  split; [|vm_compute; reflexivity].
  apply (report_of_another_repository_is_not_restored Demo.env Samples.otherWorld
           Demo.staleReport
           {| owner := "o"; name := "other"; url := "https://github.com/o/other";
              defaultBranch := None |});
    [reflexivity|vm_compute; reflexivity|left; discriminate].
Defined.

(** ** The simulated test run and the progress bar *)

Section SandboxFacts.
Import SandboxService.
Variable ai : GenAI.
Variable parse : string -> result TestSummary.

(** [X19] The summary of a test run never fails and always carries the raw
    output it was given; the model is shown the first 10000 units only, so
    two outputs that agree there get the same verdict. *)
Theorem test_summary_depends_on_the_first_10000_units (r1 r2 : string) :
  substring r1 0 10000 = substring r2 0 10000 ->
  rawOutput (summarizeTestOutput ai parse r1) = r1 /\
  rawOutput (summarizeTestOutput ai parse r2) = r2 /\
  summary (summarizeTestOutput ai parse r1) = summary (summarizeTestOutput ai parse r2) /\
  failures (summarizeTestOutput ai parse r1) = failures (summarizeTestOutput ai parse r2) /\
  fixes (summarizeTestOutput ai parse r1) = fixes (summarizeTestOutput ai parse r2) /\
  status (summarizeTestOutput ai parse r1) = status (summarizeTestOutput ai parse r2).
Proof.
  intros Hsame. unfold summarizeTestOutput, outputPrompt. rewrite Hsame.
  destruct (generateContent ai _) as [[t|]|m]; cbn; [|now repeat split..].
  destruct (parse t); cbn; now repeat split.
Qed.

(** [X20] The simulated run never fails and never returns the empty string:
    an answer without text and a rejected request are replaced by fixed
    messages. *)
Theorem simulation_output_is_never_empty (files : list FileExcerpt) (testCommand : string) :
  runSandboxSimulation ai files testCommand <> "" /\
  (forall m, generateContent ai (simulationPrompt files testCommand) = Throw m ->
     runSandboxSimulation ai files testCommand
     = "Error: Sandbox simulation timed out or failed.") /\
  (forall text, generateContent ai (simulationPrompt files testCommand) = Ok text ->
     runSandboxSimulation ai files testCommand
     = match text with
       | Some t => if String.eqb t "" then "Simulation failed to generate output." else t
       | None => "Simulation failed to generate output."
       end).
Proof.
  unfold runSandboxSimulation.
  destruct (generateContent ai _) as [[[|c t]|]|m]; (split; [discriminate|]);
    split; intros ? E; try discriminate; try reflexivity;
    injection E as <-; reflexivity.
Qed.

End SandboxFacts.

Lemma test_summary_depends_on_the_first_10000_units_witness :
  SandboxService.rawOutput (SandboxService.summarizeTestOutput Samples.unreachable (fun _ => Throw "SyntaxError")
               (JsString.repeat "a" 10000 +:+ "PASS"))
  = JsString.repeat "a" 10000 +:+ "PASS" /\
  SandboxService.status
    (SandboxService.summarizeTestOutput Samples.unreachable (fun _ => Throw "SyntaxError")
       (JsString.repeat "a" 10000 +:+ "PASS"))
  = SandboxService.status
      (SandboxService.summarizeTestOutput Samples.unreachable (fun _ => Throw "SyntaxError")
         (JsString.repeat "a" 10000 +:+ "FAIL")).
Proof.
  destruct (test_summary_depends_on_the_first_10000_units Samples.unreachable
              (fun _ => Throw "SyntaxError")
              (JsString.repeat "a" 10000 +:+ "PASS") (JsString.repeat "a" 10000 +:+ "FAIL"))
    as (H1 & _ & _ & _ & _ & H2).
  - vm_compute. reflexivity.
  - split; [exact H1|exact H2].
Defined.

Section ProgressFacts.
Import ProgressBar.

Local Ltac listed k :=
  left; exists k; split; reflexivity.

(** [X21] The progress bar has one dot for each of its ten steps.  At a
    step of the list the dots before it are done, its own is active and those
    after it are pending; at a step that is not in the list, such as
    [analyzing_pitfalls], [running_sandbox] or [error], every dot is
    pending. *)
Theorem progress_bar_marks_done_active_pending (s : Step) :
  (exists k, nth_error stepsList k = Some (step_name s) /\
             markers s = (List.repeat Done k ++ Active :: List.repeat Pending (9 - k))%list)
  \/ (~ In (step_name s) stepsList /\ markers s = List.repeat Pending 10).
Proof.
  destruct s;
    first [ listed 0%nat | listed 1%nat | listed 2%nat | listed 3%nat | listed 4%nat
          | listed 5%nat | listed 6%nat | listed 7%nat | listed 8%nat | listed 9%nat
          | right; split; [cbn; intuition discriminate|reflexivity] ].
Qed.

End ProgressFacts.

(** ** A model that cannot be reached *)

(** [X22] When every request to the model is rejected, the tolerant stages
    still return: the setup detection its default, with the note
    [Error during detection.] when there are dependency files and without
    asking when there are none, the pitfall analysis the empty list, the wiki
    generation its fixed error page. *)
Theorem tolerant_stages_fall_back_when_the_model_is_unreachable (ai : GenAI) :
  (forall prompt, exists m, generateContent ai prompt = Throw m) ->
  (forall deps,
     detectSetup ai deps
     = Ok (setupDefault (match deps with
                         | [] => "No dependency files found."
                         | _ => "Error during detection."
                         end))) /\
  (forall files, analyzePitfalls ai files = Ok []) /\
  (forall readme architecture staticAnalysis deps,
     generateWiki ai readme architecture staticAnalysis deps
     = "# Error generating wiki" +:+ nl +:+ nl +:+ "Failed to synthesize documentation.").
Proof.
  intros rejected. split; [|split].
  - intros [|d deps]; [reflexivity|]. unfold detectSetup. cbn [List.length Nat.eqb].
    cbv zeta. destruct (rejected (setupPrompt (d :: deps))) as [m ->]. reflexivity.
  - intros files. unfold analyzePitfalls. cbv zeta.
    destruct (rejected (pitfallsPrompt files)) as [m ->]. reflexivity.
  - intros readme architecture staticAnalysis deps. unfold generateWiki. cbv zeta.
    match goal with |- context [generateContent ai ?p] =>
      destruct (rejected p) as [m ->] end.
    reflexivity.
Qed.

Lemma tolerant_stages_fall_back_when_the_model_is_unreachable_witness :
  analyzePitfalls Samples.unreachable [] = Ok [] /\
  detectSetup Samples.unreachable [] = Ok (setupDefault "No dependency files found.").
Proof.
  destruct (tolerant_stages_fall_back_when_the_model_is_unreachable Samples.unreachable)
    as (Hs & Hp & _).
  - intros prompt. exists "API key not valid". reflexivity.
  - split; [apply Hp|apply (Hs [])].
Defined.

(** [X23] When every request to the model is rejected, a refreshed analysis
    of a valid address always ends in the [error] step, with no analysis and
    no wiki on the screen and the cache slot as it was; if GitHub delivered
    the repository details and the README, the message is the one of the
    summary stage and the README stays on the screen. *)
Theorem unreachable_model_ends_every_run_in_error (e : Env) (w : World) (repo : RepoInfo) :
  parseGithubUrl (st_url (ui w)) = Some repo ->
  (forall prompt, exists m, generateContent (ai e) prompt = Throw m) ->
  exists w',
    handleAnalyze e true w = (w', Ok tt) /\
    currentStep (ui w') = error /\
    localStorage w' = localStorage w /\
    st_analysisResult (ui w') = None /\
    st_wikiMarkdown (ui w') = "" /\
    forall details readme,
      fetchRepoDetails (api e) repo = Ok details ->
      fetchRepoReadme (api e) details = Ok readme ->
      st_error (ui w') = Some "Failed to analyze the repository content." /\
      rawReadme (ui w') = readme.
Proof.
  intros Hparse Hrej. rewrite (handleAnalyze_refresh _ _ _ Hparse).
  unfold freshRun, pipeline. run_statements.
  destruct (fetchRepoDetails (api e) repo) as [details|m1];
    [|eexists; do 5 (split; [reflexivity|]); intros; discriminate].
  cbv beta iota.
  destruct (fetchRepoReadme (api e) details) as [readme|m2] eqn:Hreadme;
    [|eexists; do 5 (split; [reflexivity|]); intros ? ? [= <-] ?; congruence].
  cbv beta iota.
  assert (Hs : summarizeRepo (ai e) readme
               = Throw "Failed to analyze the repository content.").
  { unfold summarizeRepo. cbv zeta.
    destruct (Hrej (summarizePrompt readme)) as [m ->]. reflexivity. }
  rewrite Hs. eexists. do 5 (split; [reflexivity|]).
  intros details' readme' [= <-] Hr. cbn. split; congruence.
Qed.

Lemma unreachable_model_ends_every_run_in_error_witness :
  exists w',
    handleAnalyze Samples.offline true Demo.staleWorld = (w', Ok tt) /\
    currentStep (ui w') = error /\
    localStorage w' = Some (Serialized Demo.staleReport) /\
    st_error (ui w') = Some "Failed to analyze the repository content.".
Proof.
  destruct (unreachable_model_ends_every_run_in_error Samples.offline Demo.staleWorld
              Samples.parsed)
    as (w' & Hrun & Hstep & Hls & _ & _ & Hmsg).
  - vm_compute. reflexivity.
  - intros prompt. exists "API key not valid". reflexivity.
  - exists w'. split; [exact Hrun|]. split; [exact Hstep|]. split; [exact Hls|].
    destruct (fetchRepoDetails (api Samples.offline) Samples.parsed) as [details|] eqn:Hd;
      [|vm_compute in Hd; discriminate].
    destruct (fetchRepoReadme (api Samples.offline) details) as [readme|] eqn:Hr;
      [|vm_compute in Hd; injection Hd as <-; vm_compute in Hr; discriminate].
    exact (proj1 (Hmsg details readme eq_refl Hr)).
Defined.
